(** * cfdata: address sampling, probing, latency testing and aggregation

    A shallow embedding of [cfdata.py] and the properties its specification
    states about it.  Python [int] is [Z]; Python [float] is IEEE 754
    binary64, computed with the Standard Library's [SpecFloat]; [str] and
    [bytes] are [string]; a [dict] is a [gmap]; a raised exception is a
    value of [exn] threaded through the [result] type. *)

From Stdlib Require Import ZArith String Ascii List Lia SpecFloat.
From Stdlib Require Import Sorting Permutation.
From Stdlib Require Import DecimalString HexadecimalString.
From stdpp Require Import gmap strings list.
Import ListNotations.
Open Scope Z_scope.

(** ** Python values *)

(** The exceptions the modelled code can meet.  All of them derive from
    Python's [Exception], so an [except Exception] clause catches each. *)
Inductive exn : Type :=
  | TimeoutError
  | ConnectionRefusedError
  | ConnectionResetError
  | OSError
  | UnicodeError
  | ValueError
  | OverflowError
  | ZeroDivisionError.

Inductive result (A : Type) : Type :=
  | Ok (a : A)
  | Raise (e : exn).
Arguments Ok {A} a.
Arguments Raise {A} e.

#[global] Instance result_ret : MRet result := fun A a => Ok a.

#[global] Instance result_bind : MBind result := fun A B k m =>
  match m with
  | Ok a => k a
  | Raise e => Raise e
  end.

(** [for x in l: body], stopping at the first exception. *)
Fixpoint mapM_result {A B : Type} (f : A -> result B) (l : list A)
    : result (list B) :=
  match l with
  | [] => Ok []
  | a :: l' => b ← f a; bs ← mapM_result f l'; Ok (b :: bs)
  end.

(** Python floats: IEEE 754 binary64 with round-to-nearest-even. *)
Module PyFloat.

Definition prec : Z := 53.
Definition emax : Z := 1024.

Definition float : Type := spec_float.

Definition is_zero (x : float) : bool :=
  match x with
  | S754_zero _ => true
  | _ => false
  end.

Definition is_infinite (x : float) : bool :=
  match x with
  | S754_infinity _ => true
  | _ => false
  end.

(** The float an int literal stands for in mixed arithmetic. *)
Definition const (z : Z) : float := binary_normalize prec emax z 0 false.

(** [float(z)], also implicit in [z / x] and [x * z]: the nearest float,
    [OverflowError] when [z] is too large for one. *)
Definition of_int (z : Z) : result float :=
  let x := const z in
  if is_infinite x then Raise OverflowError else Ok x.

Definition mul (x y : float) : float := SFmul prec emax x y.

(** [x / y]: a zero divisor raises instead of producing an infinity. *)
Definition truediv (x y : float) : result float :=
  if is_zero y then Raise ZeroDivisionError else Ok (SFdiv prec emax x y).

(** The int [z], not zero, as an unrounded binary number. *)
Definition exact (z : Z) : float :=
  S754_finite (z <? 0) (Z.to_pos (Z.abs z)) 0.

(** [a / b] on two ints: the quotient of the exact operands rounded
    once, [OverflowError] when it is too large for a float. *)
Definition int_truediv (a b : Z) : result float :=
  if b =? 0 then Raise ZeroDivisionError
  else if a =? 0 then Ok (S754_zero (b <? 0))
  else
    let x := SFdiv prec emax (exact a) (exact b) in
    if is_infinite x then Raise OverflowError else Ok x.

(** [int(x)]: truncation toward zero; [nan] raises [ValueError] and an
    infinity raises [OverflowError]. *)
Definition to_int (x : float) : result Z :=
  match x with
  | S754_zero _ => Ok 0
  | S754_finite s m e =>
      Ok (cond_Zopp s
            (match e with
             | Zneg p => Z.shiftr (Zpos m) (Zpos p)
             | _ => Z.shiftl (Zpos m) e
             end))
  | S754_infinity _ => Raise OverflowError
  | S754_nan => Raise ValueError
  end.

(** The integer [x] rounds to away from zero, as [_PyTime_ROUND_UP]
    does with a timeout; [nan] and the infinities round to none. *)
Definition round_up (x : float) : result Z :=
  match x with
  | S754_zero _ => Ok 0
  | S754_finite s m e =>
      Ok (cond_Zopp s
            (match e with
             | Zneg p => - ((- Zpos m) / 2 ^ Zpos p)
             | _ => Z.shiftl (Zpos m) e
             end))
  | S754_infinity _ => Raise OverflowError
  | S754_nan => Raise ValueError
  end.

Definition eqb (x y : float) : bool := SFeqb x y.
Definition ltb (x y : float) : bool := SFltb x y.

Definition inf : float := S754_infinity false.

End PyFloat.

(** A number that is either an [int] or [float('inf')], the two values
    [min_latency] takes in [test_ip]. *)
Inductive pynum : Type :=
  | PInt (z : Z)
  | PInf.

(** [min(a, b)] for [a] an int or [inf] and [b] an int. *)
Definition py_min (a : pynum) (b : Z) : pynum :=
  match a with
  | PInf => PInt b
  | PInt z => PInt (Z.min z b)
  end.

(** [a + b], as [sum] folds it. *)
Definition pynum_add (a b : pynum) : pynum :=
  match a, b with
  | PInt x, PInt y => PInt (x + y)
  | _, _ => PInf
  end.

(** [x / count] for [x] an int or [inf] and [count] an int. *)
Definition pynum_truediv (x : pynum) (count : Z) : result PyFloat.float :=
  match x with
  | PInt z => PyFloat.int_truediv z count
  | PInf => c ← PyFloat.of_int count; PyFloat.truediv PyFloat.inf c
  end.

(** ** Strings *)

Module PyStr.

(** [str(n)] for an int. *)
Definition str (n : Z) : string :=
  DecimalString.NilZero.string_of_int (Z.to_int n).

(** [f"{n:x}"]: lowercase hexadecimal, no padding. *)
Definition format_x (n : Z) : string :=
  HexadecimalString.NilZero.string_of_int (Z.to_hex_int n).

(** [s.endswith(suffix)]. *)
Fixpoint endswith (s suffix : string) : bool :=
  if (String.length s =? String.length suffix)%nat then String.eqb s suffix
  else
    match s with
    | EmptyString => false
    | String _ s' => endswith s' suffix
    end.

(** [s[:-n]] for [n > 0]: everything but the last [n] characters. *)
Definition drop_last (n : nat) (s : string) : string :=
  String.substring 0 (String.length s - n) s.

(** [s.split(sep)] for a one-character separator: never empty, one
    more piece than there are separators. *)
Fixpoint split (sep : ascii) (s : string) : list string :=
  match s with
  | EmptyString => [EmptyString]
  | String c s' =>
      if Ascii.eqb c sep then EmptyString :: split sep s'
      else
        match split sep s' with
        | [] => [String c EmptyString]
        | piece :: rest => String c piece :: rest
        end
  end.

(** [sep.join(pieces)]. *)
Definition join (sep : string) (pieces : list string) : string :=
  String.concat sep pieces.

(** [needle in s]. *)
Fixpoint contains (needle s : string) : bool :=
  if String.prefix needle s then true
  else
    match s with
    | EmptyString => false
    | String _ s' => contains needle s'
    end.

End PyStr.

(** ** Data types *)

Module TestResult.
Record t : Type := mk {
  ip : string;
  min_latency : pynum;
  max_latency : Z;
  avg_latency : Z;
  loss_rate : PyFloat.float
}.
End TestResult.

Module Location.
Record t : Type := mk {
  iata : string;
  lat : PyFloat.float;
  lon : PyFloat.float;
  cca2 : string;
  region : string;
  city : string
}.
End Location.

Module ScanResult.
Record t : Type := mk {
  ip : string;
  data_center : string;
  region : string;
  city : string;
  latency_ms : Z
}.
End ScanResult.

(** ** Worker pools

    Both stages submit one worker call per address and read the futures
    back in submission order, keeping the results that are not [None].
    The calls share a progress counter, incremented under a lock; the pool
    is modelled with the calls taken one after the other in that order.
    A worker receives the position of its address, its address and the
    counter, and returns its result with the new counter, or raises, in
    which case [future.result()] raises in the caller. *)

Section Pool.
Context {A : Type}.
Variable worker : nat -> string -> Z -> result (option A * Z).

Fixpoint run_pool_from (i : nat) (ip_list : list string) (count : Z)
    : result (list A * Z) :=
  match ip_list with
  | [] => Ok ([], count)
  | ip :: rest =>
      '(r, count') ← worker i ip count;
      '(results, count'') ← run_pool_from (S i) rest count';
      Ok (match r with
          | Some x => x :: results
          | None => results
          end, count'')
  end.

Definition run_pool (ip_list : list string) : result (list A * Z) :=
  run_pool_from 0 ip_list 0.
End Pool.

(** The [finally] block of both workers: count the finished call and
    compute the percentage shown, [count / total * 100]. *)
Definition report_progress (total count : Z) : result Z :=
  let count := count + 1 in
  ratio ← PyFloat.int_truediv count total;
  let percentage := PyFloat.mul ratio (PyFloat.const 100) in
  Ok count.

(** [try: body / except Exception: handler / finally: report_progress /
    return None]: an exception of the body is swallowed and the call
    returns [None]; one raised by the [finally] block propagates. *)
Definition guarded {A : Type} (body : result (option A)) (total count : Z)
    : result (option A * Z) :=
  let r := match body with
           | Ok r => r
           | Raise _ => None
           end in
  count' ← report_progress total count;
  Ok (r, count').

(** ** LatencyTester: [test_ip] and [run_detailed_test] *)

(** What one connection attempt of [test_ip] does: some call between
    [socket.socket] and [sock.close] raises, or the connection is made and
    closed and [latency_ms] has been measured. *)
Inductive attempt : Type :=
  | Connected (latency_ms : Z)
  | Failed (e : exn).

(** [sock.settimeout(delay / 1000)], as CPython 3.7 and later do it
    where [poll] is available.  The quotient of the two ints is a float,
    or [OverflowError] when it is too large for one.  The timeout is
    converted to nanoseconds, the float product with [1e9] rounded away
    from zero, and raises [OverflowError] unless this fits a signed 64-bit
    integer; a negative timeout then raises [ValueError]. *)
Definition settimeout (delay : Z) : result unit :=
  timeout ← PyFloat.int_truediv delay 1000;
  ns ← PyFloat.round_up (PyFloat.mul timeout (PyFloat.const 1000000000));
  if (ns <? - 2 ^ 63) || (2 ^ 63 <=? ns) then Raise OverflowError
  else if ns <? 0 then Raise ValueError
  else Ok tt.

(** The call stands in the inner [try] before [connect]: when it raises,
    the trial fails before any connection is tried. *)
Definition with_timeout (delay : Z) (a : attempt) : attempt :=
  match settimeout delay with
  | Ok _ => a
  | Raise e => Failed e
  end.

Record tally : Type := mk_tally {
  success_count : Z;
  total_latency : Z;
  min_latency : pynum;
  max_latency : Z
}.

Definition tally0 : tally := mk_tally 0 0 PInf 0.

(** One iteration of [for _ in range(10)]. *)
Definition trial (delay : Z) (st : tally) (a : attempt) : tally :=
  match with_timeout delay a with
  | Failed _ => st
  | Connected latency_ms =>
      if latency_ms >? delay then st
      else mk_tally (success_count st + 1)
                    (total_latency st + latency_ms)
                    (py_min (min_latency st) latency_ms)
                    (Z.max (max_latency st) latency_ms)
  end.

Definition run_trials (delay : Z) (attempts : nat -> attempt) : tally :=
  fold_left (trial delay) (map attempts (seq 0 10)) tally0.

(** The statements after the loop, inside the outer [try]. *)
Definition summarize (ip : string) (st : tally)
    : result (option TestResult.t) :=
  if success_count st >? 0 then
    let avg_latency := total_latency st / success_count st in
    failures ← PyFloat.of_int (10 - success_count st);
    loss_rate ← PyFloat.truediv failures (PyFloat.const 10);
    Ok (Some (TestResult.mk ip (min_latency st) (max_latency st)
                            avg_latency loss_rate))
  else Ok None.

Definition test_ip (total delay : Z) (attempts : nat -> attempt)
    (ip : string) (count : Z) : result (option TestResult.t * Z) :=
  guarded (summarize ip (run_trials delay attempts)) total count.

(** [x < y] on the sort keys [(loss_rate, avg_latency)]: tuples compare
    by their first components unless these are equal. *)
Definition key_ltb (x y : TestResult.t) : bool :=
  if PyFloat.eqb (TestResult.loss_rate x) (TestResult.loss_rate y)
  then TestResult.avg_latency x <? TestResult.avg_latency y
  else PyFloat.ltb (TestResult.loss_rate x) (TestResult.loss_rate y).

(** [list.sort(key=...)]: a stable sort that compares keys with [<] only.
    The elements are inserted from the last to the first, each one placed
    before the first element that is not below it, so that elements with
    equal keys keep their order. *)
Section Sort.
Context {A : Type}.
Variable ltb : A -> A -> bool.

Fixpoint insert_sorted (x : A) (l : list A) : list A :=
  match l with
  | [] => [x]
  | y :: l' => if ltb y x then y :: insert_sorted x l' else x :: l
  end.

Definition sort_by (l : list A) : list A :=
  fold_right insert_sorted [] l.
End Sort.

(** ** Aggregator: [analyze_results] *)

Record band : Type := mk_band {
  bucket : Z;
  count : Z;
  avg_lat : option PyFloat.float;   (* [None] renders as "N/A" *)
  proportion : PyFloat.float;
  bar_length : Z
}.

(** [(int(res.loss_rate * 100) // 10) * 10]. *)
Definition bucket_of (res : TestResult.t) : result Z :=
  percent ← PyFloat.to_int
              (PyFloat.mul (TestResult.loss_rate res) (PyFloat.const 100));
  Ok (percent / 10 * 10).

(** One iteration of the grouping loop. *)
Definition add_to_group (groups : gmap Z (list TestResult.t))
    (res : TestResult.t) : result (gmap Z (list TestResult.t)) :=
  b ← bucket_of res;
  let groups := match groups !! b with
                | Some _ => groups
                | None => <[b := []]> groups
                end in
  Ok (<[b := default [] (groups !! b) ++ [res]]> groups).

Fixpoint group_results (groups : gmap Z (list TestResult.t))
    (results : list TestResult.t) : result (gmap Z (list TestResult.t)) :=
  match results with
  | [] => Ok groups
  | res :: rest => groups' ← add_to_group groups res; group_results groups' rest
  end.

(** [sum(res.min_latency for res in members)]. *)
Definition sum_min_latency (members : list TestResult.t) : pynum :=
  fold_left (fun acc res => pynum_add acc (TestResult.min_latency res))
            members (PInt 0).

Definition max_bar_width : Z := 50.

(** The body of [for bucket in range(0, 101, 10)]. *)
Definition render_band (groups : gmap Z (list TestResult.t))
    (unsuccessful_count total_ips b : Z) : result band :=
  '(count, avg_lat_str) ←
    (if b =? 100 then Ok (unsuccessful_count, None)
     else
       let members := default [] (groups !! b) in
       let count := Z.of_nat (length members) in
       if count >? 0 then
         avg_lat ← pynum_truediv (sum_min_latency members) count;
         Ok (count, Some avg_lat)
       else Ok (count, None));
  ratio ← PyFloat.int_truediv count total_ips;
  let proportion := PyFloat.mul ratio (PyFloat.const 100) in
  scaled ← PyFloat.truediv proportion (PyFloat.const 100);
  bar_length ← PyFloat.to_int (PyFloat.mul scaled (PyFloat.const max_bar_width));
  Ok (mk_band b count avg_lat_str proportion bar_length).

(** [range(0, 101, 10)]. *)
Definition buckets : list Z := map (fun k => 10 * Z.of_nat k) (seq 0 11).

Definition analyze_results (results : list TestResult.t) (total_ips : Z)
    : result (list band) :=
  groups ← group_results ∅ results;
  let unsuccessful_count := total_ips - Z.of_nat (length results) in
  mapM_result (render_band groups unsuccessful_count total_ips) buckets.

(** ** [run_detailed_test] *)

Definition pynum_str (x : pynum) : string :=
  match x with
  | PInt z => PyStr.str z
  | PInf => "inf"
  end.

(** One row of the result file. *)
Definition csv_row (res : TestResult.t) : result (list string) :=
  percent ← PyFloat.to_int
              (PyFloat.mul (TestResult.loss_rate res) (PyFloat.const 100));
  Ok [TestResult.ip res;
      pynum_str (TestResult.min_latency res);
      PyStr.str (TestResult.max_latency res);
      PyStr.str (TestResult.avg_latency res);
      PyStr.str percent].

Inductive detailed_outcome : Type :=
  | NoValidIP
  | WriteFailed (e : exn)
  | Analyzed (rows : list (list string)) (bands : list band).

(** [ThreadPoolExecutor(max_workers=n)]: the constructor raises
    [ValueError] unless [n] is positive. *)
Definition thread_pool (max_workers : Z) : result unit :=
  if max_workers <=? 0 then Raise ValueError else Ok tt.

(** [run_detailed_test], with [attempts i] what the network does on the
    trials of the [i]-th address and [file_error] the exception, if any,
    that opening or writing the result file raises. *)
Definition run_detailed_test (ip_list : list string) (delay test_threads : Z)
    (attempts : nat -> nat -> attempt) (file_error : option exn)
    : result detailed_outcome :=
  let total := Z.of_nat (length ip_list) in
  _ ← thread_pool test_threads;
  '(results, _) ← run_pool (fun i => test_ip total delay (attempts i)) ip_list;
  match results with
  | [] => Ok NoValidIP
  | _ =>
      let results := sort_by key_ltb results in
      match file_error with
      | Some e => Ok (WriteFailed e)
      | None =>
          match mapM_result csv_row results with
          | Raise e => Ok (WriteFailed e)
          | Ok rows =>
              bands ← analyze_results results total;
              Ok (Analyzed rows bands)
          end
      end
  end.

(** ** AddressSampler: [get_random_ipv4s] and [get_random_ipv6s] *)

(** The random source, passed explicitly: [randint a b g] is the draw of
    [random.randint(a, b)] in state [g] with the next state.  The only
    property used is the documented one, [a <= N <= b]. *)
Class RandomSource (G : Type) : Type := {
  randint : Z -> Z -> G -> Z * G;
  randint_range : forall a b g, a <= b -> a <= fst (randint a b g) <= b
}.

(** A linear congruential source, as an example of one. *)
#[global] Program Instance lcg : RandomSource Z := {
  randint a b g := (a + g mod (b - a + 1), (1103515245 * g + 12345) mod 2147483648)
}.
Next Obligation.
  intros a b g Hab. cbn.
  pose proof (Z.mod_pos_bound g (b - a + 1) ltac:(lia)). lia.
Qed.

Section Sampler.
Context {G : Type} `{RandomSource G}.

Fixpoint get_random_ipv4s (ip_list : list string) (g : G) : list string * G :=
  match ip_list with
  | [] => ([], g)
  | subnet :: rest =>
      if negb (PyStr.endswith subnet "/24") then get_random_ipv4s rest g
      else
        let base_ip := PyStr.drop_last 3 subnet in
        let octets := PyStr.split "." base_ip in
        if negb (length octets =? 4)%nat then get_random_ipv4s rest g
        else
          let '(n, g) := randint 0 255 g in
          let octets := <[3%nat := PyStr.str n]> octets in
          let random_ip := PyStr.join "." octets in
          let '(random_ips, g) := get_random_ipv4s rest g in
          (random_ip :: random_ips, g)
  end.

(** [for _ in range(k): sections.append(f"{random.randint(0, 65535):x}")]. *)
Fixpoint append_groups (k : nat) (sections : list string) (g : G)
    : list string * G :=
  match k with
  | O => (sections, g)
  | S k' =>
      let '(n, g) := randint 0 65535 g in
      append_groups k' (sections ++ [PyStr.format_x n]) g
  end.

Fixpoint get_random_ipv6s (ip_list : list string) (g : G) : list string * G :=
  match ip_list with
  | [] => ([], g)
  | subnet :: rest =>
      if negb (PyStr.endswith subnet "/48") then get_random_ipv6s rest g
      else
        let base_ip := PyStr.drop_last 3 subnet in
        let sections := PyStr.split ":" base_ip in
        if (length sections <? 3)%nat then get_random_ipv6s rest g
        else
          let sections := take 3 sections in
          let '(sections, g) := append_groups 5 sections g in
          let random_ip := PyStr.join ":" sections in
          let '(random_ips, g) := get_random_ipv6s rest g in
          (random_ip :: random_ips, g)
  end.
End Sampler.

(** ** ProbeEngine: [scan_ip] and the pool of [run_ip_scan] *)

(** What the network does during one probe: the outcome of creating the
    socket and connecting (the elapsed milliseconds), of [send], of the
    successive [recv] calls and of [close].  After the listed [recv]
    outcomes the peer has closed the connection. *)
Record exchange : Type := mk_exchange {
  connect : result Z;
  send : result unit;
  recvs : list (result string);
  close : result unit
}.

Definition crlf_crlf : string :=
  String "013" (String "010" (String "013" (String "010" EmptyString))).

(** The [while True] loop reading the response. *)
Fixpoint recv_loop (events : list (result string)) (response : string)
    : result string :=
  match events with
  | [] => Ok response
  | event :: rest =>
      data ← event;
      if String.eqb data EmptyString then Ok response
      else
        let response := response +:+ data in
        if PyStr.contains crlf_crlf response then Ok response
        else recv_loop rest response
  end.

Definition is_upper (c : ascii) : bool :=
  (65 <=? nat_of_ascii c)%nat && (nat_of_ascii c <=? 90)%nat.

(** The longest run of [A-Z] at the start of [s]. *)
Fixpoint take_upper (s : string) : string :=
  match s with
  | EmptyString => EmptyString
  | String c s' => if is_upper c then String c (take_upper s') else EmptyString
  end.

(** [s] without the prefix [p], if it starts with it. *)
Fixpoint strip_prefix (p s : string) : option string :=
  match p, s with
  | EmptyString, _ => Some s
  | String a p', String b s' => if Ascii.eqb a b then strip_prefix p' s' else None
  | String _ _, EmptyString => None
  end.

(** [re.search(r'colo=([A-Z]+)', s)] and [match.group(1)]: the leftmost
    position where the pattern matches, the group taken greedily. *)
Fixpoint search_colo (s : string) : option string :=
  let here :=
    match strip_prefix "colo=" s with
    | Some rest =>
        match take_upper rest with
        | EmptyString => None
        | code => Some code
        end
    | None => None
    end in
  match here with
  | Some code => Some code
  | None =>
      match s with
      | EmptyString => None
      | String _ s' => search_colo s'
      end
  end.

(** [{loc.iata: loc for loc in locations}]: a later entry replaces an
    earlier one with the same code. *)
Definition build_location_map (locations : list Location.t)
    : gmap string Location.t :=
  fold_left (fun m loc => <[Location.iata loc := loc]> m) locations ∅.

Section Probe.
(** [bytes.decode('utf-8', errors='ignore')]: undecodable bytes are
    dropped, so the call returns a text for every input. *)
Variable decode : string -> string.
Variable location_map : gmap string Location.t.

(** The [try] block of [scan_ip]. *)
Definition scan_body (ip : string) (x : exchange)
    : result (option ScanResult.t) :=
  tcp_duration_ms ← connect x;
  _ ← send x;
  response ← recv_loop (recvs x) EmptyString;
  _ ← close x;
  let response_text := decode response in
  if PyStr.contains "uag=Mozilla/5.0" response_text then
    match search_colo response_text with
    | Some data_center =>
        match location_map !! data_center with
        | Some loc =>
            Ok (Some (ScanResult.mk ip data_center (Location.region loc)
                                    (Location.city loc) tcp_duration_ms))
        | None =>
            Ok (Some (ScanResult.mk ip data_center EmptyString EmptyString
                                    tcp_duration_ms))
        end
    | None => Ok None
    end
  else Ok None.

Definition scan_ip (total : Z) (x : exchange) (ip : string) (count : Z)
    : result (option ScanResult.t * Z) :=
  guarded (scan_body ip x) total count.

(** The pool of [run_ip_scan]: [exchanges i] is what the network does
    for the [i]-th candidate. *)
Definition scan_all (ip_list : list string) (exchanges : nat -> exchange)
    : result (list ScanResult.t * Z) :=
  let total := Z.of_nat (length ip_list) in
  run_pool (fun i => scan_ip total (exchanges i)) ip_list.
End Probe.

(** ** Notions used in the statements *)

(** [x] is zero or finite with [m * 2^e < 2^B]: neither infinite nor nan. *)
Definition mag_le (B : Z) (x : PyFloat.float) : Prop :=
  match x with
  | S754_zero _ => True
  | S754_finite _ m e => Zpos (digits2_pos m) + e <= B
  | _ => False
  end.

Definition sum_Z (l : list Z) : Z := fold_right Z.add 0 l.

(** The magnitude of a finite float, scaled by [2^K] to an integer. *)
Definition scaled (K : Z) (x : PyFloat.float) : Z :=
  match x with
  | S754_finite _ m e => Zpos m * 2 ^ (e + K)
  | _ => 0
  end.

(** [settimeout] accepts the threshold [delay]. *)
Definition accepted (delay : Z) : bool :=
  match settimeout delay with
  | Ok _ => true
  | Raise _ => false
  end.

(** The latency of an attempt that is within the threshold [delay], for
    a threshold that [settimeout] accepts. *)
Definition counted (delay : Z) (a : attempt) : option Z :=
  match a with
  | Connected latency_ms =>
      if accepted delay && (latency_ms <=? delay) then Some latency_ms else None
  | Failed _ => None
  end.

(** The latencies, in order, of the ten attempts that are within it. *)
Definition successes (delay : Z) (attempts : nat -> attempt) : list Z :=
  omap (counted delay) (map attempts (seq 0 10)).

(** The tally after the successes [lat] have been added to [st]. *)
Definition tally_after (st : tally) (lat : list Z) : tally :=
  mk_tally (success_count st + Z.of_nat (length lat))
           (total_latency st + sum_Z lat)
           (fold_left py_min lat (min_latency st))
           (fold_left Z.max lat (max_latency st)).

(** The results a pool keeps when the call for the [i]-th address [ip]
    returns [f i ip]. *)
Fixpoint kept_from {A : Type} (f : nat -> string -> option A) (i : nat)
    (ip_list : list string) : list A :=
  match ip_list with
  | [] => []
  | ip :: rest =>
      match f i ip with
      | Some x => x :: kept_from f (S i) rest
      | None => kept_from f (S i) rest
      end
  end.

(** What [test_ip] returns for a tally. *)
Definition outcome (ip : string) (st : tally) : option TestResult.t :=
  match summarize ip st with
  | Ok r => r
  | Raise _ => None
  end.

(** The ranking order: a lower loss rate first, then a lower average. *)
Definition ranked_before (x y : TestResult.t) : Prop :=
  PyFloat.ltb (TestResult.loss_rate x) (TestResult.loss_rate y) = true \/
  (PyFloat.eqb (TestResult.loss_rate x) (TestResult.loss_rate y) = true /\
   TestResult.avg_latency x <= TestResult.avg_latency y).

(** The loss rates [test_ip] can produce are those of 1 to 10 successes. *)
Definition tester_loss_rate (x : PyFloat.float) : Prop :=
  exists s, 1 <= s <= 10 /\ PyFloat.int_truediv (10 - s) 10 = Ok x.

(** A result whose loss rate is one [test_ip] can produce. *)
Definition emitted (r : TestResult.t) : Prop :=
  tester_loss_rate (TestResult.loss_rate r).

(** An example network: the first address answers every other trial in
    40 ms, the second refuses, the others answer in 25 ms. *)
Definition demo_attempts (i j : nat) : attempt :=
  match i with
  | O => if Nat.even j then Connected 40 else Failed TimeoutError
  | 1%nat => Failed ConnectionRefusedError
  | _ => Connected 25
  end.

(** ** Notions for the Aggregator *)

(** [res] falls in band [b]. *)
Definition bucket_is (b : Z) (res : TestResult.t) : bool :=
  match bucket_of res with
  | Ok b' => b' =? b
  | Raise _ => false
  end.

(** The count the histogram shows for band [b]. *)
Definition band_count (results : list TestResult.t) (total_ips b : Z) : Z :=
  if b =? 100 then total_ips - Z.of_nat (length results)
  else Z.of_nat (length (List.filter (bucket_is b) results)).

(** The minimum latency is an int below [2^1000] in magnitude. *)
Definition bounded_min (res : TestResult.t) : Prop :=
  exists m, TestResult.min_latency res = PInt m /\ Z.abs m < 2 ^ 1000.

(** ** Notions for the AddressSampler *)

(** [k] successive draws of [random.randint(a, b)]. *)
Fixpoint draws {G : Type} `{RandomSource G} (a b : Z) (k : nat) (g : G)
    : list Z * G :=
  match k with
  | O => ([], g)
  | S k' =>
      let '(n, g) := randint a b g in
      let '(ns, g) := draws a b k' g in
      (n :: ns, g)
  end.

(** The first three octets of a block that ends in [/24] and whose base
    has exactly four dot-separated octets. *)
Definition ipv4_block (subnet : string) : option (string * string * string) :=
  if PyStr.endswith subnet "/24" then
    match PyStr.split "." (PyStr.drop_last 3 subnet) with
    | [a; b; c; _] => Some (a, b, c)
    | _ => None
    end
  else None.

(** The candidate of a block for the drawn value [n]. *)
Definition ipv4_candidate (block : string * string * string) (n : Z) : string :=
  let '(a, b, c) := block in PyStr.join "." [a; b; c; PyStr.str n].

(** The top three groups of a block that ends in [/48] and whose base has
    at least three colon-separated sections. *)
Definition ipv6_block (subnet : string) : option (list string) :=
  if PyStr.endswith subnet "/48" then
    let sections := PyStr.split ":" (PyStr.drop_last 3 subnet) in
    if (3 <=? length sections)%nat then Some (take 3 sections) else None
  else None.

Fixpoint all_chars (p : ascii -> bool) (s : string) : bool :=
  match s with
  | EmptyString => true
  | String c s' => p c && all_chars p s'
  end.

Definition free_of (sep : ascii) (s : string) : bool :=
  all_chars (fun c => negb (Ascii.eqb c sep)) s.

(** The value of a lowercase hexadecimal digit. *)
Definition hex_digit (c : ascii) : option Z :=
  match String.index 0 (String c EmptyString) "0123456789abcdef" with
  | Some i => Some (Z.of_nat i)
  | None => None
  end.

Fixpoint hex_value (acc : Z) (s : string) : option Z :=
  match s with
  | EmptyString => Some acc
  | String c s' =>
      match hex_digit c with
      | Some d => hex_value (16 * acc + d) s'
      | None => None
      end
  end.

(** [s] is the lowercase hexadecimal numeral of [n] without padding:
    digits [0-9a-f] only, at least one, of value [n], and no leading zero
    unless [s] is ["0"]. *)
Definition lower_hex_of (n : Z) (s : string) : bool :=
  match hex_value 0 s with
  | Some v => (v =? n) && negb (String.eqb s EmptyString)
              && (negb (String.prefix "0" s) || String.eqb s "0")
  | None => false
  end.

(** A hexadecimal digit, of either case. *)
Definition is_hex_char (c : ascii) : bool :=
  match String.index 0 (String c EmptyString) "0123456789abcdefABCDEF" with
  | Some _ => true
  | None => false
  end.

(** One group of a full IPv6 address: one to four hexadecimal digits. *)
Definition is_hex_group (s : string) : bool :=
  all_chars is_hex_char s && (1 <=? String.length s)%nat && (String.length s <=? 4)%nat.

(** A full IPv6 address: eight groups of hexadecimal digits separated by
    colons. *)
Definition full_ipv6 (ip : string) : bool :=
  let groups := PyStr.split ":" ip in
  (length groups =? 8)%nat && forallb is_hex_group groups.

(** [p] holds of the [k] integers from [n] on. *)
Fixpoint all_from (p : Z -> bool) (k : nat) (n : Z) : bool :=
  match k with
  | O => true
  | S k' => p n && all_from p k' (n + 1)
  end.

(** ** Notions for the ProbeEngine *)

(** What [scan_ip] returns for an exchange. *)
Definition probe (decode : string -> string)
    (location_map : gmap string Location.t) (ip : string) (x : exchange)
    : option ScanResult.t :=
  match scan_body decode location_map ip x with
  | Ok r => r
  | Raise _ => None
  end.

(** The match of [colo=([A-Z]+)] at the very start of [s]. *)
Definition colo_here (s : string) : option string :=
  match strip_prefix "colo=" s with
  | Some rest =>
      match take_upper rest with
      | EmptyString => None
      | code => Some code
      end
  | None => None
  end.

(** The text has a point-of-presence token: [colo=] followed by a letter
    of [A-Z]. *)
Definition has_colo_token (text : string) : Prop :=
  exists c, is_upper c = true /\
            PyStr.contains ("colo=" +:+ String c EmptyString) text = true.

(** The identifying header echo. *)
Definition has_echo (text : string) : bool :=
  PyStr.contains "uag=Mozilla/5.0" text.

(** An example exchange: the connection takes 12 ms and one [recv] brings
    the whole trace. *)
Definition demo_response : string :=
  "HTTP/1.1 200 OK" +:+ crlf_crlf +:+
  "h=192.0.2.1" +:+ String "010" ("uag=Mozilla/5.0" +:+ String "010"
  ("colo=LAX" +:+ String "010" EmptyString)).

Definition demo_exchange : exchange :=
  mk_exchange (Ok 12) (Ok tt) [Ok demo_response] (Ok tt).

(** Four candidates: the first answers after 30 ms, the second and the
    fourth after 12 ms, and the third refuses the connection. *)
Definition demo_scan_ips : list string :=
  ["192.0.2.1"; "192.0.2.2"; "192.0.2.3"; "192.0.2.4"].

Definition demo_exchanges (i : nat) : exchange :=
  match i with
  | O => mk_exchange (Ok 30) (Ok tt) [Ok demo_response] (Ok tt)
  | 2%nat => mk_exchange (Raise ConnectionRefusedError) (Ok tt) [] (Ok tt)
  | _ => demo_exchange
  end.

Definition demo_locations : list Location.t :=
  [Location.mk "LAX" (PyFloat.const 34) (PyFloat.const (-118)) "US"
               "North America" "Los Angeles"].

(** ** [run_ip_scan]: after the pool *)

(** [x.latency_ms < y.latency_ms], the order of the sort key. *)
Definition latency_ltb (x y : ScanResult.t) : bool :=
  ScanResult.latency_ms x <? ScanResult.latency_ms y.

(** [self.latency_str = f"{latency_ms} ms"]. *)
Definition latency_str (res : ScanResult.t) : string :=
  PyStr.str (ScanResult.latency_ms res) +:+ " ms".

Definition scan_header : list string :=
  ["IP地址"; "数据中心"; "地区"; "城市"; "网络延迟"].

(** One row of [ip.csv]. *)
Definition scan_row (res : ScanResult.t) : list string :=
  [ScanResult.ip res; ScanResult.data_center res; ScanResult.region res;
   ScanResult.city res; latency_str res].

Inductive scan_outcome : Type :=
  | Exited (status : Z)
  | ScanWriteFailed (e : exn)
  | ScanWritten (rows : list (list string)).

(** [run_ip_scan] from the pool on, for the candidates [ip_list] and the
    directory [location_map] it has built; [file_error] is the exception,
    if any, that opening or writing [ip.csv] raises. *)
Definition run_ip_scan (scan_max_threads : Z) (decode : string -> string)
    (location_map : gmap string Location.t) (ip_list : list string)
    (exchanges : nat -> exchange) (file_error : option exn)
    : result scan_outcome :=
  _ ← thread_pool scan_max_threads;
  '(results, _) ← scan_all decode location_map ip_list exchanges;
  match results with
  | [] => Ok (Exited 1)
  | _ =>
      let results := sort_by latency_ltb results in
      match file_error with
      | Some e => Ok (ScanWriteFailed e)
      | None => Ok (ScanWritten (scan_header :: map scan_row results))
      end
  end.

(** ** [select_data_center_from_csv] *)

Module DataCenterInfo.
Record t : Type := mk {
  data_center : string;
  city : string;
  ip_count : Z;
  min_latency : Z
}.
End DataCenterInfo.

(** The dict [data_centers], in insertion order: the selection loop goes
    through its keys in this order. *)
Fixpoint dict_get {V : Type} (k : string) (d : list (string * V)) : option V :=
  match d with
  | [] => None
  | (k', v) :: d' => if String.eqb k k' then Some v else dict_get k d'
  end.

(** The value under [k] replaced by [f] of it. *)
Fixpoint dict_alter {V : Type} (f : V -> V) (k : string) (d : list (string * V))
    : list (string * V) :=
  match d with
  | [] => []
  | (k', v) :: d' =>
      if String.eqb k k' then (k', f v) :: d' else (k', v) :: dict_alter f k d'
  end.

(** The update of an entry by one more record of latency [latency]. *)
Definition count_again (latency : Z) (info : DataCenterInfo.t) : DataCenterInfo.t :=
  DataCenterInfo.mk (DataCenterInfo.data_center info) (DataCenterInfo.city info)
    (DataCenterInfo.ip_count info + 1)
    (if (latency <? DataCenterInfo.min_latency info)
        || (DataCenterInfo.min_latency info =? 0)
     then latency else DataCenterInfo.min_latency info).

Inductive select_outcome : Type :=
  | Returned (selected_dc : string) (ip_list : list string)
  | InputEnded.

Section Select.
(** [int(field.split()[0])], or [None] when it raises [ValueError] or
    [IndexError]. *)
Variable parse_latency : string -> option Z.
(** [str.lower]. *)
Variable lower : string -> string.

(** The body of the statistics loop, for a record after the header. *)
Definition count_record (data_centers : list (string * DataCenterInfo.t))
    (record : list string) : list (string * DataCenterInfo.t) :=
  match record with
  | _ :: dc :: _ :: city :: field :: _ =>
      let latency := default 0 (parse_latency field) in
      match dict_get dc data_centers with
      | Some _ => dict_alter (count_again latency) dc data_centers
      | None => data_centers ++ [(dc, DataCenterInfo.mk dc city 1 latency)]
      end
  | _ => data_centers
  end.

Definition data_center_stats (records : list (list string))
    : list (string * DataCenterInfo.t) :=
  fold_left count_record (tail records) [].

(** [for dc in data_centers: if dc.lower() == input_dc.lower(): ... break]. *)
Definition match_data_center (input_dc : string)
    (data_centers : list (string * DataCenterInfo.t)) : option string :=
  match List.find (fun entry => String.eqb (lower (fst entry)) (lower input_dc))
                  data_centers with
  | Some entry => Some (fst entry)
  | None => None
  end.

(** The input loop; [inputs] are the lines [read_line] returns, and
    [None] stands for the end of the input. *)
Fixpoint choose_data_center (inputs : list string)
    (data_centers : list (string * DataCenterInfo.t)) : option string :=
  match inputs with
  | [] => None
  | input_dc :: rest =>
      if String.eqb input_dc EmptyString then Some EmptyString
      else
        match match_data_center input_dc data_centers with
        | Some dc => Some dc
        | None => choose_data_center rest data_centers
        end
  end.

Definition extract_ips (selected_dc : string) (records : list (list string))
    : list string :=
  if String.eqb selected_dc EmptyString then
    omap (fun record => match record with
                        | ip :: _ => Some ip
                        | [] => None
                        end) (tail records)
  else
    omap (fun record => match record with
                        | ip :: dc :: _ =>
                            if String.eqb dc selected_dc then Some ip else None
                        | _ => None
                        end) (tail records).

(** [file] is what reading [ip.csv] gives: the records, or an exception. *)
Definition select_data_center_from_csv (file : result (list (list string)))
    (inputs : list string) : select_outcome :=
  match file with
  | Raise _ => Returned EmptyString []
  | Ok records =>
      match choose_data_center inputs (data_center_stats records) with
      | Some selected_dc => Returned selected_dc (extract_ips selected_dc records)
      | None => InputEnded
      end
  end.

(** The records of data center [dc] that the statistics count. *)
Definition counted_record (dc : string) (record : list string) : bool :=
  match record with
  | _ :: dc' :: _ :: _ :: _ :: _ => String.eqb dc' dc
  | _ => false
  end.

Definition record_latency (record : list string) : Z :=
  match record with
  | _ :: _ :: _ :: _ :: field :: _ => default 0 (parse_latency field)
  | _ => 0
  end.

Definition record_city (record : list string) : string :=
  match record with
  | _ :: _ :: _ :: city :: _ => city
  | _ => EmptyString
  end.

(** The entry of [dc] after one more of its records. *)
Definition entry_step (dc : string) (entry : option DataCenterInfo.t)
    (record : list string) : option DataCenterInfo.t :=
  match entry with
  | Some info => Some (count_again (record_latency record) info)
  | None => Some (DataCenterInfo.mk dc (record_city record) 1 (record_latency record))
  end.
End Select.

(** An example: two data centers, and a case folding of the ASCII
    letters. *)
Definition demo_data_centers : list (string * DataCenterInfo.t) :=
  [("NRT", DataCenterInfo.mk "NRT" "Tokyo" 2 31);
   ("LAX", DataCenterInfo.mk "LAX" "Los Angeles" 1 12)].

Definition up_char (c : ascii) : ascii :=
  if (97 <=? nat_of_ascii c)%nat && (nat_of_ascii c <=? 122)%nat
  then ascii_of_nat (nat_of_ascii c - 32) else c.

Fixpoint up_case (s : string) : string :=
  match s with
  | EmptyString => EmptyString
  | String c s' => String (up_char c) (up_case s')
  end.

(** The extraction for a data center, record by record. *)
Definition ip_of (selected_dc : string) (record : list string) : option string :=
  match record with
  | ip :: dc :: _ => if String.eqb dc selected_dc then Some ip else None
  | _ => None
  end.

Definition demo_records : list (list string) :=
  [["ip"; "dc"; "region"; "city"; "latency"];
   ["192.0.2.1"; "NRT"; "Asia Pacific"; "Tokyo"; "31 ms"];
   ["192.0.2.2"; "LAX"; "North America"; "Los Angeles"; "12 ms"];
   ["192.0.2.3"; "LAX"; "North America"; "Los Angeles"; "15 ms"]].

(** What [test_ip] returns for the first address of [demo_attempts]: five
    of the ten trials succeed, each in 40 ms. *)
Definition demo_result : TestResult.t :=
  TestResult.mk "192.0.2.1" (PInt 40) 40 40
                (S754_finite false 4503599627370496 (-53)).

(** ** [write_ips_to_file] and [extract_top_ips] *)

Definition newline : ascii := "010".

(** [write_ips_to_file]: what the file holds after the loop of
    [f.write(f"{ip}\n")]. *)
Definition write_ips_to_file (ips : list string) : string :=
  fold_left (fun content ip => content +:+ ip +:+ String newline EmptyString)
            ips EmptyString.

Inductive top_ips_outcome : Type :=
  | RaisedStopIteration
  | RaisedIndexError
  | Wrote (content : string).

(** [[row[0] for row in reader]]: [None] when some [row[0]] raises
    [IndexError]. *)
Fixpoint first_fields (rows : list (list string)) : option (list string) :=
  match rows with
  | [] => Some []
  | row :: rest =>
      match row with
      | [] => None
      | ip :: _ =>
          match first_fields rest with
          | Some ips => Some (ip :: ips)
          | None => None
          end
      end
  end.

(** [extract_top_ips] of [get_best_cf_ips.py].  [file] is [None] when
    [result.csv] is empty, so that [next(csvfile)] raises, and otherwise
    holds the rows the reader gives for the lines after the first. *)
Definition extract_top_ips (file : option (list (list string))) : top_ips_outcome :=
  match file with
  | None => RaisedStopIteration
  | Some rows =>
      match first_fields rows with
      | None => RaisedIndexError
      | Some ips => Wrote (write_ips_to_file (take 10 ips))
      end
  end.

(** ** [main]: the prompts *)

Section Prompts.
(** [str.lower]. *)
Variable lower : string -> string.
(** [int(input_type)], or [None] when it raises [ValueError]. *)
Variable parse_int : string -> option Z.

(** The loop asking whether to update [ip.csv]; [inputs] are the lines
    [read_line] returns.  The result is the choice with the lines left,
    or [None] at the end of the input. *)
Fixpoint choose_update (inputs : list string) : option (string * list string) :=
  match inputs with
  | [] => None
  | input_choice :: rest =>
      let input_choice :=
        if String.eqb input_choice EmptyString then "n" else input_choice in
      let input_choice := lower input_choice in
      if String.eqb input_choice "y" || String.eqb input_choice "n"
      then Some (input_choice, rest)
      else choose_update rest
  end.

(** The loop asking for IPv4 or IPv6. *)
Fixpoint choose_ip_type (inputs : list string) : option (Z * list string) :=
  match inputs with
  | [] => None
  | input_type :: rest =>
      if String.eqb input_type EmptyString then Some (4, rest)
      else
        match parse_int input_type with
        | Some ip_type =>
            if (ip_type =? 4) || (ip_type =? 6) then Some (ip_type, rest)
            else choose_ip_type rest
        | None => choose_ip_type rest
        end
  end.
End Prompts.

(** An example reading of integers: the numerals 4, 5 and 6. *)
Definition demo_parse_int (s : string) : option Z :=
  if String.eqb s "4" then Some 4
  else if String.eqb s "5" then Some 5
  else if String.eqb s "6" then Some 6
  else None.

(** * Proofs *)

(** ** Floats: magnitudes through rounding

    Every float operation of the program ends in [binary_round_aux].  The
    lemmas below bound the binary magnitude of its result, which is what
    shows that a quotient of bounded ints and the bar computed from it are
    never infinite or nan, hence that [int] and the overflow checks do not
    raise. *)

Lemma digits2_pos_size p : digits2_pos p = Pos.size p.
Proof. induction p; simpl; congruence. Qed.

(** [Zdigits2 m] is the number of binary digits of [m]. *)
Lemma Zdigits2_bounds m : 0 < m -> 2 ^ (Zdigits2 m - 1) <= m < 2 ^ Zdigits2 m.
Proof.
  intros Hm. destruct m as [|p|p]; try lia.
  unfold Zdigits2. rewrite digits2_pos_size.
  pose proof (Z.log2_spec (Zpos p) ltac:(lia)) as Hs.
  assert (Hl : Z.log2 (Zpos p) = Zpos (Pos.size p) - 1).
  { destruct p; simpl; lia. }
  rewrite Hl in Hs. replace (Z.succ (Zpos (Pos.size p) - 1)) with (Zpos (Pos.size p)) in Hs by lia.
  exact Hs.
Qed.

Lemma Zdigits2_nonneg m : 0 <= Zdigits2 m.
Proof. destruct m; simpl; lia. Qed.

Lemma Zdigits2_le_of_lt m k : 0 <= k -> 0 <= m < 2 ^ k -> Zdigits2 m <= k.
Proof.
  intros Hk [Hm Hlt].
  destruct (Z.eq_dec m 0) as [->|Hne]; [simpl; lia|].
  pose proof (Zdigits2_bounds m ltac:(lia)) as [Hlo _].
  destruct (Z_lt_le_dec k (Zdigits2 m)) as [Hgt|]; [|lia].
  exfalso.
  assert (2 ^ k <= 2 ^ (Zdigits2 m - 1)) by (apply Z.pow_le_mono_r; lia).
  lia.
Qed.

Lemma Zdigits2_succ_le m : 0 <= m -> Zdigits2 (m + 1) <= Zdigits2 m + 1.
Proof.
  intros Hm. pose proof (Zdigits2_nonneg m).
  apply Zdigits2_le_of_lt; [lia|].
  destruct (Z.eq_dec m 0) as [->|Hne]; [simpl; lia|].
  pose proof (Zdigits2_bounds m ltac:(lia)) as [_ Hhi].
  rewrite Z.pow_add_r by lia. lia.
Qed.

Lemma Zdigits2_div_pow2 m k :
  0 <= m -> 0 <= k -> Zdigits2 (m / 2 ^ k) <= Z.max 0 (Zdigits2 m - k).
Proof.
  intros Hm Hk. pose proof (Zdigits2_nonneg m).
  assert (Hp : 0 < 2 ^ k) by (apply Z.pow_pos_nonneg; lia).
  destruct (Z.eq_dec m 0) as [->|Hne].
  { rewrite Z.div_0_l by lia. simpl. lia. }
  pose proof (Zdigits2_bounds m ltac:(lia)) as [_ Hhi].
  apply Zdigits2_le_of_lt; [lia|]. split; [apply Z.div_pos; lia|].
  apply Z.div_lt_upper_bound; [lia|].
  destruct (Z_le_gt_dec k (Zdigits2 m)).
  - rewrite Z.max_r by lia. rewrite <- Z.pow_add_r by lia.
    replace (k + (Zdigits2 m - k)) with (Zdigits2 m) by lia. exact Hhi.
  - rewrite Z.max_l by lia. rewrite Z.pow_0_r, Z.mul_1_r.
    assert (2 ^ Zdigits2 m <= 2 ^ k) by (apply Z.pow_le_mono_r; lia). lia.
Qed.

Lemma Zdigits2_mul_le a b : 0 <= a -> 0 <= b -> Zdigits2 (a * b) <= Zdigits2 a + Zdigits2 b.
Proof.
  intros Ha Hb. pose proof (Zdigits2_nonneg a). pose proof (Zdigits2_nonneg b).
  apply Zdigits2_le_of_lt; [lia|]. split; [lia|].
  destruct (Z.eq_dec a 0) as [->|Hna].
  { rewrite Z.mul_0_l. apply Z.pow_pos_nonneg; lia. }
  destruct (Z.eq_dec b 0) as [->|Hnb].
  { rewrite Z.mul_0_r. apply Z.pow_pos_nonneg; lia. }
  pose proof (Zdigits2_bounds a ltac:(lia)) as [_ Hha].
  pose proof (Zdigits2_bounds b ltac:(lia)) as [_ Hhb].
  rewrite Z.pow_add_r by lia. nia.
Qed.

(** Shifting a record right. *)
Lemma shr_1_m mrs : 0 <= shr_m mrs -> shr_m (shr_1 mrs) = shr_m mrs / 2.
Proof.
  destruct mrs as [m r s]. simpl. intros Hm.
  destruct m as [|p|p]; try lia; [reflexivity|].
  destruct p as [p|p|]; simpl.
  - rewrite Pos2Z.inj_xI. apply Z.div_unique with (r := 1); lia.
  - rewrite Pos2Z.inj_xO. apply Z.div_unique with (r := 0); lia.
  - reflexivity.
Qed.

Lemma iter_shr_1_m p : forall mrs,
  0 <= shr_m mrs -> shr_m (SpecFloat.iter_pos shr_1 p mrs) = shr_m mrs / 2 ^ Zpos p.
Proof.
  induction p as [p IH|p IH|]; intros mrs Hm; simpl SpecFloat.iter_pos.
  - assert (H1 : 0 <= shr_m (shr_1 mrs)) by (rewrite shr_1_m by lia; apply Z.div_pos; lia).
    assert (Hp : 0 < 2 ^ Zpos p) by (apply Z.pow_pos_nonneg; lia).
    assert (H2 : 0 <= shr_m (SpecFloat.iter_pos shr_1 p (shr_1 mrs)))
      by (rewrite IH by lia; apply Z.div_pos; lia).
    rewrite IH, IH, shr_1_m by lia.
    rewrite !Z.div_div by lia. f_equal.
    replace (Zpos p~1) with (1 + Zpos p + Zpos p) by lia.
    rewrite !Z.pow_add_r by lia. lia.
  - assert (Hp : 0 < 2 ^ Zpos p) by (apply Z.pow_pos_nonneg; lia).
    assert (H2 : 0 <= shr_m (SpecFloat.iter_pos shr_1 p mrs))
      by (rewrite IH by lia; apply Z.div_pos; lia).
    rewrite IH, IH by lia. rewrite Z.div_div by lia. f_equal.
    replace (Zpos p~0) with (Zpos p + Zpos p) by lia.
    rewrite Z.pow_add_r by lia. lia.
  - rewrite shr_1_m by lia. reflexivity.
Qed.

Lemma shr_m_of_loc m l : shr_m (shr_record_of_loc m l) = m.
Proof. destruct l as [|[]]; reflexivity. Qed.

(** What [shr_fexp] returns: the mantissa loses the digits beyond the
    precision and the exponent moves up by as much. *)
Lemma shr_fexp_spec prec emax m e l :
  0 <= m ->
  let n := Z.max 0 (fexp prec emax (Zdigits2 m + e) - e) in
  shr_m (fst (shr_fexp prec emax m e l)) = m / 2 ^ n /\
  snd (shr_fexp prec emax m e l) = e + n.
Proof.
  intros Hm n. unfold shr_fexp, shr. subst n.
  destruct (fexp prec emax (Zdigits2 m + e) - e) as [|p|p] eqn:E; simpl fst; simpl snd.
  - rewrite shr_m_of_loc. simpl. rewrite Z.div_1_r. lia.
  - rewrite iter_shr_1_m by (rewrite shr_m_of_loc; lia).
    rewrite shr_m_of_loc. rewrite Z.max_r by lia. lia.
  - rewrite shr_m_of_loc. rewrite Z.max_l by lia. simpl. rewrite Z.div_1_r. lia.
Qed.

Lemma fexp_64 x : fexp 53 1024 x = Z.max (x - 53) (-1074).
Proof. reflexivity. Qed.

Lemma round_nearest_even_bounds m l :
  m <= round_nearest_even m l <= m + 1.
Proof. unfold round_nearest_even. destruct l as [|[]]; try destruct (Z.even m); lia. Qed.

Lemma Zdigits2_mono a b : 0 <= a <= b -> Zdigits2 a <= Zdigits2 b.
Proof.
  intros [Ha Hab]. pose proof (Zdigits2_nonneg b).
  apply Zdigits2_le_of_lt; [lia|].
  destruct (Z.eq_dec b 0) as [->|Hb]; [simpl; lia|].
  pose proof (Zdigits2_bounds b ltac:(lia)). lia.
Qed.

Lemma binary_round_aux_mag s m e l B :
  0 <= m -> e <= 971 -> Zdigits2 m + e <= B -> -1074 <= B -> B + 1 <= 1024 ->
  mag_le (B + 1) (binary_round_aux 53 1024 s m e l).
Proof.
  intros Hm He Hd HB1 HB2. unfold binary_round_aux.
  pose proof (shr_fexp_spec 53 1024 m e l Hm) as [Hm1 He1].
  destruct (shr_fexp 53 1024 m e l) as [mrs1 e1]. simpl fst in *. simpl snd in *.
  set (n1 := Z.max 0 (fexp 53 1024 (Zdigits2 m + e) - e)) in *.
  assert (Hn1 : 0 <= n1) by lia.
  assert (Hp1 : 0 < 2 ^ n1) by (apply Z.pow_pos_nonneg; lia).
  assert (Hm1' : 0 <= shr_m mrs1) by (rewrite Hm1; apply Z.div_pos; lia).
  pose proof (Zdigits2_nonneg m) as Hdm.
  assert (Hd1 : Zdigits2 (shr_m mrs1) + e1 <= B /\ e1 <= B).
  { rewrite Hm1, He1. pose proof (Zdigits2_div_pow2 m n1 Hm Hn1).
    subst n1. rewrite fexp_64 in *. lia. }
  set (m2 := round_nearest_even (shr_m mrs1) (loc_of_shr_record mrs1)).
  pose proof (round_nearest_even_bounds (shr_m mrs1) (loc_of_shr_record mrs1)) as Hr.
  fold m2 in Hr.
  assert (Hm2 : 0 <= m2) by lia.
  assert (Hd2 : Zdigits2 m2 + e1 <= B + 1).
  { pose proof (Zdigits2_mono m2 (shr_m mrs1 + 1) ltac:(lia)).
    pose proof (Zdigits2_succ_le (shr_m mrs1) Hm1'). lia. }
  pose proof (shr_fexp_spec 53 1024 m2 e1 loc_Exact Hm2) as [Hm3 He3].
  destruct (shr_fexp 53 1024 m2 e1 loc_Exact) as [mrs3 e3]. simpl fst in *. simpl snd in *.
  set (n2 := Z.max 0 (fexp 53 1024 (Zdigits2 m2 + e1) - e1)) in *.
  assert (Hn2 : 0 <= n2) by lia.
  assert (Hp2 : 0 < 2 ^ n2) by (apply Z.pow_pos_nonneg; lia).
  assert (Hm3' : 0 <= shr_m mrs3) by (rewrite Hm3; apply Z.div_pos; lia).
  pose proof (Zdigits2_nonneg m2) as Hdm2.
  assert (Hd3 : Zdigits2 (shr_m mrs3) + e3 <= B + 1 /\ e3 <= 971).
  { rewrite Hm3, He3. pose proof (Zdigits2_div_pow2 m2 n2 Hm2 Hn2).
    subst n2. rewrite fexp_64 in *. subst n1. rewrite fexp_64 in *. lia. }
  destruct (shr_m mrs3) as [|p|p] eqn:E3; simpl; [exact I| |lia].
  destruct Hd3 as [Hd3 He3'].
  replace (e3 <=? 1024 - 53) with true by (symmetry; apply Z.leb_le; lia).
  simpl in Hd3. simpl. lia.
Qed.

Lemma Zdigits2_pos p : Zdigits2 (Zpos p) = Zpos (digits2_pos p).
Proof. reflexivity. Qed.

Lemma mul_mag x y Bx By :
  mag_le Bx x -> mag_le By y -> -1074 <= Bx + By -> Bx + By + 1 <= 1024 ->
  Bx + By <= 973 ->
  mag_le (Bx + By + 1) (SFmul 53 1024 x y).
Proof.
  intros Hx Hy H1 H2 H3.
  destruct x as [sx|sx| |sx mx ex], y as [sy|sy| |sy my ey]; simpl in *; try exact I; try contradiction.
  apply binary_round_aux_mag; try lia.
  pose proof (Zdigits2_mul_le (Zpos mx) (Zpos my) ltac:(lia) ltac:(lia)) as Hd.
  change (Zpos (mx * my)) with (Zpos mx * Zpos my).
  unfold Zdigits2 in Hd at 2 3. lia.
Qed.

Lemma SFdiv_core_binary_spec m1 e1 m2 e2 :
  0 < m1 -> 0 < m2 ->
  let M := Zdigits2 m1 + e1 - (Zdigits2 m2 + e2) in
  let '(q, e', _) := SFdiv_core_binary 53 1024 m1 e1 m2 e2 in
  0 <= q /\ e' <= Z.max (M - 53) (-1074) /\ Zdigits2 q + e' <= Z.max (M + 1) (-1074).
Proof.
  intros H1 H2 M. unfold SFdiv_core_binary.
  set (e' := Z.min (fexp 53 1024 (Zdigits2 m1 + e1 - (Zdigits2 m2 + e2))) (e1 - e2)).
  set (s := e1 - e2 - e').
  assert (Hs : 0 <= s) by (subst s e'; lia).
  assert (Hm' : match s with Zpos _ => Z.shiftl m1 s | Z0 => m1 | Zneg _ => 0 end = m1 * 2 ^ s).
  { destruct s as [|p|p] eqn:Es; [simpl; lia| |lia]. rewrite Z.shiftl_mul_pow2 by lia. reflexivity. }
  rewrite Hm'. clear Hm'.
  pose proof (Z_div_mod (m1 * 2 ^ s) m2 ltac:(lia)) as Hdiv.
  destruct (Z.div_eucl (m1 * 2 ^ s) m2) as [q r].
  destruct Hdiv as [Hq Hr].
  assert (Hp : 0 < 2 ^ s) by (apply Z.pow_pos_nonneg; lia).
  assert (Hq0 : 0 <= q) by nia.
  split; [exact Hq0|]. split.
  { subst e' M. rewrite fexp_64. lia. }
  pose proof (Zdigits2_bounds m1 H1) as [_ Hh1].
  pose proof (Zdigits2_bounds m2 H2) as [Hl2 _].
  pose proof (Zdigits2_nonneg m1). 
  assert (Hd2 : 1 <= Zdigits2 m2).
  { destruct m2; simpl; lia. }
  assert (Hd1 : 1 <= Zdigits2 m1).
  { destruct m1; simpl; lia. }
  assert (Hqle : Zdigits2 q <= Z.max 0 (Zdigits2 m1 + s - Zdigits2 m2 + 1)).
  { apply Zdigits2_le_of_lt; [lia|]. split; [lia|].
    destruct (Z_lt_le_dec (Zdigits2 m1 + s - Zdigits2 m2 + 1) 0) as [Hneg|Hnn].
    - rewrite Z.max_l by lia. rewrite Z.pow_0_r.
      assert (m1 * 2 ^ s < 2 ^ (Zdigits2 m2 - 1)).
      { apply Z.lt_le_trans with (2 ^ (Zdigits2 m1 + s)).
        - rewrite Z.pow_add_r by lia. nia.
        - apply Z.pow_le_mono_r; lia. }
      nia.
    - rewrite Z.max_r by lia.
      assert (Hlt : m1 * 2 ^ s < 2 ^ (Zdigits2 m1 + s)) by (rewrite Z.pow_add_r by lia; nia).
      assert (Hsplit : 2 ^ (Zdigits2 m1 + s) = 2 ^ (Zdigits2 m1 + s - Zdigits2 m2 + 1) * 2 ^ (Zdigits2 m2 - 1)).
      { rewrite <- Z.pow_add_r by lia. f_equal. lia. }
      assert (0 < 2 ^ (Zdigits2 m2 - 1)) by (apply Z.pow_pos_nonneg; lia).
      assert (0 < 2 ^ (Zdigits2 m1 + s - Zdigits2 m2 + 1)) by (apply Z.pow_pos_nonneg; lia).
      nia. }
  subst s e' M. rewrite fexp_64 in *. lia.
Qed.

Lemma div_mag sx mx ex sy my ey B :
  Zpos (digits2_pos mx) + ex - (Zpos (digits2_pos my) + ey) + 1 <= B ->
  -1074 <= B -> B + 1 <= 1024 ->
  mag_le (B + 1) (SFdiv 53 1024 (S754_finite sx mx ex) (S754_finite sy my ey)).
Proof.
  intros HM H1 H2. unfold SFdiv.
  pose proof (SFdiv_core_binary_spec (Zpos mx) ex (Zpos my) ey ltac:(lia) ltac:(lia)) as Hc.
  cbv zeta in Hc.
  destruct (SFdiv_core_binary 53 1024 (Zpos mx) ex (Zpos my) ey) as [[q e'] l].
  destruct Hc as (Hq & He & Hd).
  change (Zdigits2 (Zpos mx)) with (Zpos (digits2_pos mx)) in *.
  change (Zdigits2 (Zpos my)) with (Zpos (digits2_pos my)) in *.
  apply binary_round_aux_mag; lia.
Qed.

Lemma mag_le_weaken B B' x : B <= B' -> mag_le B x -> mag_le B' x.
Proof. destruct x; simpl; lia. Qed.

Lemma to_int_ok B x : mag_le B x -> exists z, PyFloat.to_int x = Ok z.
Proof. destruct x; simpl; intros H; try contradiction; eauto. Qed.

Lemma truediv_mag x sy my ey Bx B :
  mag_le Bx x ->
  Bx - (Zpos (digits2_pos my) + ey) + 1 <= B -> -1074 <= B -> B + 1 <= 1024 ->
  exists r, PyFloat.truediv x (S754_finite sy my ey) = Ok r /\ mag_le (B + 1) r.
Proof.
  intros Hx H1 H2 H3. unfold PyFloat.truediv. simpl PyFloat.is_zero. cbv iota.
  eexists; split; [reflexivity|].
  destruct x as [sx|sx| |sx mx ex]; try contradiction; [exact I|].
  apply div_mag; simpl in Hx; lia.
Qed.

Lemma Zdigits2_abs_pos z : z <> 0 -> Zpos (digits2_pos (Z.to_pos (Z.abs z))) = Zdigits2 (Z.abs z).
Proof. intros Hz. destruct z; simpl; congruence. Qed.

Lemma int_truediv_mag a b B :
  b <> 0 ->
  Zdigits2 (Z.abs a) - Zdigits2 (Z.abs b) + 1 <= B -> -1074 <= B -> B + 1 <= 1024 ->
  exists x, PyFloat.int_truediv a b = Ok x /\ mag_le (B + 1) x.
Proof.
  intros Hb H1 H2 H3. unfold PyFloat.int_truediv.
  destruct (Z.eqb_spec b 0) as [|_]; [contradiction|].
  destruct (Z.eqb_spec a 0) as [|Ha]; [eexists; split; [reflexivity|exact I]|].
  assert (Hm : mag_le (B + 1) (SFdiv PyFloat.prec PyFloat.emax (PyFloat.exact a) (PyFloat.exact b))).
  { apply div_mag; rewrite ?Zdigits2_abs_pos by assumption; lia. }
  destruct (SFdiv _ _ _ _) eqn:E; simpl in Hm; try contradiction; simpl; eauto.
Qed.

(** The bar of a band whose count is between 0 and the total. *)
Lemma bar_length_ok ratio :
  mag_le 2 ratio ->
  exists scaled n,
    PyFloat.truediv (PyFloat.mul ratio (PyFloat.const 100)) (PyFloat.const 100) = Ok scaled /\
    PyFloat.to_int (PyFloat.mul scaled (PyFloat.const 50)) = Ok n.
Proof.
  intros Hr.
  assert (H100 : mag_le 7 (PyFloat.const 100)) by (vm_compute; discriminate).
  assert (H50 : mag_le 6 (PyFloat.const 50)) by (vm_compute; discriminate).
  pose proof (mul_mag _ _ 2 7 Hr H100 ltac:(lia) ltac:(lia) ltac:(lia)) as Hp.
  change (PyFloat.const 100) with (S754_finite false 7036874417766400 (-46)) at 2.
  destruct (truediv_mag _ false 7036874417766400 (-46) (2 + 7 + 1) 4 Hp) as (scaled & Hs & Hm);
    [simpl; lia|lia|lia|].
  exists scaled.
  pose proof (mul_mag _ _ (4 + 1) 6 Hm H50 ltac:(lia) ltac:(lia) ltac:(lia)) as Hb.
  destruct (to_int_ok _ _ Hb) as [n Hn].
  exists n. split; assumption.
Qed.

Lemma count_ratio_ok count total :
  0 <= count <= total -> 0 < total ->
  exists ratio, PyFloat.int_truediv count total = Ok ratio /\ mag_le 2 ratio.
Proof.
  intros Hc Ht.
  apply (int_truediv_mag count total 1); try lia.
  pose proof (Zdigits2_mono (Z.abs count) (Z.abs total) ltac:(lia)). lia.
Qed.

(** ** Floats: values through rounding *)

Lemma Zdigits2_eq x k : 0 < k -> 2 ^ (k - 1) <= x < 2 ^ k -> Zdigits2 x = k.
Proof.
  intros Hk [Hlo Hhi].
  assert (Hx : 0 < x) by (pose proof (Z.pow_pos_nonneg 2 (k - 1)); lia).
  pose proof (Zdigits2_le_of_lt x k ltac:(lia) ltac:(lia)) as Hle.
  pose proof (Zdigits2_bounds x Hx) as [_ Hd].
  destruct (Z_lt_le_dec (Zdigits2 x) k) as [Hlt|]; [|lia].
  exfalso.
  assert (2 ^ Zdigits2 x <= 2 ^ (k - 1)) by (apply Z.pow_le_mono_r; lia).
  lia.
Qed.

(** Rounding a mantissa of at least 53 digits in the normal range: the
    result is an infinity or a normal float within a factor [1 + 2^-52]
    of every value [N / D] that the mantissa stands for. *)
Lemma binary_round_aux_near s m e l K N D :
  0 < m -> 53 <= Zdigits2 m -> -1074 <= Zdigits2 m + e - 53 ->
  0 <= e + K -> 0 < D ->
  m * 2 ^ (e + K) * D <= N <= (m + 1) * 2 ^ (e + K) * D ->
  binary_round_aux 53 1024 s m e l = S754_infinity s \/
  exists m' e',
    binary_round_aux 53 1024 s m e l = S754_finite s m' e' /\
    -1074 <= e' /\ e <= e' /\ 2 ^ 52 <= Zpos m' < 2 ^ 53 /\
    2 ^ 52 * (Zpos m' * 2 ^ (e' + K) * D) <= (2 ^ 52 + 1) * N /\
    2 ^ 52 * N <= (2 ^ 52 + 1) * (Zpos m' * 2 ^ (e' + K) * D).
Proof.
  intros Hm Hd Hnorm HK HD HN. unfold binary_round_aux.
  pose proof (shr_fexp_spec 53 1024 m e l ltac:(lia)) as [Hm1 He1].
  destruct (shr_fexp 53 1024 m e l) as [mrs1 e1]. cbn [fst snd] in *.
  rewrite fexp_64 in Hm1, He1.
  set (d := Zdigits2 m) in *.
  replace (Z.max 0 (Z.max (d + e - 53) (-1074) - e)) with (d - 53) in Hm1, He1 by lia.
  set (n1 := d - 53) in *.
  assert (Hn1 : 0 <= n1) by (subst n1; lia).
  assert (Hp1 : 0 < 2 ^ n1) by (apply Z.pow_pos_nonneg; lia).
  pose proof (Zdigits2_bounds m Hm) as [Hlo Hhi]. fold d in Hlo, Hhi.
  assert (Hsplit : 2 ^ (d - 1) = 2 ^ 52 * 2 ^ n1).
  { rewrite <- Z.pow_add_r by lia. f_equal. subst n1. lia. }
  assert (Hsplit' : 2 ^ d = 2 ^ 53 * 2 ^ n1).
  { rewrite <- Z.pow_add_r by lia. f_equal. subst n1. lia. }
  set (m1 := shr_m mrs1) in *.
  assert (Hdiv : m1 * 2 ^ n1 <= m < (m1 + 1) * 2 ^ n1).
  { rewrite Hm1. pose proof (Z.mul_div_le m (2 ^ n1) Hp1).
    pose proof (Z.mul_succ_div_gt m (2 ^ n1) Hp1). lia. }
  assert (Hm1r : 2 ^ 52 <= m1 < 2 ^ 53) by (split; nia).
  set (m2 := round_nearest_even m1 (loc_of_shr_record mrs1)).
  pose proof (round_nearest_even_bounds m1 (loc_of_shr_record mrs1)) as Hr. fold m2 in Hr.
  pose proof (shr_fexp_spec 53 1024 m2 e1 loc_Exact ltac:(lia)) as [Hm3 He3].
  destruct (shr_fexp 53 1024 m2 e1 loc_Exact) as [mrs3 e3]. cbn [fst snd] in *.
  rewrite fexp_64 in Hm3, He3.
  assert (HW : 2 ^ (e1 + K) = 2 ^ n1 * 2 ^ (e + K)).
  { rewrite He1. rewrite <- Z.pow_add_r by lia. f_equal. lia. }
  assert (HW0 : 0 < 2 ^ (e + K)) by (apply Z.pow_pos_nonneg; lia).
  assert (Hval : exists m' e', shr_m mrs3 = Zpos m' /\ e3 = e' /\
            -1074 <= e' /\ e <= e' /\ 2 ^ 52 <= Zpos m' < 2 ^ 53 /\
            Zpos m' * 2 ^ (e' + K) = m2 * 2 ^ (e1 + K)).
  { destruct (Z_lt_le_dec m2 (2 ^ 53)) as [Hlt|Hge].
    - assert (Hd2 : Zdigits2 m2 = 53) by (apply Zdigits2_eq; simpl; lia).
      rewrite Hd2 in Hm3, He3.
      replace (Z.max 0 (Z.max (53 + e1 - 53) (-1074) - e1)) with 0 in Hm3, He3 by lia.
      rewrite Z.pow_0_r, Z.div_1_r in Hm3. rewrite Z.add_0_r in He3.
      destruct (shr_m mrs3) as [|p|p] eqn:E3; try lia.
      exists p, e3. rewrite He3, Hm3. repeat split; try lia.
    - assert (Hm2 : m2 = 2 ^ 53) by lia.
      assert (Hd2 : Zdigits2 m2 = 54) by (rewrite Hm2; reflexivity).
      rewrite Hd2 in Hm3, He3.
      replace (Z.max 0 (Z.max (54 + e1 - 53) (-1074) - e1)) with 1 in Hm3, He3 by lia.
      rewrite Hm2 in Hm3. change (2 ^ 53 / 2 ^ 1) with (2 ^ 52) in Hm3.
      destruct (shr_m mrs3) as [|p|p] eqn:E3; try (simpl in Hm3; lia).
      exists p, e3. rewrite He3, Hm3, Hm2. repeat split; try lia; try (simpl; lia).
      replace (e1 + 1 + K) with (1 + (e1 + K)) by lia.
      rewrite Z.pow_add_r by lia. change (2 ^ 53) with (2 ^ 52 * 2 ^ 1). lia. }
  destruct Hval as (m' & e' & Hs3 & -> & He'1 & He'2 & Hm' & Hv).
  rewrite Hs3. destruct (e' <=? 1024 - 53); [right|left; reflexivity].
  exists m', e'. split; [reflexivity|]. split; [exact He'1|]. split; [exact He'2|].
  split; [exact Hm'|].
  rewrite Hv, HW.
  set (W := 2 ^ (e + K)) in *. set (P := 2 ^ n1) in *.
  assert (H1 : m1 * (P * W * D) <= N) by nia.
  assert (H2 : N <= (m1 + 1) * (P * W * D)) by nia.
  assert (HPWD : 0 < P * W * D) by nia.
  set (U := P * W * D) in *.
  replace (m2 * (P * W) * D) with (m2 * U) by (subst U; ring).
  split; nia.
Qed.

(** The quotient digits of two positive ints: at least 53 of them, and
    the quotient lies between the digits and their successor. *)
Lemma int_div_core a b K :
  0 < a -> 0 < b -> Zdigits2 b <= 1000 -> 1074 <= K ->
  let '(q, e', _) := SFdiv_core_binary 53 1024 a 0 b 0 in
  2 ^ 52 <= q /\ -1074 <= e' <= 0 /\
  q * 2 ^ (e' + K) * b <= a * 2 ^ K <= (q + 1) * 2 ^ (e' + K) * b.
Proof.
  intros H1 H2 Hb HK. unfold SFdiv_core_binary.
  set (e' := Z.min (fexp 53 1024 (Zdigits2 a + 0 - (Zdigits2 b + 0))) (0 - 0)).
  set (s := 0 - 0 - e').
  assert (Hd2 : 1 <= Zdigits2 b) by (destruct b; simpl; lia).
  assert (Hd1 : 1 <= Zdigits2 a) by (destruct a; simpl; lia).
  assert (He' : e' = Z.min (Zdigits2 a - Zdigits2 b - 53) 0).
  { subst e'. rewrite fexp_64. lia. }
  assert (Hs : 0 <= s) by (subst s; lia).
  assert (Hm' : match s with Zpos _ => Z.shiftl a s | Z0 => a | Zneg _ => 0 end = a * 2 ^ s).
  { destruct s as [|p|p] eqn:Es; [simpl; lia| |lia]. rewrite Z.shiftl_mul_pow2 by lia. reflexivity. }
  rewrite Hm'. clear Hm'.
  pose proof (Z_div_mod (a * 2 ^ s) b ltac:(lia)) as Hdiv.
  destruct (Z.div_eucl (a * 2 ^ s) b) as [q r].
  destruct Hdiv as [Hq Hr].
  assert (Hp : 0 < 2 ^ s) by (apply Z.pow_pos_nonneg; lia).
  pose proof (Zdigits2_bounds a H1) as [Hl1 _].
  pose proof (Zdigits2_bounds b H2) as [_ Hh2].
  split.
  { destruct (Z_lt_le_dec q (2 ^ 52)) as [Hlt|]; [exfalso|assumption].
    assert (Hlow : 2 ^ (52 + Zdigits2 b) <= a * 2 ^ s).
    { apply Z.le_trans with (2 ^ (Zdigits2 a - 1 + s)).
      - apply Z.pow_le_mono_r; lia.
      - rewrite Z.pow_add_r by lia. nia. }
    rewrite Z.pow_add_r in Hlow by lia.
    assert (0 < 2 ^ 52) by reflexivity. nia. }
  split; [lia|].
  assert (HP : 0 < 2 ^ (e' + K)) by (apply Z.pow_pos_nonneg; lia).
  assert (HK2 : 2 ^ K = 2 ^ s * 2 ^ (e' + K)).
  { rewrite <- Z.pow_add_r by lia. f_equal. subst s. lia. }
  rewrite HK2. set (P := 2 ^ (e' + K)) in *. set (S := 2 ^ s) in *.
  split; nia.
Qed.

Lemma Zdigits2_ge x k : 0 <= k -> 2 ^ k <= x -> k + 1 <= Zdigits2 x.
Proof.
  intros Hk Hx.
  assert (0 < x) by (pose proof (Z.pow_pos_nonneg 2 k); lia).
  pose proof (Zdigits2_bounds x ltac:(lia)) as [_ Hh].
  destruct (Z_lt_le_dec (Zdigits2 x) (k + 1)) as [Hlt|]; [exfalso|lia].
  assert (2 ^ Zdigits2 x <= 2 ^ k) by (apply Z.pow_le_mono_r; lia).
  lia.
Qed.

(** [a / b] on two ints other than zero: an [OverflowError] or a normal
    float within a factor [1 + 2^-52] of the quotient. *)
Lemma int_truediv_near a b K :
  a <> 0 -> b <> 0 -> Zdigits2 (Z.abs b) <= 1000 -> 1074 <= K ->
  PyFloat.int_truediv a b = Raise OverflowError \/
  exists m e,
    PyFloat.int_truediv a b = Ok (S754_finite (xorb (a <? 0) (b <? 0)) m e) /\
    -1074 <= e /\ 2 ^ 52 <= Zpos m < 2 ^ 53 /\
    2 ^ 52 * (Zpos m * 2 ^ (e + K) * Z.abs b) <= (2 ^ 52 + 1) * (Z.abs a * 2 ^ K) /\
    2 ^ 52 * (Z.abs a * 2 ^ K) <= (2 ^ 52 + 1) * (Zpos m * 2 ^ (e + K) * Z.abs b).
Proof.
  intros Ha Hb Hdb HK. unfold PyFloat.int_truediv.
  destruct (Z.eqb_spec b 0) as [|_]; [contradiction|].
  destruct (Z.eqb_spec a 0) as [|_]; [contradiction|].
  unfold PyFloat.exact, SFdiv. change PyFloat.prec with 53. change PyFloat.emax with 1024.
  rewrite !Z2Pos.id by lia.
  pose proof (int_div_core (Z.abs a) (Z.abs b) K ltac:(lia) ltac:(lia) Hdb HK) as Hc.
  destruct (SFdiv_core_binary 53 1024 (Z.abs a) 0 (Z.abs b) 0) as [[q e'] l].
  destruct Hc as (Hq & He & Hint).
  pose proof (Zdigits2_ge q 52 ltac:(lia) Hq) as Hdq.
  assert (Hq0 : 0 < q) by (assert (0 < 2 ^ 52) by reflexivity; lia).
  destruct (binary_round_aux_near (xorb (a <? 0) (b <? 0)) q e' l K
              (Z.abs a * 2 ^ K) (Z.abs b) Hq0 ltac:(lia) ltac:(lia) ltac:(lia) ltac:(lia) Hint)
    as [-> | (m & e & -> & He1 & _ & Hm & Hle & Hge)].
  - left. reflexivity.
  - right. exists m, e. simpl. repeat split; try lia.
Qed.

(** The product of two normal floats: an infinity or a normal float
    within a factor [1 + 2^-52] of the product. *)
Lemma mul_near sx mx ex sy my ey K1 K2 :
  2 ^ 52 <= Zpos mx -> 2 ^ 52 <= Zpos my -> -1126 <= ex + ey ->
  0 <= ex + K1 -> 0 <= ey + K2 ->
  let x := S754_finite sx mx ex in
  let y := S754_finite sy my ey in
  PyFloat.mul x y = S754_infinity (xorb sx sy) \/
  exists m e,
    PyFloat.mul x y = S754_finite (xorb sx sy) m e /\
    -1074 <= e /\ 2 ^ 52 <= Zpos m < 2 ^ 53 /\
    2 ^ 52 * (Zpos m * 2 ^ (e + (K1 + K2))) <= (2 ^ 52 + 1) * (scaled K1 x * scaled K2 y) /\
    2 ^ 52 * (scaled K1 x * scaled K2 y) <= (2 ^ 52 + 1) * (Zpos m * 2 ^ (e + (K1 + K2))).
Proof.
  intros Hx Hy He H1 H2 x y. subst x y. unfold PyFloat.mul, SFmul, scaled.
  change PyFloat.prec with 53. change PyFloat.emax with 1024.
  change (Zpos (mx * my)) with (Zpos mx * Zpos my).
  set (a := Zpos mx) in *. set (b := Zpos my) in *.
  assert (H52 : 0 < 2 ^ 52) by reflexivity.
  assert (Hab : 2 ^ 104 <= a * b).
  { change (2 ^ 104) with (2 ^ 52 * 2 ^ 52). nia. }
  pose proof (Zdigits2_ge (a * b) 104 ltac:(lia) Hab) as Hd.
  assert (HN : a * b * 2 ^ (ex + ey + (K1 + K2)) * 1 <=
               a * 2 ^ (ex + K1) * (b * 2 ^ (ey + K2)) <=
               (a * b + 1) * 2 ^ (ex + ey + (K1 + K2)) * 1).
  { replace (ex + ey + (K1 + K2)) with ((ex + K1) + (ey + K2)) by lia.
    rewrite Z.pow_add_r by lia.
    assert (0 < 2 ^ (ex + K1)) by (apply Z.pow_pos_nonneg; lia).
    assert (0 < 2 ^ (ey + K2)) by (apply Z.pow_pos_nonneg; lia).
    split; nia. }
  destruct (binary_round_aux_near (xorb sx sy) (a * b) (ex + ey) loc_Exact (K1 + K2)
              _ 1 ltac:(nia) ltac:(lia) ltac:(lia) ltac:(lia) ltac:(lia) HN)
    as [-> | (m & e & -> & He1 & _ & Hm & Hle & Hge)].
  - left. reflexivity.
  - right. exists m, e. repeat split; try lia.
Qed.

(** Rounding away from zero, on the scaled magnitude. *)
Lemma round_up_spec s m e K :
  0 <= K -> 0 <= e + K ->
  exists n,
    PyFloat.round_up (S754_finite s m e) = Ok (cond_Zopp s n) /\
    (n - 1) * 2 ^ K < Zpos m * 2 ^ (e + K) <= n * 2 ^ K.
Proof.
  intros HK HeK. unfold PyFloat.round_up.
  assert (HP : 0 < 2 ^ (e + K)) by (apply Z.pow_pos_nonneg; lia).
  destruct e as [|p|p].
  - exists (Zpos m). split; [reflexivity|]. rewrite Z.add_0_l in *. lia.
  - exists (Zpos m * 2 ^ Zpos p). split; [rewrite Z.shiftl_mul_pow2 by lia; reflexivity|].
    rewrite (Z.pow_add_r 2 (Zpos p) K) by lia.
    assert (0 < 2 ^ K) by (apply Z.pow_pos_nonneg; lia).
    assert (0 < 2 ^ Zpos p) by (apply Z.pow_pos_nonneg; lia). nia.
  - eexists. split; [reflexivity|].
    assert (Hp : 0 < 2 ^ Zpos p) by (apply Z.pow_pos_nonneg; lia).
    assert (HK2 : 2 ^ K = 2 ^ Zpos p * 2 ^ (Zneg p + K)).
    { rewrite <- Z.pow_add_r by lia. f_equal. lia. }
    rewrite HK2.
    pose proof (Z.mul_div_le (- Zpos m) (2 ^ Zpos p) Hp).
    pose proof (Z.mul_succ_div_gt (- Zpos m) (2 ^ Zpos p) Hp).
    set (q := - Zpos m / 2 ^ Zpos p) in *.
    set (P := 2 ^ Zpos p) in *. set (W := 2 ^ (Zneg p + K)) in *.
    split; nia.
Qed.

(** ** The thresholds [settimeout] accepts *)

Lemma const_billion :
  PyFloat.const 1000000000 = S754_finite false 8388608000000000 (-23).
Proof. vm_compute. reflexivity. Qed.

Lemma settimeout_raise delay e :
  PyFloat.int_truediv delay 1000 = Raise e -> settimeout delay = Raise e.
Proof. intros H. unfold settimeout. rewrite H. reflexivity. Qed.

Lemma settimeout_round delay v ns :
  PyFloat.int_truediv delay 1000 = Ok v ->
  PyFloat.round_up (PyFloat.mul v (PyFloat.const 1000000000)) = Ok ns ->
  settimeout delay =
  if (ns <? - 2 ^ 63) || (2 ^ 63 <=? ns) then Raise OverflowError
  else if ns <? 0 then Raise ValueError
  else Ok tt.
Proof. intros H1 H2. unfold settimeout. rewrite H1. cbn [mbind result_bind]. rewrite H2. reflexivity. Qed.

Lemma settimeout_infinite delay v s :
  PyFloat.int_truediv delay 1000 = Ok v ->
  PyFloat.mul v (PyFloat.const 1000000000) = S754_infinity s ->
  settimeout delay = Raise OverflowError.
Proof. intros H1 H2. unfold settimeout. rewrite H1. cbn [mbind result_bind]. rewrite H2. reflexivity. Qed.

(** What [settimeout] computes for a threshold other than zero: the
    quotient or the product is too large, or the nanoseconds [ns] are within a factor [(1 + 2^-52)^2]
    of [delay * 10^6], rounded away from zero. *)
Lemma settimeout_near delay :
  delay <> 0 ->
  PyFloat.int_truediv delay 1000 = Raise OverflowError \/
  (exists v s, PyFloat.int_truediv delay 1000 = Ok v /\
     PyFloat.mul v (PyFloat.const 1000000000) = S754_infinity s) \/
  exists v d n W,
    PyFloat.int_truediv delay 1000 = Ok v /\
    PyFloat.round_up (PyFloat.mul v (PyFloat.const 1000000000)) =
      Ok (cond_Zopp (delay <? 0) n) /\
    0 < W /\ 0 < d /\ (n - 1) * W < d <= n * W /\
    2 ^ 104 * d <= (2 ^ 52 + 1) * (2 ^ 52 + 1) * (Z.abs delay * 1000000 * W) /\
    2 ^ 104 * (Z.abs delay * 1000000 * W) <= (2 ^ 52 + 1) * (2 ^ 52 + 1) * d.
Proof.
  intros Hd.
  destruct (int_truediv_near delay 1000 1074 Hd ltac:(lia) ltac:(simpl; lia) ltac:(lia))
    as [Hv | (mv & ev & Hv & Hev & Hmv & Hv1 & Hv2)].
  { left. exact Hv. }
  change (1000 <? 0) with false in Hv. rewrite xorb_false_r in Hv.
  change (Z.abs 1000) with 1000 in Hv1, Hv2.
  pose proof (mul_near (delay <? 0) mv ev false 8388608000000000 (-23) 1074 23
                ltac:(lia) ltac:(simpl; lia) ltac:(lia) ltac:(lia) ltac:(lia)) as Hm.
  cbv zeta in Hm. rewrite <- const_billion in Hm.
  rewrite xorb_false_r in Hm.
  destruct Hm as [Hm | (md & ed & Hm & Hed & Hmd & Hm1 & Hm2)].
  { right; left. eauto. }
  right; right.
  destruct (round_up_spec (delay <? 0) md ed 1097 ltac:(lia) ltac:(lia)) as (n & Hn & Hb).
  exists (S754_finite (delay <? 0) mv ev), (Zpos md * 2 ^ (ed + 1097)), n, (2 ^ 1097).
  split; [exact Hv|]. split; [rewrite Hm; exact Hn|].
  assert (HW : 0 < 2 ^ 1097) by (apply Z.pow_pos_nonneg; lia).
  assert (HP : 0 < 2 ^ (ed + 1097)) by (apply Z.pow_pos_nonneg; lia).
  split; [exact HW|]. split; [lia|]. split; [exact Hb|].
  rewrite const_billion in Hm1, Hm2.
  unfold scaled in Hm1, Hm2.
  change (-23 + 23) with 0 in Hm1, Hm2. rewrite Z.pow_0_r, Z.mul_1_r in Hm1, Hm2.
  change (1074 + 23) with 1097 in Hm1, Hm2.
  assert (HW2 : 2 ^ 1097 = 2 ^ 1074 * 2 ^ 23) by (rewrite <- Z.pow_add_r by lia; reflexivity).
  rewrite HW2.
  set (Rd := Zpos md * 2 ^ (ed + 1097)) in *.
  set (Rv := Zpos mv * 2 ^ (ev + 1074)) in *.
  set (T := 2 ^ 1074) in *.
  change (Zpos 8388608000000000) with (1000 * (1000000 * 2 ^ 23)) in Hm1, Hm2.
  change (2 ^ 104) with (2 ^ 52 * 2 ^ 52).
  set (c := 2 ^ 52) in *. set (u := 2 ^ 23) in *.
  assert (Hc : 0 < c) by reflexivity. assert (Hu : 0 < u) by reflexivity.
  split.
  - apply Z.le_trans with (c * ((c + 1) * (Rv * (1000 * (1000000 * u))))); [nia|].
    replace (c * ((c + 1) * (Rv * (1000 * (1000000 * u)))))
      with ((c + 1) * (1000000 * u) * (c * (Rv * 1000))) by ring.
    replace ((c + 1) * (c + 1) * (Z.abs delay * 1000000 * (T * u)))
      with ((c + 1) * (1000000 * u) * ((c + 1) * (Z.abs delay * T))) by ring.
    apply Z.mul_le_mono_nonneg_l; [nia|exact Hv1].
  - apply Z.le_trans with ((c + 1) * (c * (Rv * (1000 * (1000000 * u))))).
    + replace (c * c * (Z.abs delay * 1000000 * (T * u)))
        with (c * (1000000 * u) * (c * (Z.abs delay * T))) by ring.
      replace ((c + 1) * (c * (Rv * (1000 * (1000000 * u)))))
        with (c * (1000000 * u) * ((c + 1) * (Rv * 1000))) by ring.
      apply Z.mul_le_mono_nonneg_l; [nia|exact Hv2].
    + replace ((c + 1) * (c + 1) * Rd) with ((c + 1) * ((c + 1) * Rd)) by ring.
      apply Z.mul_le_mono_nonneg_l; [lia|exact Hm2].
Qed.

Lemma settimeout_negative delay :
  delay < 0 ->
  settimeout delay = Raise ValueError \/ settimeout delay = Raise OverflowError.
Proof.
  intros Hd.
  destruct (settimeout_near delay ltac:(lia))
    as [H | [(v & s & Hv & Hi) | (v & d & n & W & Hv & Hr & HW & Hd0 & [_ Hn] & _)]].
  { right. apply settimeout_raise. exact H. }
  { right. eapply settimeout_infinite; eassumption. }
  rewrite (settimeout_round _ _ _ Hv Hr).
  replace (delay <? 0) with true by (symmetry; apply Z.ltb_lt; exact Hd).
  assert (1 <= n) by nia. cbn [cond_Zopp].
  destruct ((- n <? - 2 ^ 63) || (2 ^ 63 <=? - n)); [right; reflexivity|].
  replace (- n <? 0) with true by (symmetry; apply Z.ltb_lt; lia).
  left; reflexivity.
Qed.

Lemma settimeout_in_range delay :
  0 <= delay <= 9223372036854 -> settimeout delay = Ok tt.
Proof.
  intros [H0 Hmax].
  destruct (Z.eq_dec delay 0) as [->|Hnz]; [vm_compute; reflexivity|].
  destruct (int_truediv_mag delay 1000 35 ltac:(lia)) as (v & Hv & Hmag); try lia.
  { pose proof (Zdigits2_mono (Z.abs delay) 9223372036854 ltac:(lia)) as Hm.
    change (Zdigits2 9223372036854) with 44 in Hm.
    change (Zdigits2 (Z.abs 1000)) with 10. lia. }
  assert (Hc : mag_le 30 (PyFloat.const 1000000000)) by (vm_compute; discriminate).
  pose proof (mul_mag _ _ 36 30 Hmag Hc ltac:(lia) ltac:(lia) ltac:(lia)) as Hp.
  change (SFmul 53 1024 v (PyFloat.const 1000000000))
    with (PyFloat.mul v (PyFloat.const 1000000000)) in Hp.
  destruct (settimeout_near delay Hnz)
    as [H | [(v' & s & Hv' & Hi) | (v' & d & n & W & Hv' & Hr & HW & Hd0 & [Hn Hn'] & Hup & _)]].
  { congruence. }
  { assert (v' = v) by congruence. subst v'. rewrite Hi in Hp. contradiction. }
  rewrite (settimeout_round _ _ _ Hv' Hr).
  replace (delay <? 0) with false by (symmetry; apply Z.ltb_ge; lia).
  cbn [cond_Zopp]. rewrite Z.abs_eq in Hup by lia.
  assert (Hn1 : 1 <= n) by nia.
  assert (Hn2 : n < 2 ^ 63).
  { assert (Hb : 2 ^ 104 * d <= 2 ^ 104 * ((2 ^ 63 - 1) * W)).
    { eapply Z.le_trans; [exact Hup|].
      replace ((2 ^ 52 + 1) * (2 ^ 52 + 1) * (delay * 1000000 * W))
        with ((2 ^ 52 + 1) * (2 ^ 52 + 1) * 1000000 * delay * W) by ring.
      replace (2 ^ 104 * ((2 ^ 63 - 1) * W)) with (2 ^ 104 * (2 ^ 63 - 1) * W) by ring.
      apply Z.mul_le_mono_nonneg_r; [lia|].
      apply Z.le_trans with ((2 ^ 52 + 1) * (2 ^ 52 + 1) * 1000000 * 9223372036854).
      - apply Z.mul_le_mono_nonneg_l; [vm_compute; discriminate|exact Hmax].
      - vm_compute; discriminate. }
    apply Z.mul_le_mono_pos_l in Hb; [|reflexivity].
    assert ((n - 1) * W < (2 ^ 63 - 1) * W) by lia.
    apply Z.mul_lt_mono_pos_r in H; lia. }
  replace (n <? - 2 ^ 63) with false by (symmetry; apply Z.ltb_ge; lia).
  replace (2 ^ 63 <=? n) with false by (symmetry; apply Z.leb_gt; lia).
  replace (n <? 0) with false by (symmetry; apply Z.ltb_ge; lia).
  reflexivity.
Qed.

Lemma settimeout_too_large delay :
  9223372036855 <= delay -> settimeout delay = Raise OverflowError.
Proof.
  intros Hmin.
  destruct (settimeout_near delay ltac:(lia))
    as [H | [(v & s & Hv & Hi) | (v & d & n & W & Hv & Hr & HW & Hd0 & [_ Hn] & _ & Hlo)]].
  { apply settimeout_raise. exact H. }
  { eapply settimeout_infinite; eassumption. }
  rewrite (settimeout_round _ _ _ Hv Hr).
  replace (delay <? 0) with false by (symmetry; apply Z.ltb_ge; lia).
  cbn [cond_Zopp]. rewrite Z.abs_eq in Hlo by lia.
  assert (Hn2 : 2 ^ 63 <= n).
  { assert (Hb : (2 ^ 52 + 1) * (2 ^ 52 + 1) * (2 ^ 63 * W) <= (2 ^ 52 + 1) * (2 ^ 52 + 1) * d).
    { eapply Z.le_trans; [|exact Hlo].
      replace (2 ^ 104 * (delay * 1000000 * W)) with (2 ^ 104 * 1000000 * delay * W) by ring.
      replace ((2 ^ 52 + 1) * (2 ^ 52 + 1) * (2 ^ 63 * W))
        with ((2 ^ 52 + 1) * (2 ^ 52 + 1) * 2 ^ 63 * W) by ring.
      apply Z.mul_le_mono_nonneg_r; [lia|].
      apply Z.le_trans with (2 ^ 104 * 1000000 * 9223372036855).
      - vm_compute; discriminate.
      - apply Z.mul_le_mono_nonneg_l; [vm_compute; discriminate|exact Hmin]. }
    apply Z.mul_le_mono_pos_l in Hb; [|reflexivity].
    assert (2 ^ 63 * W <= n * W) by lia.
    apply Z.mul_le_mono_pos_r in H; lia. }
  replace (2 ^ 63 <=? n) with true by (symmetry; apply Z.leb_le; lia).
  rewrite orb_true_r. reflexivity.
Qed.

(** [settimeout] accepts exactly the thresholds from 0 to
    9223372036854 milliseconds. *)
Lemma settimeout_ok_iff delay :
  settimeout delay = Ok tt <-> 0 <= delay <= 9223372036854.
Proof.
  split.
  - intros H.
    destruct (Z_lt_le_dec delay 0) as [Hn|Hn].
    { destruct (settimeout_negative delay Hn) as [E|E]; congruence. }
    destruct (Z_lt_le_dec 9223372036854 delay) as [Hl|Hl]; [|lia].
    rewrite settimeout_too_large in H by lia. discriminate.
  - apply settimeout_in_range.
Qed.

(** ** Workers and pools *)

Lemma report_progress_ok total count :
  0 <= count < total -> report_progress total count = Ok (count + 1).
Proof.
  intros H. unfold report_progress.
  destruct (count_ratio_ok (count + 1) total ltac:(lia) ltac:(lia)) as (ratio & -> & _).
  reflexivity.
Qed.

Lemma guarded_ok {A : Type} (body : result (option A)) total count :
  0 <= count < total ->
  guarded body total count =
  Ok (match body with Ok r => r | Raise _ => None end, count + 1).
Proof. intros H. unfold guarded. rewrite report_progress_ok by exact H. reflexivity. Qed.

Lemma run_pool_from_kept {A : Type} (worker : nat -> string -> Z -> result (option A * Z))
    (f : nat -> string -> option A) (total : Z) :
  (forall i ip c, 0 <= c < total -> worker i ip c = Ok (f i ip, c + 1)) ->
  forall ip_list i c,
    0 <= c -> c + Z.of_nat (length ip_list) <= total ->
    run_pool_from worker i ip_list c =
    Ok (kept_from f i ip_list, c + Z.of_nat (length ip_list)).
Proof.
  intros Hw ip_list. induction ip_list as [|ip rest IH]; intros i c Hc Hlen.
  - simpl. rewrite Z.add_0_r. reflexivity.
  - assert (E : Z.of_nat (length (ip :: rest)) = 1 + Z.of_nat (length rest))
      by (cbn [length]; lia).
    rewrite E in *. cbn [run_pool_from kept_from].
    rewrite Hw by lia. cbn [mbind result_bind].
    rewrite IH by lia. rewrite Z.add_assoc.
    destruct (f i ip); reflexivity.
Qed.

Lemma elem_of_kept_from {A : Type} (f : nat -> string -> option A) ip_list : forall i x,
  x ∈ kept_from f i ip_list <->
  exists j ip, ip_list !! j = Some ip /\ f (i + j)%nat ip = Some x.
Proof.
  induction ip_list as [|ip rest IH]; intros i x; simpl.
  - split; [intros H; inversion H|intros (j & ip & H & _); discriminate].
  - split.
    + intros H. destruct (f i ip) eqn:E.
      * apply elem_of_cons in H as [->|H].
        -- exists 0%nat, ip. rewrite Nat.add_0_r. auto.
        -- apply IH in H as (j & ip' & H1 & H2). exists (S j), ip'.
           rewrite <- Nat.add_succ_comm. auto.
      * apply IH in H as (j & ip' & H1 & H2). exists (S j), ip'.
        rewrite <- Nat.add_succ_comm. auto.
    + intros (j & ip' & H1 & H2). destruct j as [|j]; simpl in H1.
      * injection H1 as ->. rewrite Nat.add_0_r in H2. rewrite H2. left.
      * rewrite <- Nat.add_succ_comm in H2.
        assert (x ∈ kept_from f (S i) rest) by (apply IH; eauto).
        destruct (f i ip); [right|]; assumption.
Qed.

(** ** LatencyTester *)

Lemma trial_counted delay st a :
  trial delay st a =
  match counted delay a with
  | Some l => tally_after st [l]
  | None => st
  end.
Proof.
  unfold trial, with_timeout, counted, accepted, tally_after.
  destruct a as [l|e]; [|destruct (settimeout delay); reflexivity].
  destruct (settimeout delay); cbn [andb]; [|reflexivity].
  destruct (Z.gtb_spec l delay), (Z.leb_spec l delay); try lia; [reflexivity|].
  unfold sum_Z. cbn. f_equal; lia.
Qed.

Lemma fold_trial delay l : forall st,
  fold_left (trial delay) l st = tally_after st (omap (counted delay) l).
Proof.
  induction l as [|a l IH]; intros st; simpl.
  - destruct st; unfold tally_after, sum_Z; simpl. rewrite !Z.add_0_r. reflexivity.
  - rewrite IH, trial_counted. destruct (counted delay a) as [x|]; [|reflexivity].
    unfold tally_after, sum_Z. cbn [omap list_omap success_count total_latency min_latency
      max_latency fold_left fold_right length].
    change (list_omap attempt Z (counted delay) l) with (omap (counted delay) l).
    generalize (omap (counted delay) l) as L. intros L.
    rewrite !Nat2Z.inj_succ. f_equal; cbn; lia.
Qed.

Lemma run_trials_successes delay attempts :
  run_trials delay attempts = tally_after tally0 (successes delay attempts).
Proof. apply fold_trial. Qed.

Lemma length_omap_le {A B : Type} (f : A -> option B) (l : list A) :
  (length (omap f l) <= length l)%nat.
Proof.
  unfold omap. induction l as [|a l IH]; simpl; [lia|].
  destruct (f a); simpl; lia.
Qed.

Lemma length_successes delay attempts : (length (successes delay attempts) <= 10)%nat.
Proof.
  unfold successes. etransitivity; [apply length_omap_le|].
  rewrite length_map, length_seq. lia.
Qed.

Lemma fold_py_min lat : forall m0,
  fold_left py_min lat (PInt m0) = PInt (fold_left Z.min lat m0).
Proof. induction lat as [|x lat IH]; intros m0; simpl; [reflexivity|apply IH]. Qed.

Lemma fold_min_le lat : forall m0,
  fold_left Z.min lat m0 <= m0 /\ Forall (fun x => fold_left Z.min lat m0 <= x) lat.
Proof.
  induction lat as [|x lat IH]; intros m0; simpl; [split; [lia|constructor]|].
  destruct (IH (Z.min m0 x)) as [H1 H2]. split; [lia|]. constructor; [lia|exact H2].
Qed.

Lemma fold_max_ge lat : forall M0,
  M0 <= fold_left Z.max lat M0 /\ Forall (fun x => x <= fold_left Z.max lat M0) lat.
Proof.
  induction lat as [|x lat IH]; intros M0; simpl; [split; [lia|constructor]|].
  destruct (IH (Z.max M0 x)) as [H1 H2]. split; [lia|]. constructor; [lia|exact H2].
Qed.

Lemma sum_Z_bounds lo hi lat :
  Forall (fun x => lo <= x) lat -> Forall (fun x => x <= hi) lat ->
  Z.of_nat (length lat) * lo <= sum_Z lat <= Z.of_nat (length lat) * hi.
Proof.
  intros Hlo Hhi. induction lat as [|x lat IH]; [simpl; lia|].
  apply Forall_cons in Hlo as [Hx1 Hlo]. apply Forall_cons in Hhi as [Hx2 Hhi].
  specialize (IH Hlo Hhi). unfold sum_Z in *. cbn [length fold_right].
  rewrite Nat2Z.inj_succ. lia.
Qed.

(** The tally of at least one success brackets the latency sum. *)
Lemma tally_bounds lat :
  lat <> [] ->
  exists m, fold_left py_min lat PInf = PInt m /\
            Z.of_nat (length lat) * m <= sum_Z lat
              <= Z.of_nat (length lat) * fold_left Z.max lat 0.
Proof.
  intros Hne. destruct lat as [|x lat]; [congruence|]. cbn [fold_left py_min].
  rewrite fold_py_min. eexists; split; [reflexivity|].
  destruct (fold_min_le lat x) as [Hm1 Hm2].
  destruct (fold_max_ge lat (Z.max 0 x)) as [HM1 HM2].
  apply sum_Z_bounds; constructor; try lia; assumption.
Qed.

Lemma tester_loss_cases s :
  1 <= s <= 10 ->
  exists x,
    (failures ← PyFloat.of_int (10 - s); PyFloat.truediv failures (PyFloat.const 10)) = Ok x /\
    PyFloat.int_truediv (10 - s) 10 = Ok x /\
    PyFloat.to_int (PyFloat.mul x (PyFloat.const 100)) = Ok (10 * (10 - s)) /\
    PyFloat.ltb x (PyFloat.const 1) = true /\
    (s = 10 -> x = S754_zero false).
Proof.
  intros Hs.
  assert (Hc : s = 1 \/ s = 2 \/ s = 3 \/ s = 4 \/ s = 5 \/ s = 6 \/ s = 7 \/ s = 8 \/
               s = 9 \/ s = 10) by lia.
  repeat (destruct Hc as [->|Hc]); try subst s;
    (eexists; split; [vm_compute; reflexivity|];
     repeat split; try (vm_compute; reflexivity); intros; try lia; vm_compute; reflexivity).
Qed.

Lemma summarize_none ip st : success_count st <= 0 -> summarize ip st = Ok None.
Proof.
  intros H. unfold summarize. destruct (Z.gtb_spec (success_count st) 0); [lia|reflexivity].
Qed.

Lemma summarize_some ip st :
  1 <= success_count st <= 10 ->
  exists x,
    summarize ip st =
      Ok (Some (TestResult.mk ip (min_latency st) (max_latency st)
                  (total_latency st / success_count st) x)) /\
    PyFloat.int_truediv (10 - success_count st) 10 = Ok x /\
    PyFloat.to_int (PyFloat.mul x (PyFloat.const 100)) = Ok (10 * (10 - success_count st)) /\
    PyFloat.ltb x (PyFloat.const 1) = true /\
    (success_count st = 10 -> x = S754_zero false).
Proof.
  intros H. destruct (tester_loss_cases _ H) as (x & H1 & H2).
  exists x. split; [|exact H2].
  unfold summarize. destruct (Z.gtb_spec (success_count st) 0); [|lia].
  destruct (PyFloat.of_int (10 - success_count st)) as [f|e]; cbn in H1 |- *;
    [|discriminate].
  rewrite H1. reflexivity.
Qed.

Lemma run_trials_count delay attempts :
  0 <= success_count (run_trials delay attempts) <= 10.
Proof.
  rewrite run_trials_successes. cbn [tally_after success_count tally0].
  pose proof (length_successes delay attempts). lia.
Qed.

Lemma test_ip_ok total delay attempts ip count :
  0 <= count < total ->
  test_ip total delay attempts ip count =
  Ok (outcome ip (run_trials delay attempts), count + 1).
Proof. intros H. unfold test_ip, outcome. apply guarded_ok, H. Qed.

Lemma guarded_inv {A : Type} (body : result (option A)) total count r c :
  guarded body total count = Ok (r, c) ->
  r = match body with Ok r => r | Raise _ => None end.
Proof.
  unfold guarded. destruct (report_progress total count); cbn; [|discriminate].
  intros [= <- _]. reflexivity.
Qed.

Lemma tester_pool ip_list delay attempts :
  run_pool (fun i => test_ip (Z.of_nat (length ip_list)) delay (attempts i)) ip_list =
  Ok (kept_from (fun i ip => outcome ip (run_trials delay (attempts i))) 0 ip_list,
      Z.of_nat (length ip_list)).
Proof.
  unfold run_pool.
  rewrite (run_pool_from_kept _ (fun i ip => outcome ip (run_trials delay (attempts i)))
             (Z.of_nat (length ip_list))); [reflexivity| |lia|lia].
  intros i ip c Hc. apply test_ip_ok, Hc.
Qed.

(** ** LatencyTester: the claims *)

Lemma counted_spec delay a l :
  counted delay a = Some l <->
  a = Connected l /\ settimeout delay = Ok tt /\ l <= delay.
Proof.
  unfold counted, accepted. destruct a as [x|e].
  - destruct (settimeout delay) as [[]|e], (Z.leb_spec x delay); cbn [andb];
      split; try discriminate; try (intros [= ->]; auto);
      intros ([= ->] & ? & ?); auto; try lia; discriminate.
  - split; [discriminate|intros ([=] & _)].
Qed.

Lemma elem_of_successes delay attempts l :
  l ∈ successes delay attempts <->
  exists i, (i < 10)%nat /\ attempts i = Connected l /\
            settimeout delay = Ok tt /\ l <= delay.
Proof.
  unfold successes. rewrite list_elem_of_omap. split.
  - intros (a & Ha & Hc). apply list_elem_of_In, in_map_iff in Ha as (i & <- & Hi).
    apply in_seq in Hi. apply counted_spec in Hc as (? & ? & ?).
    exists i. repeat split; auto; lia.
  - intros (i & Hi & Ha & H1 & H2). exists (attempts i). split.
    + apply list_elem_of_In, in_map_iff. exists i. split; [reflexivity|].
      apply in_seq. lia.
    + apply counted_spec. auto.
Qed.

(** Counterexample to C2 as stated: with the threshold at 300 ms, a trial
    measured at exactly 300 ms is added to the tally, and an address
    whose ten trials all take 300 ms ends with ten successes. *)
Lemma latency_at_threshold_is_counted :
  trial 300 tally0 (Connected 300) = mk_tally 1 300 (PInt 300) 300 /\
  success_count (run_trials 300 (fun _ => Connected 300)) = 10.
Proof. split; vm_compute; reflexivity. Qed.

(** C2, amended: a trial contributes to the success count and to the
    minimum, maximum and sum of latencies exactly when [settimeout]
    accepts the threshold, which it does for 0 to 9223372036854
    milliseconds and for no other value, the connection was made, and the
    measured latency is not above the threshold; a latency equal to the
    threshold is a success.  Every other trial leaves the tally as it is.
    The tally of an address is the one of the trials, among its ten, that
    are counted. *)
Theorem trial_counts_within_threshold (delay : Z) (attempts : nat -> attempt) :
  (settimeout delay = Ok tt <-> 0 <= delay <= 9223372036854) /\
  (forall st a,
     trial delay st a =
     match counted delay a with
     | Some l => mk_tally (success_count st + 1) (total_latency st + l)
                          (py_min (min_latency st) l) (Z.max (max_latency st) l)
     | None => st
     end) /\
  (forall a l, counted delay a = Some l <->
               a = Connected l /\ 0 <= delay <= 9223372036854 /\ l <= delay) /\
  run_trials delay attempts = tally_after tally0 (successes delay attempts) /\
  (forall l, l ∈ successes delay attempts <->
             exists i, (i < 10)%nat /\ attempts i = Connected l /\
                       0 <= delay <= 9223372036854 /\ l <= delay).
Proof.
  split; [apply settimeout_ok_iff|]. split; [|split; [|split]].
  - intros st a. rewrite trial_counted. destruct (counted delay a); [|reflexivity].
    unfold tally_after, sum_Z. cbn. f_equal; lia.
  - intros a l. rewrite counted_spec, settimeout_ok_iff. reflexivity.
  - apply run_trials_successes.
  - intros l. rewrite elem_of_successes.
    split; intros (i & Hi & Ha & Hd & Hl); exists i;
      (split; [exact Hi|split; [exact Ha|split; [apply settimeout_ok_iff, Hd|exact Hl]]]).
Qed.

Lemma outcome_spec ip st :
  0 <= success_count st <= 10 ->
  (success_count st = 0 -> outcome ip st = None) /\
  (0 < success_count st ->
   exists r, outcome ip st = Some r /\
     TestResult.ip r = ip /\
     TestResult.avg_latency r = total_latency st / success_count st /\
     success_count st * TestResult.avg_latency r <= total_latency st
       < success_count st * (TestResult.avg_latency r + 1) /\
     PyFloat.int_truediv (10 - success_count st) 10 = Ok (TestResult.loss_rate r) /\
     (success_count st = 10 -> TestResult.loss_rate r = S754_zero false)).
Proof.
  intros Hs. split.
  - intros H0. unfold outcome. rewrite summarize_none by lia. reflexivity.
  - intros Hpos.
    destruct (summarize_some ip st ltac:(lia)) as (x & Hsum & Hq & _ & _ & H10).
    eexists. unfold outcome. rewrite Hsum. split; [reflexivity|].
    cbn [TestResult.ip TestResult.avg_latency TestResult.loss_rate].
    clear Hsum. revert Hs Hpos Hq H10.
    generalize (success_count st). generalize (total_latency st).
    intros t s Hs Hpos Hq H10.
    repeat split; auto.
    + pose proof (Z.mul_div_le t s Hpos). lia.
    + pose proof (Z.mul_succ_div_gt t s Hpos). lia.
Qed.

Lemma successes_all_counted delay attempts :
  (forall j, (j < 10)%nat -> exists l, counted delay (attempts j) = Some l) ->
  length (successes delay attempts) = 10%nat.
Proof.
  intros H. unfold successes.
  assert (Hl : forall idx : list nat, Forall (fun j => (j < 10)%nat) idx ->
            length (omap (counted delay) (map attempts idx)) = length idx).
  { induction idx as [|j idx IH]; intros Hall; [reflexivity|].
    apply Forall_cons in Hall as [Hj Hall].
    destruct (H j Hj) as (l & Hc).
    cbn [map omap list_omap]. rewrite Hc. cbn [length]. f_equal. apply IH, Hall. }
  rewrite Hl; [apply length_seq|].
  apply List.Forall_forall. intros j Hj. apply in_seq in Hj. lia.
Qed.

Lemma successes_none_counted delay attempts :
  (forall j, (j < 10)%nat -> counted delay (attempts j) = None) ->
  successes delay attempts = [].
Proof.
  intros H. unfold successes.
  assert (Hl : forall idx : list nat, Forall (fun j => (j < 10)%nat) idx ->
            omap (counted delay) (map attempts idx) = []).
  { induction idx as [|j idx IH]; intros Hall; [reflexivity|].
    apply Forall_cons in Hall as [Hj Hall].
    cbn [map omap list_omap]. rewrite (H j Hj). apply IH, Hall. }
  apply Hl. apply List.Forall_forall. intros j Hj. apply in_seq in Hj. lia.
Qed.

Lemma successes_nil_inv delay attempts :
  successes delay attempts = [] ->
  forall j, (j < 10)%nat -> counted delay (attempts j) = None.
Proof.
  intros Hnil j Hj.
  destruct (counted delay (attempts j)) as [l|] eqn:Hc; [exfalso|reflexivity].
  assert (Hin : l ∈ successes delay attempts).
  { unfold successes. apply list_elem_of_omap. exists (attempts j). split; [|exact Hc].
    apply list_elem_of_In, in_map_iff. exists j. split; [reflexivity|].
    apply in_seq. lia. }
  rewrite Hnil in Hin. inversion Hin.
Qed.

(** C3: the pool of the LatencyTester returns, in the order of the
    addresses, the outcomes of those with at least one success.  For every
    address, the successes are the latencies of those of its ten trials
    that are counted (connected, within a threshold that [settimeout]
    accepts), in the order of the trials, and their number [s] is
    between 0 and 10: it is 0 exactly when no trial is counted, and 10
    exactly when every trial is.  With [s = 0] there is no outcome, so the
    address is absent from the list; with [s > 0] the outcome carries the
    address, its average latency is [floor (sum / s)] of the latencies of
    the successes, and its loss rate is the float [(10 - s) / 10], which
    for [s = 10] is exactly [0.0]. *)
Theorem latency_tester_outcomes (ip_list : list string) (delay : Z)
    (attempts : nat -> nat -> attempt) :
  run_pool (fun i => test_ip (Z.of_nat (length ip_list)) delay (attempts i)) ip_list =
    Ok (kept_from (fun i ip => outcome ip (run_trials delay (attempts i))) 0 ip_list,
        Z.of_nat (length ip_list)) /\
  (forall a l, counted delay a = Some l <->
               a = Connected l /\ 0 <= delay <= 9223372036854 /\ l <= delay) /\
  forall i ip,
    let lat := omap (fun j => counted delay (attempts i j)) (seq 0 10) in
    let s := Z.of_nat (length lat) in
    successes delay (attempts i) = lat /\
    0 <= s <= 10 /\
    (s = 0 <-> forall j, (j < 10)%nat -> counted delay (attempts i j) = None) /\
    (s = 10 <-> forall j, (j < 10)%nat -> exists l, counted delay (attempts i j) = Some l) /\
    (s = 0 -> outcome ip (run_trials delay (attempts i)) = None) /\
    (0 < s ->
     exists r, outcome ip (run_trials delay (attempts i)) = Some r /\
       TestResult.ip r = ip /\
       TestResult.avg_latency r = sum_Z lat / s /\
       s * TestResult.avg_latency r <= sum_Z lat < s * (TestResult.avg_latency r + 1) /\
       PyFloat.int_truediv (10 - s) 10 = Ok (TestResult.loss_rate r) /\
       (s = 10 -> TestResult.loss_rate r = S754_zero false)).
Proof.
  split; [apply tester_pool|].
  split; [intros a l; rewrite counted_spec, settimeout_ok_iff; reflexivity|].
  intros i ip. cbv zeta.
  assert (Hlat : successes delay (attempts i) =
                 omap (fun j => counted delay (attempts i j)) (seq 0 10)).
  { unfold successes. generalize (seq 0 10). intros idx.
    induction idx as [|j idx IH]; [reflexivity|].
    cbn [map omap list_omap]. destruct (counted delay (attempts i j)); [f_equal|]; exact IH. }
  rewrite <- Hlat.
  pose proof (length_successes delay (attempts i)) as Hlen.
  split; [reflexivity|]. split; [lia|]. split; [|split; [|split]].
  - split.
    + intros Hz. apply successes_nil_inv.
      destruct (successes delay (attempts i)); [reflexivity|simpl in Hz; lia].
    + intros Hn. rewrite (successes_none_counted _ _ Hn). reflexivity.
  - split.
    + intros H10 j Hj.
      destruct (counted delay (attempts i j)) as [l|] eqn:Hc; [eauto|exfalso].
      assert (Hlt : (length (successes delay (attempts i)) < 10)%nat); [|lia].
      unfold successes.
      assert (Hsplit : seq 0 10 = seq 0 j ++ j :: seq (S j) (10 - S j)).
      { replace 10%nat with (j + S (10 - S j))%nat at 1 by lia.
        rewrite seq_app. reflexivity. }
      rewrite Hsplit, map_app, omap_app. cbn [map omap list_omap]. rewrite Hc.
      rewrite length_app.
      pose proof (length_omap_le (counted delay) (map (attempts i) (seq 0 j))) as H1.
      pose proof (length_omap_le (counted delay) (map (attempts i) (seq (S j) (10 - S j)))) as H2.
      rewrite length_map, length_seq in H1, H2.
      change (list_omap attempt Z (counted delay) (map (attempts i) (seq (S j) (10 - S j))))
        with (omap (counted delay) (map (attempts i) (seq (S j) (10 - S j)))).
      lia.
    + intros Hall. rewrite (successes_all_counted _ _ Hall). reflexivity.
  - intros Hz. rewrite run_trials_successes.
    destruct (successes delay (attempts i)); [|simpl in Hz; lia].
    destruct (outcome_spec ip (tally_after tally0 []) ltac:(simpl; lia)) as [H0 _].
    apply H0. reflexivity.
  - intros Hpos. rewrite run_trials_successes.
    destruct (outcome_spec ip (tally_after tally0 (successes delay (attempts i)))
                ltac:(simpl; lia)) as [_ H1].
    cbn [tally_after success_count total_latency tally0] in H1.
    rewrite !Z.add_0_l in H1. apply H1. exact Hpos.
Qed.

Lemma outcome_invariants ip lat r :
  (length lat <= 10)%nat ->
  outcome ip (tally_after tally0 lat) = Some r ->
  exists m k,
    TestResult.min_latency r = PInt m /\
    m <= TestResult.avg_latency r <= TestResult.max_latency r /\
    0 <= k <= 9 /\
    PyFloat.int_truediv k 10 = Ok (TestResult.loss_rate r) /\
    PyFloat.ltb (TestResult.loss_rate r) (PyFloat.const 1) = true /\
    bucket_of r = Ok (10 * k) /\
    bucket_of r <> Ok 100.
Proof.
  intros Hlen Ho. unfold outcome in Ho.
  destruct (Nat.eq_dec (length lat) 0%nat) as [Hz|Hnz].
  { rewrite summarize_none in Ho by (simpl; lia). discriminate. }
  assert (Hne : lat <> []) by (intros ->; apply Hnz; reflexivity).
  assert (Hn : 1 <= Z.of_nat (length lat) <= 10) by lia.
  destruct (tally_bounds lat Hne) as (m & Hm & Hlo & Hhi).
  assert (Hsc : success_count (tally_after tally0 lat) = Z.of_nat (length lat))
    by (simpl; lia).
  assert (Htl : total_latency (tally_after tally0 lat) = sum_Z lat) by (simpl; lia).
  assert (Hmin : min_latency (tally_after tally0 lat) = PInt m) by exact Hm.
  assert (Hmax : max_latency (tally_after tally0 lat) = fold_left Z.max lat 0)
    by reflexivity.
  revert Ho Hsc Htl Hmin Hmax. generalize (tally_after tally0 lat).
  intros st Ho Hsc Htl Hmin Hmax.
  destruct (summarize_some ip st ltac:(lia)) as (x & Hsum & Hq & Hp & Hlt & _).
  rewrite Hsum in Ho. injection Ho as <-.
  cbn [TestResult.min_latency TestResult.avg_latency TestResult.max_latency
       TestResult.loss_rate].
  rewrite Hsc, Htl, Hmin, Hmax in *. clear Hsum Hsc Htl Hmin Hmax Hm.
  revert Hlo Hhi Hn Hq Hp.
  generalize (Z.of_nat (length lat)). generalize (fold_left Z.max lat 0).
  generalize (sum_Z lat). intros t M n Hlo Hhi Hn Hq Hp.
  exists m, (10 - n).
  assert (Hb : bucket_of (TestResult.mk ip (PInt m) M (t / n) x) = Ok (10 * (10 - n))).
  { unfold bucket_of. cbn [TestResult.loss_rate]. rewrite Hp.
    cbn [mbind result_bind]. f_equal.
    rewrite (Z.mul_comm 10 (10 - n)), Z.div_mul by lia. reflexivity. }
  split; [reflexivity|].
  split; [|split; [lia|split; [exact Hq|split; [exact Hlt|split; [exact Hb|]]]]].
  - split.
    + apply Z.div_le_lower_bound; lia.
    + apply Z.div_le_upper_bound; lia.
  - rewrite Hb. intros [= E]. lia.
Qed.

(** C10: every outcome [test_ip] emits has an int minimum latency with
    [min <= avg <= max]; its loss rate is the float [k / 10] for some
    [0 <= k <= 9], it is strictly below [1.0], and the Aggregator puts
    the outcome in band [10 * k], never in band 100. *)
Theorem emitted_outcome_invariants (total delay : Z) (attempts : nat -> attempt)
    (ip : string) (count : Z) (r : TestResult.t) (count' : Z) :
  test_ip total delay attempts ip count = Ok (Some r, count') ->
  exists m k,
    TestResult.min_latency r = PInt m /\
    m <= TestResult.avg_latency r <= TestResult.max_latency r /\
    0 <= k <= 9 /\
    PyFloat.int_truediv k 10 = Ok (TestResult.loss_rate r) /\
    PyFloat.ltb (TestResult.loss_rate r) (PyFloat.const 1) = true /\
    bucket_of r = Ok (10 * k) /\
    bucket_of r <> Ok 100.
Proof.
  intros Ht. unfold test_ip in Ht. apply guarded_inv in Ht.
  rewrite run_trials_successes in Ht.
  apply (outcome_invariants ip (successes delay attempts) r).
  - apply length_successes.
  - unfold outcome. symmetry. exact Ht.
Qed.

Lemma emitted_outcome_invariants_witness :
  exists r, test_ip 1 300 (fun i => if Nat.even i then Connected 20 else Connected 301)
              "192.0.2.1" 0 = Ok (Some r, 1) /\
    exists m k,
      TestResult.min_latency r = PInt m /\
      m <= TestResult.avg_latency r <= TestResult.max_latency r /\
      0 <= k <= 9 /\
      PyFloat.int_truediv k 10 = Ok (TestResult.loss_rate r) /\
      PyFloat.ltb (TestResult.loss_rate r) (PyFloat.const 1) = true /\
      bucket_of r = Ok (10 * k) /\
      bucket_of r <> Ok 100.
Proof.
  eexists. split; [vm_compute; reflexivity|].
  apply (emitted_outcome_invariants 1 300
           (fun i => if Nat.even i then Connected 20 else Connected 301) "192.0.2.1" 0 _ 1).
  vm_compute. reflexivity.
Defined.

(** ** Ranking *)

Section SortFacts.
Context {A : Type}.
Variable ltb : A -> A -> bool.
Variable P : A -> Prop.
Variable le : A -> A -> Prop.
Hypothesis not_below : forall x y, P x -> P y -> ltb y x = false -> le x y.
Hypothesis below : forall x y, P x -> P y -> ltb y x = true -> le y x.
Hypothesis le_trans : forall x y z, P x -> P y -> P z -> le x y -> le y z -> le x z.

Lemma insert_sorted_perm x l : Permutation (insert_sorted ltb x l) (x :: l).
Proof.
  induction l as [|y l IH]; simpl; [reflexivity|].
  destruct (ltb y x); [|reflexivity].
  rewrite IH. apply perm_swap.
Qed.

Lemma sort_by_perm l : Permutation (sort_by ltb l) l.
Proof.
  induction l as [|x l IH]; simpl; [reflexivity|].
  rewrite insert_sorted_perm. constructor. exact IH.
Qed.

Lemma insert_sorted_sorted x l :
  P x -> Forall P l -> StronglySorted le l -> StronglySorted le (insert_sorted ltb x l).
Proof.
  intros Hx HP Hs. induction l as [|y l IH]; simpl.
  - constructor; constructor.
  - apply Forall_cons in HP as [Hy HP].
    apply StronglySorted_inv in Hs as [Hs Hall].
    destruct (ltb y x) eqn:E.
    + constructor; [apply IH; assumption|].
      rewrite insert_sorted_perm. constructor; [apply below; assumption|exact Hall].
    + assert (Hxy : le x y) by (apply not_below; assumption).
      constructor; [constructor; assumption|].
      constructor; [exact Hxy|].
      rewrite Forall_forall in Hall, HP |- *. intros z Hz.
      apply le_trans with y; auto.
Qed.

Lemma sort_by_sorted l : Forall P l -> StronglySorted le (sort_by ltb l).
Proof.
  intros HP. induction l as [|x l IH]; simpl; [constructor|].
  apply Forall_cons in HP as [Hx HP].
  apply insert_sorted_sorted; [exact Hx| |apply IH, HP].
  rewrite sort_by_perm. exact HP.
Qed.
End SortFacts.

Lemma StronglySorted_adjacent {A : Type} (R : A -> A -> Prop) (l : list A) :
  StronglySorted R l ->
  forall i x y, l !! i = Some x -> l !! S i = Some y -> R x y.
Proof.
  induction 1 as [|a l Hs IH Hall]; intros i x y Hx Hy; [discriminate|].
  destruct i as [|i]; simpl in Hx, Hy.
  - injection Hx as ->. rewrite Forall_forall in Hall. apply Hall.
    eapply list_elem_of_lookup_2. exact Hy.
  - eapply IH; eassumption.
Qed.

Lemma tester_loss_compare s1 s2 x1 x2 :
  1 <= s1 <= 10 -> 1 <= s2 <= 10 ->
  PyFloat.int_truediv (10 - s1) 10 = Ok x1 ->
  PyFloat.int_truediv (10 - s2) 10 = Ok x2 ->
  PyFloat.ltb x1 x2 = (s2 <? s1) /\ PyFloat.eqb x1 x2 = (s1 =? s2).
Proof.
  intros H1 H2.
  assert (C1 : s1 = 1 \/ s1 = 2 \/ s1 = 3 \/ s1 = 4 \/ s1 = 5 \/ s1 = 6 \/ s1 = 7 \/
               s1 = 8 \/ s1 = 9 \/ s1 = 10) by lia.
  assert (C2 : s2 = 1 \/ s2 = 2 \/ s2 = 3 \/ s2 = 4 \/ s2 = 5 \/ s2 = 6 \/ s2 = 7 \/
               s2 = 8 \/ s2 = 9 \/ s2 = 10) by lia.
  clear H1 H2.
  repeat (destruct C1 as [->|C1]); try subst s1;
    repeat (destruct C2 as [->|C2]); try subst s2;
    intros E1 E2; vm_compute in E1, E2;
    injection E1 as <-; injection E2 as <-; split; vm_compute; reflexivity.
Qed.

Lemma ranked_before_index x y sx sy :
  1 <= sx <= 10 -> 1 <= sy <= 10 ->
  PyFloat.int_truediv (10 - sx) 10 = Ok (TestResult.loss_rate x) ->
  PyFloat.int_truediv (10 - sy) 10 = Ok (TestResult.loss_rate y) ->
  (ranked_before x y <->
   sy < sx \/ (sx = sy /\ TestResult.avg_latency x <= TestResult.avg_latency y)) /\
  key_ltb x y = ((sy <? sx) || ((sx =? sy) && (TestResult.avg_latency x <? TestResult.avg_latency y))).
Proof.
  intros Hx Hy Ex Ey.
  destruct (tester_loss_compare sx sy _ _ Hx Hy Ex Ey) as [Hlt Heq].
  unfold ranked_before, key_ltb. rewrite Hlt, Heq. split.
  - rewrite Z.ltb_lt, Z.eqb_eq. reflexivity.
  - destruct (Z.eqb_spec sx sy) as [->|Hne]; [rewrite Z.ltb_irrefl|]; cbn [orb andb].
    + reflexivity.
    + rewrite orb_false_r. reflexivity.
Qed.

Lemma ranking_not_below x y : emitted x -> emitted y -> key_ltb y x = false -> ranked_before x y.
Proof.
  intros (sx & Hx & Ex) (sy & Hy & Ey) H.
  destruct (ranked_before_index x y sx sy Hx Hy Ex Ey) as [-> _].
  destruct (ranked_before_index y x sy sx Hy Hx Ey Ex) as [_ Hk]. rewrite Hk in H.
  apply orb_false_iff in H as [H1 H2]. apply Z.ltb_ge in H1.
  destruct (Z.eqb_spec sy sx); cbn [andb] in H2; [apply Z.ltb_ge in H2|]; lia.
Qed.

Lemma ranking_below x y : emitted x -> emitted y -> key_ltb y x = true -> ranked_before y x.
Proof.
  intros (sx & Hx & Ex) (sy & Hy & Ey) H.
  destruct (ranked_before_index y x sy sx Hy Hx Ey Ex) as [-> Hk]. rewrite Hk in H.
  apply orb_true_iff in H as [H|H]; [apply Z.ltb_lt in H; lia|].
  apply andb_true_iff in H as [H1 H2]. apply Z.eqb_eq in H1. apply Z.ltb_lt in H2. lia.
Qed.

Lemma ranking_trans x y z :
  emitted x -> emitted y -> emitted z ->
  ranked_before x y -> ranked_before y z -> ranked_before x z.
Proof.
  intros (sx & Hx & Ex) (sy & Hy & Ey) (sz & Hz & Ez).
  destruct (ranked_before_index x y sx sy Hx Hy Ex Ey) as [-> _].
  destruct (ranked_before_index y z sy sz Hy Hz Ey Ez) as [-> _].
  destruct (ranked_before_index x z sx sz Hx Hz Ex Ez) as [-> _].
  lia.
Qed.

Lemma summarize_emitted ip st r :
  0 <= success_count st <= 10 -> outcome ip st = Some r -> emitted r.
Proof.
  intros Hs H. unfold outcome in H.
  destruct (Z.eq_dec (success_count st) 0) as [H0|Hn].
  { rewrite summarize_none in H by lia. discriminate. }
  destruct (summarize_some ip st ltac:(lia)) as (x & Hsum & Hq & _).
  rewrite Hsum in H. injection H as <-.
  exists (success_count st). split; [lia|exact Hq].
Qed.

Lemma outcome_emitted ip delay attempts r :
  outcome ip (run_trials delay attempts) = Some r -> emitted r.
Proof. exact (summarize_emitted ip _ r (run_trials_count delay attempts)). Qed.

Lemma kept_emitted ip_list delay attempts :
  Forall emitted
    (kept_from (fun i ip => outcome ip (run_trials delay (attempts i))) 0 ip_list).
Proof.
  apply Forall_forall. intros r Hr. apply elem_of_kept_from in Hr.
  destruct Hr as (j & ip & _ & Ho). eapply outcome_emitted, Ho.
Qed.

Lemma ranked_results_sorted ip_list delay attempts :
  StronglySorted ranked_before
    (sort_by key_ltb
       (kept_from (fun i ip => outcome ip (run_trials delay (attempts i))) 0 ip_list)).
Proof.
  apply (sort_by_sorted key_ltb emitted ranked_before).
  - apply ranking_not_below.
  - apply ranking_below.
  - apply ranking_trans.
  - apply kept_emitted.
Qed.

(** C8: whenever [run_detailed_test] writes the result rows and hands the
    results to the Aggregator, both receive the same list, a permutation
    of the pool's results in which every result is ranked before the next
    one: a strictly lower loss rate, or an equal loss rate and an average
    latency that is not greater. *)
Theorem results_ranked_before_output (ip_list : list string) (delay test_threads : Z)
    (attempts : nat -> nat -> attempt) (file_error : option exn)
    (rows : list (list string)) (bands : list band) :
  run_detailed_test ip_list delay test_threads attempts file_error =
    Ok (Analyzed rows bands) ->
  exists ranked,
    Permutation ranked
      (kept_from (fun i ip => outcome ip (run_trials delay (attempts i))) 0 ip_list) /\
    mapM_result csv_row ranked = Ok rows /\
    analyze_results ranked (Z.of_nat (length ip_list)) = Ok bands /\
    forall i x y, ranked !! i = Some x -> ranked !! S i = Some y -> ranked_before x y.
Proof.
  intros Hrun. unfold run_detailed_test, thread_pool in Hrun.
  destruct (test_threads <=? 0); [discriminate|].
  cbn [mbind result_bind] in Hrun. rewrite tester_pool in Hrun.
  cbn [mbind result_bind] in Hrun.
  set (results := kept_from _ 0 ip_list) in *.
  exists (sort_by key_ltb results).
  split; [apply sort_by_perm|].
  assert (Hadj : forall i x y, sort_by key_ltb results !! i = Some x ->
                   sort_by key_ltb results !! S i = Some y -> ranked_before x y).
  { apply StronglySorted_adjacent, ranked_results_sorted. }
  destruct results as [|r results'] eqn:E; [discriminate|].
  destruct file_error; [discriminate|].
  destruct (mapM_result csv_row (sort_by key_ltb (r :: results'))) as [rows'|e]; [|discriminate].
  destruct (analyze_results (sort_by key_ltb (r :: results')) (Z.of_nat (length ip_list)))
    as [bands'|e]; cbn in Hrun; [|discriminate].
  injection Hrun as -> ->. auto.
Qed.

Lemma results_ranked_before_output_witness :
  exists rows bands,
    run_detailed_test ["192.0.2.1"; "192.0.2.2"; "192.0.2.3"]%string 300 50
      demo_attempts None = Ok (Analyzed rows bands) /\
    exists ranked,
      Permutation ranked
        (kept_from (fun i ip => outcome ip (run_trials 300 (demo_attempts i))) 0
           ["192.0.2.1"; "192.0.2.2"; "192.0.2.3"]%string) /\
      mapM_result csv_row ranked = Ok rows /\
      analyze_results ranked 3 = Ok bands /\
      forall i x y, ranked !! i = Some x -> ranked !! S i = Some y -> ranked_before x y.
Proof.
  eexists. eexists. split; [vm_compute; reflexivity|].
  apply (results_ranked_before_output
           ["192.0.2.1"; "192.0.2.2"; "192.0.2.3"]%string 300 50 demo_attempts None).
  vm_compute. reflexivity.
Defined.

(** ** Aggregator *)

Lemma add_to_group_spec groups res b0 :
  bucket_of res = Ok b0 ->
  exists groups',
    add_to_group groups res = Ok groups' /\
    forall b, default [] (groups' !! b) =
              default [] (groups !! b) ++ (if b0 =? b then [res] else []).
Proof.
  intros Hb. unfold add_to_group. rewrite Hb. cbn [mbind result_bind].
  eexists. split; [reflexivity|]. intros b.
  destruct (Z.eqb_spec b0 b) as [<-|Hne].
  - rewrite lookup_insert_eq. cbn [default]. f_equal.
    destruct (groups !! b0) eqn:E; [rewrite E; reflexivity|].
    rewrite lookup_insert_eq. reflexivity.
  - rewrite lookup_insert_ne by exact Hne. rewrite app_nil_r.
    destruct (groups !! b0) eqn:E; [reflexivity|].
    rewrite lookup_insert_ne by exact Hne. reflexivity.
Qed.

Lemma group_results_spec results : forall groups,
  Forall (fun res => exists b, bucket_of res = Ok b) results ->
  exists groups',
    group_results groups results = Ok groups' /\
    forall b, default [] (groups' !! b) =
              default [] (groups !! b) ++ List.filter (bucket_is b) results.
Proof.
  induction results as [|res results IH]; intros groups Hall.
  - exists groups. split; [reflexivity|]. intros b. simpl. rewrite app_nil_r. reflexivity.
  - apply Forall_cons in Hall as [[b0 Hb0] Hall].
    destruct (add_to_group_spec groups res b0 Hb0) as (g1 & Hg1 & Hl1).
    destruct (IH g1 Hall) as (g2 & Hg2 & Hl2).
    exists g2. split.
    + cbn [group_results]. rewrite Hg1. cbn [mbind result_bind]. exact Hg2.
    + intros b. rewrite Hl2, Hl1. cbn [List.filter]. unfold bucket_is at 2. rewrite Hb0.
      rewrite <- app_assoc. destruct (b0 =? b); reflexivity.
Qed.

Lemma mapM_result_Forall2 {A B : Type} (f : A -> result B) (P : A -> B -> Prop) l :
  Forall (fun a => exists b, f a = Ok b /\ P a b) l ->
  exists bs, mapM_result f l = Ok bs /\ Forall2 P l bs.
Proof.
  induction l as [|a l IH]; intros Hall.
  - exists []. split; [reflexivity|constructor].
  - apply Forall_cons in Hall as [(b & Hb & HP) Hall].
    destruct (IH Hall) as (bs & Hbs & HF).
    exists (b :: bs). split; [|constructor; assumption].
    cbn [mapM_result]. rewrite Hb. cbn [mbind result_bind]. rewrite Hbs. reflexivity.
Qed.

Lemma fold_sum_min members : forall a,
  Forall bounded_min members ->
  exists z, fold_left (fun acc res => pynum_add acc (TestResult.min_latency res))
              members (PInt a) = PInt (a + z) /\
            Z.abs z <= Z.of_nat (length members) * (2 ^ 1000 - 1).
Proof.
  induction members as [|res members IH]; intros a Hall.
  - exists 0. split; [simpl; f_equal; lia|simpl; lia].
  - apply Forall_cons in Hall as [(m & Hm & Hbound) Hall].
    cbn [fold_left]. rewrite Hm. cbn [pynum_add].
    destruct (IH (a + m) Hall) as (z & Hz & Hzb).
    exists (m + z). split; [rewrite Hz; f_equal; lia|].
    cbn [length]. rewrite Nat2Z.inj_succ. lia.
Qed.

Lemma avg_lat_ok members :
  members <> [] -> Forall bounded_min members ->
  exists x, pynum_truediv (sum_min_latency members) (Z.of_nat (length members)) = Ok x.
Proof.
  intros Hne Hall. unfold sum_min_latency.
  destruct (fold_sum_min members 0 Hall) as (z & -> & Hz).
  cbn [pynum_truediv]. rewrite Z.add_0_l.
  set (n := Z.of_nat (length members)) in *.
  assert (Hn : 1 <= n) by (subst n; destruct members; [congruence|cbn [length]; lia]).
  clearbody n.
  destruct (int_truediv_mag z n 1001 ltac:(lia)) as (x & Hx & _); try lia; [|eauto].
  pose proof (Zdigits2_bounds n ltac:(lia)) as [_ Hhi].
  pose proof (Zdigits2_nonneg n) as Hd.
  assert (Hlt : 0 <= Z.abs z < 2 ^ (Zdigits2 n + 1000)).
  { split; [lia|]. rewrite Z.pow_add_r by lia.
    assert (0 < 2 ^ 1000) by (apply Z.pow_pos_nonneg; lia). nia. }
  pose proof (Zdigits2_le_of_lt (Z.abs z) (Zdigits2 n + 1000) ltac:(lia) Hlt).
  rewrite (Z.abs_eq n) by lia. lia.
Qed.

Lemma length_filter_le {A : Type} (p : A -> bool) (l : list A) :
  (length (List.filter p l) <= length l)%nat.
Proof. induction l as [|a l IH]; simpl; [lia|]. destruct (p a); simpl; lia. Qed.

Lemma Forall_filter_keep {A : Type} (P : A -> Prop) (p : A -> bool) (l : list A) :
  Forall P l -> Forall P (List.filter p l).
Proof.
  induction 1 as [|a l Ha Hl IH]; simpl; [constructor|].
  destruct (p a); [constructor|]; assumption.
Qed.

(** One row of the histogram, for a count within the total. *)
Lemma render_band_ok groups results total b :
  0 < total -> Z.of_nat (length results) <= total ->
  Forall bounded_min results ->
  (forall b', default [] (groups !! b') = List.filter (bucket_is b') results) ->
  exists band,
    render_band groups (total - Z.of_nat (length results)) total b = Ok band /\
    bucket band = b /\ count band = band_count results total b.
Proof.
  intros Ht Hlen Hmin Hg. unfold render_band, band_count.
  assert (Hrest : forall c avg, 0 <= c <= total ->
    exists band,
      (ratio ← PyFloat.int_truediv c total;
       let proportion := PyFloat.mul ratio (PyFloat.const 100) in
       scaled ← PyFloat.truediv proportion (PyFloat.const 100);
       bar_length ← PyFloat.to_int (PyFloat.mul scaled (PyFloat.const max_bar_width));
       Ok (mk_band b c avg proportion bar_length)) = Ok band /\
      bucket band = b /\ count band = c).
  { intros c avg Hc.
    destruct (count_ratio_ok c total Hc Ht) as (ratio & -> & Hr).
    destruct (bar_length_ok ratio Hr) as (scaled & n & Hs & Hn).
    cbn [mbind result_bind]. rewrite Hs. cbn [mbind result_bind].
    change (PyFloat.const max_bar_width) with (PyFloat.const 50). rewrite Hn.
    cbn [mbind result_bind]. eexists. split; [reflexivity|]. split; reflexivity. }
  destruct (b =? 100).
  - cbn [mbind result_bind]. apply Hrest. lia.
  - rewrite Hg. set (members := List.filter (bucket_is b) results).
    pose proof (length_filter_le (bucket_is b) results) as Hle. fold members in Hle.
    destruct (Z.gtb_spec (Z.of_nat (length members)) 0) as [Hpos|Hz].
    + destruct (avg_lat_ok members) as (x & Hx).
      * intros E. rewrite E in Hpos. simpl in Hpos. lia.
      * apply Forall_filter_keep, Hmin.
      * rewrite Hx. cbn [mbind result_bind]. apply Hrest. lia.
    + cbn [mbind result_bind]. apply Hrest. lia.
Qed.

Lemma analyze_results_spec results total :
  0 < total -> Z.of_nat (length results) <= total ->
  Forall (fun res => exists b, bucket_of res = Ok b) results ->
  Forall bounded_min results ->
  exists bands,
    analyze_results results total = Ok bands /\
    map (fun band => (bucket band, count band)) bands =
    map (fun b => (b, band_count results total b)) buckets.
Proof.
  intros Ht Hlen Hb Hmin. unfold analyze_results.
  destruct (group_results_spec results ∅ Hb) as (groups & -> & Hg).
  cbn [mbind result_bind].
  assert (Hg' : forall b, default [] (groups !! b) = List.filter (bucket_is b) results).
  { intros b. rewrite Hg, lookup_empty. reflexivity. }
  destruct (mapM_result_Forall2
              (render_band groups (total - Z.of_nat (length results)) total)
              (fun b band => bucket band = b /\ count band = band_count results total b)
              buckets) as (bands & -> & HF).
  { apply Forall_forall. intros b _. apply render_band_ok; assumption. }
  exists bands. split; [reflexivity|].
  clear -HF. induction HF as [|b band bs bands [H1 H2] HF IH]; [reflexivity|].
  cbn [map]. rewrite H1, H2, IH. reflexivity.
Qed.

Lemma bucket_of_multiple res b :
  bucket_of res = Ok b -> 0 <= b <= 90 ->
  exists q, b = 10 * q /\ 0 <= q <= 9.
Proof.
  unfold bucket_of. destruct (PyFloat.to_int _) as [p|e]; [|discriminate].
  cbn [mbind result_bind]. intros [= <-] Hb. exists (p / 10). lia.
Qed.

Ltac eval_eqb :=
  repeat match goal with
         | |- context [?a =? ?b] =>
             let v := eval vm_compute in (a =? b) in change (a =? b) with v
         end; cbv iota.

Lemma buckets_eq : buckets = [0; 10; 20; 30; 40; 50; 60; 70; 80; 90; 100].
Proof. reflexivity. Qed.

Lemma band_count_cons res results total b q :
  bucket_of res = Ok q ->
  band_count (res :: results) total b =
  band_count results total b +
  (if b =? 100 then -1 else if q =? b then 1 else 0).
Proof.
  intros Hq. unfold band_count. destruct (b =? 100).
  - cbn [length]. rewrite Nat2Z.inj_succ. lia.
  - cbn [List.filter]. unfold bucket_is at 1. rewrite Hq.
    destruct (q =? b); [cbn [length]; rewrite Nat2Z.inj_succ|]; lia.
Qed.

Lemma sum_band_counts results total :
  Forall (fun res => exists b, bucket_of res = Ok b /\ 0 <= b <= 90) results ->
  sum_Z (map (fun b => band_count results total b) buckets) = total.
Proof.
  rewrite buckets_eq.
  induction 1 as [|res results (b & Hb & Hr) _ IH].
  - unfold band_count. cbn. lia.
  - destruct (bucket_of_multiple res b Hb Hr) as (q & -> & Hq).
    revert IH. cbn [map sum_Z fold_right].
    rewrite !(band_count_cons res results total _ _ Hb).
    cbn [Z.eqb Pos.eqb].
    generalize (band_count results total). intros f.
    assert (Hc : q = 0 \/ q = 1 \/ q = 2 \/ q = 3 \/ q = 4 \/ q = 5 \/ q = 6 \/
                 q = 7 \/ q = 8 \/ q = 9) by lia.
    intros IH.
    repeat (destruct Hc as [->|Hc]; [eval_eqb; lia|]). subst q. eval_eqb. lia.
Qed.

Lemma Forall_weaken_bucket results :
  Forall (fun res => exists b, bucket_of res = Ok b /\ 0 <= b <= 90) results ->
  Forall (fun res => exists b, bucket_of res = Ok b) results.
Proof. induction 1 as [|res results (b & Hb & _) _ IH]; constructor; eauto. Qed.

(** C1, as stated, fails on three inputs the Aggregator accepts: an outcome
    with loss rate [1.0] goes to group 100, which no band shows, so with
    one candidate the eleven counts sum to 0; with no candidate at all the
    proportion divides by zero; and a minimum latency too large for a
    float makes the band's average raise [OverflowError]. *)
Lemma band_counts_miss_outcomes :
  (exists bands,
     analyze_results [TestResult.mk "192.0.2.1" (PInt 20) 20 20 (PyFloat.const 1)] 1
       = Ok bands /\
     map count bands = [0; 0; 0; 0; 0; 0; 0; 0; 0; 0; 0]) /\
  analyze_results [] 0 = Raise ZeroDivisionError /\
  analyze_results
    [TestResult.mk "192.0.2.1" (PInt (2 ^ 1024)) (2 ^ 1024) (2 ^ 1024) (S754_zero false)] 1
    = Raise OverflowError.
Proof.
  split; [|split].
  - eexists. split; vm_compute; reflexivity.
  - vm_compute. reflexivity.
  - vm_compute. reflexivity.
Qed.

(** C1: for at least one candidate, at most as many outcomes as
    candidates, every outcome in one of the bands 0..90 and with an int
    minimum latency below [2^1000], [analyze_results] returns the eleven
    bands 0, 10, ..., 100 in this order; a band below 100 counts the
    outcomes whose bucket it is, band 100 counts the candidates without an
    outcome, and the eleven counts sum to the number of candidates. *)
Theorem band_counts_partition (results : list TestResult.t) (total_ips : Z) :
  0 < total_ips ->
  Z.of_nat (length results) <= total_ips ->
  Forall (fun res => exists b, bucket_of res = Ok b /\ 0 <= b <= 90) results ->
  Forall bounded_min results ->
  exists bands,
    analyze_results results total_ips = Ok bands /\
    map (fun band => (bucket band, count band)) bands =
      map (fun b => (b, band_count results total_ips b)) buckets /\
    sum_Z (map count bands) = total_ips.
Proof.
  intros Ht Hlen Hb Hmin.
  destruct (analyze_results_spec results total_ips Ht Hlen
              (Forall_weaken_bucket results Hb) Hmin) as (bands & Ha & Hm).
  exists bands. split; [exact Ha|]. split; [exact Hm|].
  etransitivity; [|exact (sum_band_counts results total_ips Hb)].
  f_equal.
  transitivity (map snd (map (fun band => (bucket band, count band)) bands)).
  - rewrite map_map. reflexivity.
  - rewrite Hm, map_map. reflexivity.
Qed.

Lemma band_counts_partition_witness :
  exists bands,
    analyze_results
      [TestResult.mk "192.0.2.1" (PInt 20) 40 30 (S754_zero false);
       TestResult.mk "192.0.2.2" (PInt 25) 45 35 (S754_zero false);
       TestResult.mk "192.0.2.3" (PInt 90) 95 92
                     (S754_finite false 5404319552844595 (-54))] 5 = Ok bands /\
    map (fun band => (bucket band, count band)) bands =
      map (fun b =>
             (b, band_count
                   [TestResult.mk "192.0.2.1" (PInt 20) 40 30 (S754_zero false);
                    TestResult.mk "192.0.2.2" (PInt 25) 45 35 (S754_zero false);
                    TestResult.mk "192.0.2.3" (PInt 90) 95 92
                                  (S754_finite false 5404319552844595 (-54))] 5 b))
          buckets /\
    sum_Z (map count bands) = 5.
Proof.
  apply (band_counts_partition
           [TestResult.mk "192.0.2.1" (PInt 20) 40 30 (S754_zero false);
            TestResult.mk "192.0.2.2" (PInt 25) 45 35 (S754_zero false);
            TestResult.mk "192.0.2.3" (PInt 90) 95 92
                          (S754_finite false 5404319552844595 (-54))] 5).
  - lia.
  - simpl. lia.
  - repeat constructor.
    + exists 0. split; [vm_compute; reflexivity|lia].
    + exists 0. split; [vm_compute; reflexivity|lia].
    + exists 30. split; [vm_compute; reflexivity|lia].
  - repeat constructor.
    + exists 20. split; [reflexivity|vm_compute; reflexivity].
    + exists 25. split; [reflexivity|vm_compute; reflexivity].
    + exists 90. split; [reflexivity|vm_compute; reflexivity].
Defined.

(** C9: with three candidates and two outcomes, of loss rates [0 / 10] and
    [2 / 10], [analyze_results] gives count 1 to the bands 0, 20 and 100
    and count 0 to every other band. *)
Theorem three_candidates_scenario (r1 r2 : TestResult.t) :
  PyFloat.int_truediv 0 10 = Ok (TestResult.loss_rate r1) ->
  PyFloat.int_truediv 2 10 = Ok (TestResult.loss_rate r2) ->
  bounded_min r1 -> bounded_min r2 ->
  exists bands,
    analyze_results [r1; r2] 3 = Ok bands /\
    map (fun band => (bucket band, count band)) bands =
      [(0, 1); (10, 0); (20, 1); (30, 0); (40, 0); (50, 0); (60, 0); (70, 0);
       (80, 0); (90, 0); (100, 1)].
Proof.
  intros H1 H2 Hm1 Hm2.
  assert (Hb1 : bucket_of r1 = Ok 0).
  { change (PyFloat.int_truediv 0 10) with (Ok (S754_zero false)) in H1.
    injection H1 as H1. unfold bucket_of. rewrite <- H1. vm_compute. reflexivity. }
  assert (Hb2 : bucket_of r2 = Ok 20).
  { change (PyFloat.int_truediv 2 10)
      with (Ok (S754_finite false 7205759403792794 (-55))) in H2.
    injection H2 as H2. unfold bucket_of. rewrite <- H2. vm_compute. reflexivity. }
  destruct (analyze_results_spec [r1; r2] 3) as (bands & Ha & Hm).
  - lia.
  - simpl. lia.
  - repeat constructor; eauto.
  - repeat constructor; assumption.
  - exists bands. split; [exact Ha|]. rewrite Hm.
    unfold buckets, band_count, bucket_is. cbn [seq map List.filter].
    rewrite Hb1, Hb2. reflexivity.
Qed.

Lemma three_candidates_scenario_witness :
  exists bands,
    analyze_results
      [TestResult.mk "192.0.2.1" (PInt 20) 40 30 (S754_zero false);
       TestResult.mk "192.0.2.2" (PInt 25) 45 35
                     (S754_finite false 7205759403792794 (-55))] 3 = Ok bands /\
    map (fun band => (bucket band, count band)) bands =
      [(0, 1); (10, 0); (20, 1); (30, 0); (40, 0); (50, 0); (60, 0); (70, 0);
       (80, 0); (90, 0); (100, 1)].
Proof.
  apply (three_candidates_scenario
           (TestResult.mk "192.0.2.1" (PInt 20) 40 30 (S754_zero false))
           (TestResult.mk "192.0.2.2" (PInt 25) 45 35
                          (S754_finite false 7205759403792794 (-55)))).
  - vm_compute. reflexivity.
  - vm_compute. reflexivity.
  - exists 20. split; [reflexivity|vm_compute; reflexivity].
  - exists 25. split; [reflexivity|vm_compute; reflexivity].
Defined.

(** ** AddressSampler *)

Section SamplerFacts.
Context {G : Type} `{RandomSource G}.

Lemma draws_length a b k : forall g, length (fst (draws a b k g)) = k.
Proof.
  induction k as [|k IH]; intros g; [reflexivity|].
  cbn [draws]. destruct (randint a b g) as [n g1].
  specialize (IH g1). destruct (draws a b k g1) as [ns g2].
  cbn [fst length] in *. congruence.
Qed.

Lemma draws_range a b k : a <= b ->
  forall g, Forall (fun n => a <= n <= b) (fst (draws a b k g)).
Proof.
  intros Hab. induction k as [|k IH]; intros g; [constructor|].
  cbn [draws]. pose proof (randint_range a b g Hab) as Hr.
  destruct (randint a b g) as [n g1].
  specialize (IH g1). destruct (draws a b k g1) as [ns g2].
  cbn [fst] in *. constructor; assumption.
Qed.

Lemma get_random_ipv4s_cons subnet rest g :
  get_random_ipv4s (subnet :: rest) g =
  match ipv4_block subnet with
  | None => get_random_ipv4s rest g
  | Some block =>
      let '(n, g) := randint 0 255 g in
      let '(random_ips, g) := get_random_ipv4s rest g in
      (ipv4_candidate block n :: random_ips, g)
  end.
Proof.
  cbn [get_random_ipv4s]. unfold ipv4_block.
  destruct (PyStr.endswith subnet "/24"); [|reflexivity].
  cbn [negb].
  destruct (PyStr.split "." (PyStr.drop_last 3 subnet))
    as [|a [|b [|c [|d [|e l]]]]]; try reflexivity.
Qed.

Lemma get_random_ipv4s_spec ip_list : forall g,
  get_random_ipv4s ip_list g =
  (zip_with ipv4_candidate (omap ipv4_block ip_list)
     (fst (draws 0 255 (length (omap ipv4_block ip_list)) g)),
   snd (draws 0 255 (length (omap ipv4_block ip_list)) g)).
Proof.
  induction ip_list as [|subnet rest IH]; intros g; [reflexivity|].
  rewrite get_random_ipv4s_cons. cbn [omap list_omap].
  change (list_omap _ _ ipv4_block rest) with (omap ipv4_block rest).
  destruct (ipv4_block subnet) as [block|]; [|apply IH].
  cbn [length draws]. destruct (randint 0 255 g) as [n g1].
  rewrite (IH g1).
  destruct (draws 0 255 (length (omap ipv4_block rest)) g1) as [ns g2].
  reflexivity.
Qed.

Lemma append_groups_draws k : forall sections g,
  append_groups k sections g =
  (sections ++ map PyStr.format_x (fst (draws 0 65535 k g)),
   snd (draws 0 65535 k g)).
Proof.
  induction k as [|k IH]; intros sections g.
  - cbn. rewrite app_nil_r. reflexivity.
  - cbn [append_groups draws]. destruct (randint 0 65535 g) as [n g1].
    rewrite IH. destruct (draws 0 65535 k g1) as [ns g2].
    cbn [fst snd map]. rewrite <- app_assoc. reflexivity.
Qed.

Lemma get_random_ipv6s_cons subnet rest g :
  get_random_ipv6s (subnet :: rest) g =
  match ipv6_block subnet with
  | None => get_random_ipv6s rest g
  | Some sections =>
      let '(ns, g) := draws 0 65535 5 g in
      let '(random_ips, g) := get_random_ipv6s rest g in
      (PyStr.join ":" (sections ++ map PyStr.format_x ns) :: random_ips, g)
  end.
Proof.
  cbn [get_random_ipv6s]. unfold ipv6_block.
  destruct (PyStr.endswith subnet "/48"); [|reflexivity].
  cbn [negb]. cbv zeta.
  set (sections := PyStr.split ":" (PyStr.drop_last 3 subnet)).
  rewrite Nat.ltb_antisym.
  destruct (3 <=? length sections)%nat; [|reflexivity].
  cbn [negb]. rewrite append_groups_draws.
  destruct (draws 0 65535 5 g) as [ns g1]. reflexivity.
Qed.
End SamplerFacts.

(** ** Splitting and joining *)

Lemma split_free sep s : free_of sep s = true -> PyStr.split sep s = [s].
Proof.
  induction s as [|c s IH]; [reflexivity|].
  unfold free_of. cbn [all_chars PyStr.split]. intros Hc.
  apply andb_prop in Hc as [Hc Hs].
  destruct (Ascii.eqb c sep); [discriminate|].
  rewrite (IH Hs). reflexivity.
Qed.

Lemma split_app_sep sep p s :
  free_of sep p = true ->
  PyStr.split sep (p +:+ String sep s) = p :: PyStr.split sep s.
Proof.
  induction p as [|c p IH].
  - intros _. change (EmptyString +:+ String sep s) with (String sep s).
    cbn [PyStr.split]. rewrite Ascii.eqb_refl. reflexivity.
  - unfold free_of.
    change (String c p +:+ String sep s) with (String c (p +:+ String sep s)).
    cbn [all_chars PyStr.split]. intros Hc.
    apply andb_prop in Hc as [Hc Hp].
    destruct (Ascii.eqb c sep); [discriminate|].
    rewrite (IH Hp). reflexivity.
Qed.

(** [sep.join(pieces).split(sep) == pieces] for pieces without [sep]. *)
Lemma split_join sep pieces :
  pieces <> [] ->
  Forall (fun p => free_of sep p = true) pieces ->
  PyStr.split sep (PyStr.join (String sep EmptyString) pieces) = pieces.
Proof.
  unfold PyStr.join. induction pieces as [|p pieces IH]; [congruence|].
  intros _ Hall. apply Forall_cons in Hall as [Hp Hall].
  destruct pieces as [|q pieces].
  - cbn [String.concat]. apply split_free, Hp.
  - change (String.concat (String sep EmptyString) (p :: q :: pieces))
      with (p +:+ String sep (String.concat (String sep EmptyString) (q :: pieces))).
    rewrite split_app_sep by exact Hp. f_equal. apply IH; [congruence|exact Hall].
Qed.

(** The pieces of [s.split(sep)] are free of [sep]. *)
Lemma split_pieces_free sep s :
  Forall (fun p => free_of sep p = true) (PyStr.split sep s).
Proof.
  induction s as [|c s IH]; [repeat constructor|].
  cbn [PyStr.split]. destruct (Ascii.eqb c sep) eqn:E.
  - constructor; [reflexivity|exact IH].
  - destruct (PyStr.split sep s) as [|piece rest].
    + repeat constructor. unfold free_of. cbn [all_chars]. rewrite E. reflexivity.
    + apply Forall_cons in IH as [Hp Hr]. constructor; [|exact Hr].
      unfold free_of in *. cbn [all_chars]. rewrite E, Hp. reflexivity.
Qed.

Lemma split_nonempty sep s : PyStr.split sep s <> [].
Proof.
  destruct s as [|c s]; [discriminate|]. cbn [PyStr.split].
  destruct (Ascii.eqb c sep); [discriminate|].
  destruct (PyStr.split sep s); discriminate.
Qed.

(** ** Rendering of the drawn values *)

Lemma all_from_spec p k : forall n,
  all_from p k n = true -> forall m, n <= m < n + Z.of_nat k -> p m = true.
Proof.
  induction k as [|k IH]; intros n Hall m Hm; [lia|].
  cbn [all_from] in Hall. apply andb_prop in Hall as [Hn Hall].
  destruct (Z.eq_dec m n) as [->|Hne]; [exact Hn|].
  apply (IH (n + 1) Hall). lia.
Qed.

Lemma format_x_checked :
  all_from (fun n => lower_hex_of n (PyStr.format_x n) && free_of ":" (PyStr.format_x n))
           (Z.to_nat 65536) 0 = true.
Proof. vm_compute. reflexivity. Qed.

Lemma format_x_spec n :
  0 <= n <= 65535 ->
  lower_hex_of n (PyStr.format_x n) = true /\ free_of ":" (PyStr.format_x n) = true.
Proof.
  intros Hn. apply andb_prop.
  apply (all_from_spec _ _ _ format_x_checked n). lia.
Qed.

Lemma str_checked :
  all_from (fun n => free_of "." (PyStr.str n)) (Z.to_nat 256) 0 = true.
Proof. vm_compute. reflexivity. Qed.

Lemma str_free_of_dot n : 0 <= n <= 255 -> free_of "." (PyStr.str n) = true.
Proof. intros Hn. apply (all_from_spec _ _ _ str_checked n). lia. Qed.

(** ** AddressSampler: the claims *)

Lemma ipv4_block_spec subnet a b c :
  ipv4_block subnet = Some (a, b, c) <->
  PyStr.endswith subnet "/24" = true /\
  exists d, PyStr.split "." (PyStr.drop_last 3 subnet) = [a; b; c; d].
Proof.
  unfold ipv4_block. destruct (PyStr.endswith subnet "/24").
  - destruct (PyStr.split "." (PyStr.drop_last 3 subnet))
      as [|a' [|b' [|c' [|d' [|e l]]]]]; split;
      try discriminate; try (intros (_ & d & [=]); fail).
    + intros [= -> -> ->]. eauto.
    + intros (_ & d & [= -> -> -> _]). reflexivity.
  - split; [discriminate|intros [[=] _]].
Qed.

Lemma length_omap_le_length {A B : Type} (f : A -> option B) (l : list A) :
  (length (omap f l) <= length l)%nat.
Proof.
  induction l as [|x l IH]; [reflexivity|].
  cbn [omap list_omap length]. change (list_omap _ _ f l) with (omap f l).
  destruct (f x); cbn [length]; lia.
Qed.

(** C4: the IPv4 sampler goes through the blocks in input order; a block
    that ends in [/24] and whose base splits into exactly four octets
    [a.b.c.d] gives one candidate, [a.b.c.n] with [n] the decimal
    rendering of the next draw from [0, 255], and any other block gives
    none.  So there are as many candidates as such blocks, at most as many
    as input blocks, and every drawn value is within [0, 255]. *)
Theorem ipv4_sampler_candidates {G : Type} `{RandomSource G}
    (ip_list : list string) (g : G) :
  let blocks := omap ipv4_block ip_list in
  let ns := fst (draws 0 255 (length blocks) g) in
  get_random_ipv4s ip_list g =
    (zip_with ipv4_candidate blocks ns, snd (draws 0 255 (length blocks) g)) /\
  (forall subnet a b c,
     ipv4_block subnet = Some (a, b, c) <->
     PyStr.endswith subnet "/24" = true /\
     exists d, PyStr.split "." (PyStr.drop_last 3 subnet) = [a; b; c; d]) /\
  length ns = length blocks /\
  Forall (fun n => 0 <= n <= 255) ns /\
  length (fst (get_random_ipv4s ip_list g)) = length blocks /\
  (length (fst (get_random_ipv4s ip_list g)) <= length ip_list)%nat.
Proof.
  intros blocks ns.
  assert (Hlen : length ns = length blocks) by apply draws_length.
  assert (Hout : length (fst (get_random_ipv4s ip_list g)) = length blocks).
  { rewrite get_random_ipv4s_spec. cbn [fst]. fold blocks. fold ns.
    rewrite length_zip_with. lia. }
  split; [apply get_random_ipv4s_spec|].
  split; [apply ipv4_block_spec|].
  split; [exact Hlen|].
  split; [apply draws_range; lia|].
  split; [exact Hout|].
  rewrite Hout. apply length_omap_le_length.
Qed.

Lemma format_x_group_checked :
  all_from (fun n => is_hex_group (PyStr.format_x n)) (Z.to_nat 65536) 0 = true.
Proof. vm_compute. reflexivity. Qed.

Lemma format_x_group n : 0 <= n <= 65535 -> is_hex_group (PyStr.format_x n) = true.
Proof. intros Hn. apply (all_from_spec _ _ _ format_x_group_checked n). lia. Qed.

(** Counterexample to C5 as stated: the block [2606::/48] ends in [/48]
    and its base [2606::] has three colon-separated sections, two of them
    empty; the sampler keeps them and emits [2606:::1:7ea6:b0e7:e494:9b3d],
    which has two empty groups and is not a full IPv6 address. *)
Lemma ipv6_block_with_empty_sections :
  PyStr.endswith "2606::/48" "/48" = true /\
  PyStr.split ":" (PyStr.drop_last 3 "2606::/48") = ["2606"; EmptyString; EmptyString] /\
  get_random_ipv6s ["2606::/48"] 1 = (["2606:::1:7ea6:b0e7:e494:9b3d"], 2035015474) /\
  PyStr.split ":" "2606:::1:7ea6:b0e7:e494:9b3d" =
    ["2606"; EmptyString; EmptyString; "1"; "7ea6"; "b0e7"; "e494"; "9b3d"] /\
  full_ipv6 "2606:::1:7ea6:b0e7:e494:9b3d" = false.
Proof. repeat split; vm_compute; reflexivity. Qed.

(** C5, amended: for a block that ends in [/48] and whose base has at
    least three colon-separated sections, the IPv6 sampler emits the first
    three sections followed by five groups, each the lowercase hexadecimal
    numeral, without padding, of one of the next five draws from
    [0, 65535], joined by colons; the candidate splits back into exactly
    these eight pieces.  It is a full IPv6 address exactly when each of
    the three kept sections is a group of one to four hexadecimal digits;
    the five appended groups always are.  This holds for every random
    source. *)
Theorem ipv6_sampler_candidate {G : Type} `{RandomSource G}
    (subnet : string) (rest : list string) (g : G) :
  PyStr.endswith subnet "/48" = true ->
  (3 <= length (PyStr.split ":" (PyStr.drop_last 3 subnet)))%nat ->
  let sections := take 3 (PyStr.split ":" (PyStr.drop_last 3 subnet)) in
  let ns := fst (draws 0 65535 5 g) in
  let g1 := snd (draws 0 65535 5 g) in
  let groups := sections ++ map PyStr.format_x ns in
  get_random_ipv6s (subnet :: rest) g =
    (PyStr.join ":" groups :: fst (get_random_ipv6s rest g1),
     snd (get_random_ipv6s rest g1)) /\
  length sections = 3%nat /\
  length ns = 5%nat /\
  Forall (fun n => 0 <= n <= 65535 /\ lower_hex_of n (PyStr.format_x n) = true /\
                   is_hex_group (PyStr.format_x n) = true) ns /\
  PyStr.split ":" (PyStr.join ":" groups) = groups /\
  length groups = 8%nat /\
  full_ipv6 (PyStr.join ":" groups) = forallb is_hex_group sections.
Proof.
  intros Hend Hsec sections ns g1 groups.
  assert (Hs : length sections = 3%nat).
  { subst sections. rewrite length_take. lia. }
  assert (Hn : length ns = 5%nat) by apply draws_length.
  assert (Hr : Forall (fun n => 0 <= n <= 65535) ns) by (apply draws_range; lia).
  assert (Hsplit : PyStr.split ":" (PyStr.join ":" groups) = groups).
  { apply split_join.
    + subst groups. destruct sections; [discriminate|discriminate].
    + subst groups. apply Forall_app. split.
      * subst sections. apply Forall_take, split_pieces_free.
      * clear -Hr. induction Hr as [|n ns Hn _ IH]; constructor; [|exact IH].
        apply format_x_spec, Hn. }
  assert (Hlen : length groups = 8%nat).
  { subst groups. rewrite length_app, length_map. lia. }
  split; [|split; [exact Hs|split; [exact Hn|split; [|split; [exact Hsplit|split;
    [exact Hlen|]]]]]].
  - rewrite get_random_ipv6s_cons. unfold ipv6_block. rewrite Hend.
    cbv zeta. destruct (Nat.leb_spec 3 (length (PyStr.split ":" (PyStr.drop_last 3 subnet))));
      [|lia].
    fold sections. subst groups ns g1.
    destruct (draws 0 65535 5 g) as [ns g1]. cbn [fst snd].
    destruct (get_random_ipv6s rest g1). reflexivity.
  - eapply List.Forall_impl; [|exact Hr]. intros n Hn'. split; [exact Hn'|].
    split; [apply format_x_spec, Hn'|apply format_x_group, Hn'].
  - unfold full_ipv6. cbv zeta. rewrite Hsplit, Hlen. cbn [Nat.eqb andb].
    subst groups. rewrite forallb_app.
    assert (Hg : forallb is_hex_group (map PyStr.format_x ns) = true).
    { clear -Hr. induction Hr as [|n ns Hn _ IH]; [reflexivity|].
      cbn [map forallb]. rewrite (format_x_group n Hn), IH. reflexivity. }
    rewrite Hg. apply andb_true_r.
Qed.

Lemma ipv4_sampler_candidates_witness :
  let ip_list := ["104.16.0.0/24"; "104.17.0.0/16"; "10.0.0/24"; "172.64.1.0/24"] in
  let blocks := omap ipv4_block ip_list in
  get_random_ipv4s ip_list 7 =
  (zip_with ipv4_candidate blocks (fst (draws 0 255 (length blocks) 7)),
   snd (draws 0 255 (length blocks) 7)).
Proof.
  exact (proj1 (ipv4_sampler_candidates
                  ["104.16.0.0/24"; "104.17.0.0/16"; "10.0.0/24"; "172.64.1.0/24"] 7)).
Defined.

Lemma ipv6_sampler_candidate_witness :
  let sections := take 3 (PyStr.split ":" (PyStr.drop_last 3 "2606:4700:10::/48")) in
  let ns := fst (draws 0 65535 5 1) in
  let g1 := snd (draws 0 65535 5 1) in
  let groups := sections ++ map PyStr.format_x ns in
  get_random_ipv6s ["2606:4700:10::/48"] 1 =
    (PyStr.join ":" groups :: fst (get_random_ipv6s [] g1),
     snd (get_random_ipv6s [] g1)) /\
  length sections = 3%nat /\
  length ns = 5%nat /\
  Forall (fun n => 0 <= n <= 65535 /\ lower_hex_of n (PyStr.format_x n) = true /\
                   is_hex_group (PyStr.format_x n) = true) ns /\
  PyStr.split ":" (PyStr.join ":" groups) = groups /\
  length groups = 8%nat /\
  full_ipv6 (PyStr.join ":" groups) = forallb is_hex_group sections.
Proof.
  apply (ipv6_sampler_candidate "2606:4700:10::/48" [] 1).
  - vm_compute. reflexivity.
  - vm_compute. lia.
Defined.

(** ** ProbeEngine: strings *)

Lemma strip_prefix_spec p : forall s rest,
  strip_prefix p s = Some rest <-> s = p +:+ rest.
Proof.
  induction p as [|a p IH]; intros s rest.
  - change (EmptyString +:+ rest) with rest.
    destruct s; cbn [strip_prefix]; split; congruence.
  - change (String a p +:+ rest) with (String a (p +:+ rest)).
    destruct s as [|b s]; cbn [strip_prefix]; [split; discriminate|].
    destruct (Ascii.eqb_spec a b) as [<-|Hne].
    + rewrite IH. split; congruence.
    + split; [discriminate|congruence].
Qed.

Lemma prefix_app p : forall rest, String.prefix p (p +:+ rest) = true.
Proof.
  induction p as [|a p IH]; intros rest; [destruct rest; reflexivity|].
  change (String a p +:+ rest) with (String a (p +:+ rest)).
  cbn [String.prefix]. destruct (ascii_dec a a); [apply IH|congruence].
Qed.

Lemma prefix_app_inv p : forall s,
  String.prefix p s = true -> exists rest, s = p +:+ rest.
Proof.
  induction p as [|a p IH]; intros s Hp; [exists s; reflexivity|].
  destruct s as [|b s]; cbn [String.prefix] in Hp; [discriminate|].
  destruct (ascii_dec a b) as [<-|]; [|discriminate].
  destruct (IH s Hp) as (rest & ->). exists rest. reflexivity.
Qed.

Lemma contains_cons needle c s :
  PyStr.contains needle s = true -> PyStr.contains needle (String c s) = true.
Proof.
  intros Hc. cbn [PyStr.contains].
  destruct (String.prefix needle (String c s)); [reflexivity|exact Hc].
Qed.

Lemma contains_prefix needle s :
  String.prefix needle s = true -> PyStr.contains needle s = true.
Proof. intros Hp. destruct s; cbn [PyStr.contains]; rewrite Hp; reflexivity. Qed.

Lemma take_upper_app s :
  exists rest, s = take_upper s +:+ rest /\ all_chars is_upper (take_upper s) = true.
Proof.
  induction s as [|c s (rest & IH & Hu)]; [exists EmptyString; split; reflexivity|].
  cbn [take_upper]. destruct (is_upper c) eqn:E.
  - exists rest. split; [|cbn [all_chars]; rewrite E; exact Hu].
    change (String c (take_upper s) +:+ rest) with (String c (take_upper s +:+ rest)).
    congruence.
  - exists (String c s). split; reflexivity.
Qed.

(** ** The point-of-presence token *)

Lemma search_colo_unfold s :
  search_colo s =
  match colo_here s with
  | Some code => Some code
  | None =>
      match s with
      | EmptyString => None
      | String _ s' => search_colo s'
      end
  end.
Proof. destruct s; reflexivity. Qed.

Lemma colo_here_some s code :
  colo_here s = Some code ->
  code <> EmptyString /\ all_chars is_upper code = true /\
  String.prefix ("colo=" +:+ code) s = true.
Proof.
  unfold colo_here. destruct (strip_prefix "colo=" s) as [rest|] eqn:E; [|discriminate].
  apply strip_prefix_spec in E as ->.
  destruct (take_upper_app rest) as (rest' & Hr & Hu).
  destruct (take_upper rest) as [|c code'] eqn:Et; [discriminate|].
  intros [= <-]. split; [discriminate|]. split; [exact Hu|].
  rewrite Hr.
  change ("colo=" +:+ (String c code' +:+ rest'))
    with (("colo=" +:+ String c code') +:+ rest').
  apply prefix_app.
Qed.

Lemma colo_here_token s c :
  is_upper c = true ->
  String.prefix ("colo=" +:+ String c EmptyString) s = true ->
  colo_here s <> None.
Proof.
  intros Hu Hp. apply prefix_app_inv in Hp as (rest & ->).
  unfold colo_here.
  change (("colo=" +:+ String c EmptyString) +:+ rest) with ("colo=" +:+ String c rest).
  assert (Hs : strip_prefix "colo=" ("colo=" +:+ String c rest) = Some (String c rest))
    by (apply strip_prefix_spec; reflexivity).
  rewrite Hs. cbn [take_upper]. rewrite Hu. discriminate.
Qed.

(** A code that [re.search] finds is a non-empty run of [A-Z] that
    follows [colo=] in the text. *)
Lemma search_colo_some s : forall code,
  search_colo s = Some code ->
  code <> EmptyString /\ all_chars is_upper code = true /\
  PyStr.contains ("colo=" +:+ code) s = true.
Proof.
  induction s as [|c s IH]; intros code; rewrite search_colo_unfold.
  - destruct (colo_here EmptyString) eqn:E; [|discriminate].
    intros [= ->]. apply colo_here_some in E as (H1 & H2 & H3).
    auto using contains_prefix.
  - destruct (colo_here (String c s)) eqn:E.
    + intros [= ->]. apply colo_here_some in E as (H1 & H2 & H3).
      auto using contains_prefix.
    + intros Hs. destruct (IH code Hs) as (H1 & H2 & H3).
      auto using contains_cons.
Qed.

(** [re.search] finds a code exactly when the text has a token. *)
Lemma search_colo_token s : search_colo s <> None <-> has_colo_token s.
Proof.
  split.
  - destruct (search_colo s) as [code|] eqn:E; [intros _|congruence].
    apply search_colo_some in E as (Hne & Hu & Hc).
    destruct code as [|c code]; [congruence|].
    cbn [all_chars] in Hu. apply andb_prop in Hu as [Hu _].
    exists c. split; [exact Hu|]. clear -Hc.
    induction s as [|a s IH]; cbn [PyStr.contains] in *.
    + destruct (String.prefix ("colo=" +:+ String c code) EmptyString) eqn:E;
        [|discriminate].
      apply prefix_app_inv in E as (rest & E). discriminate.
    + destruct (String.prefix ("colo=" +:+ String c code) (String a s)) eqn:E.
      * apply prefix_app_inv in E as (rest & ->).
        change (("colo=" +:+ String c code) +:+ rest)
          with (("colo=" +:+ String c EmptyString) +:+ (code +:+ rest)).
        rewrite prefix_app. reflexivity.
      * rewrite (IH Hc).
        destruct (String.prefix ("colo=" +:+ String c EmptyString) (String a s));
          reflexivity.
  - intros (c & Hu & Hc). induction s as [|a s IH]; rewrite search_colo_unfold.
    + cbn [PyStr.contains] in Hc.
      destruct (String.prefix ("colo=" +:+ String c EmptyString) EmptyString) eqn:E;
        [|discriminate].
      apply prefix_app_inv in E as (rest & E). discriminate.
    + cbn [PyStr.contains] in Hc.
      destruct (String.prefix ("colo=" +:+ String c EmptyString) (String a s)) eqn:E.
      * pose proof (colo_here_token _ c Hu E) as Hh.
        destruct (colo_here (String a s)); [discriminate|congruence].
      * destruct (colo_here (String a s)); [discriminate|]. apply IH, Hc.
Qed.

(** ** [scan_ip] *)

Lemma probe_spec decode location_map ip x r :
  probe decode location_map ip x = Some r <->
  exists ms response code,
    connect x = Ok ms /\ send x = Ok tt /\
    recv_loop (recvs x) EmptyString = Ok response /\ close x = Ok tt /\
    has_echo (decode response) = true /\
    search_colo (decode response) = Some code /\
    r = ScanResult.mk ip code
          (match location_map !! code with
           | Some loc => Location.region loc
           | None => EmptyString
           end)
          (match location_map !! code with
           | Some loc => Location.city loc
           | None => EmptyString
           end) ms.
Proof.
  unfold probe, scan_body, has_echo.
  destruct (connect x) as [ms|e1]; cbn [mbind result_bind];
    [|split; [discriminate|intros (? & ? & ? & [=] & _)]].
  destruct (send x) as [[]|e2]; cbn [mbind result_bind];
    [|split; [discriminate|intros (? & ? & ? & _ & [=] & _)]].
  destruct (recv_loop (recvs x) EmptyString) as [response|e3]; cbn [mbind result_bind];
    [|split; [discriminate|intros (? & ? & ? & _ & _ & [=] & _)]].
  destruct (close x) as [[]|e4]; cbn [mbind result_bind];
    [|split; [discriminate|intros (? & ? & ? & _ & _ & _ & [=] & _)]].
  destruct (PyStr.contains "uag=Mozilla/5.0" (decode response)) eqn:Eu;
    [|split; [discriminate|intros (? & ? & ? & _ & _ & [= <-] & _ & Hu & _); congruence]].
  destruct (search_colo (decode response)) as [code|] eqn:Ec;
    [|split; [discriminate|intros (? & ? & ? & _ & _ & [= <-] & _ & _ & Hc & _); congruence]].
  split.
  - intros Hr. exists ms, response, code. repeat split; try reflexivity; try assumption.
    destruct (location_map !! code); injection Hr as <-; reflexivity.
  - intros (ms' & response' & code' & [= <-] & _ & [= <-] & _ & _ & Hc & ->).
    rewrite Ec in Hc. injection Hc as <-.
    destruct (location_map !! code); reflexivity.
Qed.

Lemma scan_ip_ok decode location_map total x ip count :
  0 <= count < total ->
  scan_ip decode location_map total x ip count =
  Ok (probe decode location_map ip x, count + 1).
Proof. intros Hc. unfold scan_ip, probe. apply guarded_ok, Hc. Qed.

Lemma scan_pool decode location_map ip_list exchanges :
  scan_all decode location_map ip_list exchanges =
  Ok (kept_from (fun i ip => probe decode location_map ip (exchanges i)) 0 ip_list,
      Z.of_nat (length ip_list)).
Proof.
  unfold scan_all, run_pool.
  rewrite (run_pool_from_kept _
             (fun i ip => probe decode location_map ip (exchanges i))
             (Z.of_nat (length ip_list))); [reflexivity| |lia|lia].
  intros i ip c Hc. apply scan_ip_ok, Hc.
Qed.

(** ** ProbeEngine: the claims *)

(** C6: the pool of the ProbeEngine never raises and returns, in input
    order, the results of the candidates whose call returned one.  Every
    result it returns comes from a candidate whose exchange went through
    without an exception and whose decoded response has the header echo
    [uag=Mozilla/5.0] and a token [colo=] followed by a letter of [A-Z].
    So an exception in [connect], [send], [recv] or [close], a response
    without the echo, or one without a token each give no result for the
    candidate. *)
Theorem probe_engine_drops_failures (decode : string -> string)
    (location_map : gmap string Location.t) (ip_list : list string)
    (exchanges : nat -> exchange) :
  let kept :=
    kept_from (fun i ip => probe decode location_map ip (exchanges i)) 0 ip_list in
  scan_all decode location_map ip_list exchanges =
    Ok (kept, Z.of_nat (length ip_list)) /\
  (forall r, r ∈ kept ->
     exists i ms response,
       ip_list !! i = Some (ScanResult.ip r) /\
       connect (exchanges i) = Ok ms /\ send (exchanges i) = Ok tt /\
       recv_loop (recvs (exchanges i)) EmptyString = Ok response /\
       close (exchanges i) = Ok tt /\
       has_echo (decode response) = true /\
       has_colo_token (decode response) /\
       search_colo (decode response) = Some (ScanResult.data_center r)) /\
  (forall ip x e,
     connect x = Raise e \/ send x = Raise e \/
     recv_loop (recvs x) EmptyString = Raise e \/ close x = Raise e ->
     probe decode location_map ip x = None) /\
  (forall ip x response,
     recv_loop (recvs x) EmptyString = Ok response ->
     has_echo (decode response) = false \/ ~ has_colo_token (decode response) ->
     probe decode location_map ip x = None).
Proof.
  intros kept. split; [apply scan_pool|]. split; [|split].
  - intros r Hr. apply elem_of_kept_from in Hr as (i & ip & Hi & Hp).
    apply probe_spec in Hp as (ms & response & code & H1 & H2 & H3 & H4 & H5 & H6 & ->).
    exists i, ms, response. cbn [ScanResult.ip ScanResult.data_center].
    repeat split; try assumption.
    apply search_colo_token. congruence.
  - intros ip x e He.
    destruct (probe decode location_map ip x) as [r|] eqn:E; [|reflexivity].
    apply probe_spec in E as (ms & response & code & H1 & H2 & H3 & H4 & _).
    destruct He as [He|[He|[He|He]]]; congruence.
  - intros ip x response Hrecv Hbad.
    destruct (probe decode location_map ip x) as [r|] eqn:E; [|reflexivity].
    apply probe_spec in E as (ms & response' & code & _ & _ & H3 & _ & H5 & H6 & _).
    assert (response' = response) as -> by congruence.
    destruct Hbad as [Hbad|Hbad]; [congruence|].
    exfalso. apply Hbad, search_colo_token. congruence.
Qed.

(** C7: when the exchange of a candidate goes through, the decoded
    response has the header echo and [re.search] finds the code [code],
    [scan_ip] returns a result for the candidate with this code and the
    measured latency: with the region and city of the directory's entry
    if the code is in the location directory, and with empty region and
    city if it is not. *)
Theorem probe_result_location (decode : string -> string)
    (location_map : gmap string Location.t) (total count : Z) (ip : string)
    (x : exchange) (ms : Z) (response code : string) :
  0 <= count < total ->
  connect x = Ok ms -> send x = Ok tt ->
  recv_loop (recvs x) EmptyString = Ok response -> close x = Ok tt ->
  has_echo (decode response) = true ->
  search_colo (decode response) = Some code ->
  (forall loc, location_map !! code = Some loc ->
     scan_ip decode location_map total x ip count =
     Ok (Some (ScanResult.mk ip code (Location.region loc) (Location.city loc) ms),
         count + 1)) /\
  (location_map !! code = None ->
     scan_ip decode location_map total x ip count =
     Ok (Some (ScanResult.mk ip code EmptyString EmptyString ms), count + 1)).
Proof.
  intros Hc H1 H2 H3 H4 H5 H6.
  assert (Hp : probe decode location_map ip x =
               Some (ScanResult.mk ip code
                       (match location_map !! code with
                        | Some loc => Location.region loc
                        | None => EmptyString
                        end)
                       (match location_map !! code with
                        | Some loc => Location.city loc
                        | None => EmptyString
                        end) ms)).
  { apply probe_spec. exists ms, response, code. repeat split; assumption. }
  rewrite scan_ip_ok by exact Hc. rewrite Hp.
  split; [intros loc Hl|intros Hl]; rewrite Hl; reflexivity.
Qed.

Lemma probe_result_location_witness :
  (forall loc, build_location_map demo_locations !! "LAX" = Some loc ->
     scan_ip (fun s => s) (build_location_map demo_locations) 1 demo_exchange
             "192.0.2.1" 0 =
     Ok (Some (ScanResult.mk "192.0.2.1" "LAX" (Location.region loc)
                             (Location.city loc) 12), 0 + 1)) /\
  (build_location_map demo_locations !! "LAX" = None ->
     scan_ip (fun s => s) (build_location_map demo_locations) 1 demo_exchange
             "192.0.2.1" 0 =
     Ok (Some (ScanResult.mk "192.0.2.1" "LAX" EmptyString EmptyString 12), 0 + 1)).
Proof.
  apply (probe_result_location (fun s => s) (build_location_map demo_locations) 1 0
           "192.0.2.1" demo_exchange 12 demo_response "LAX").
  - lia.
  - reflexivity.
  - reflexivity.
  - vm_compute. reflexivity.
  - reflexivity.
  - vm_compute. reflexivity.
  - vm_compute. reflexivity.
Defined.

(** ** Sorting by an integer key *)

Section KeySort.
Context {A : Type}.
Variable key : A -> Z.

Lemma insert_sorted_key_filter k x l :
  List.filter (fun y => key y =? k) (insert_sorted (fun a b => key a <? key b) x l) =
  List.filter (fun y => key y =? k) (x :: l).
Proof.
  induction l as [|y l IH]; [reflexivity|].
  cbn [insert_sorted]. destruct (Z.ltb_spec (key y) (key x)) as [Hlt|Hge]; [|reflexivity].
  cbn [List.filter] in *. rewrite IH.
  destruct (Z.eqb_spec (key x) k), (Z.eqb_spec (key y) k); try reflexivity. lia.
Qed.

(** The sort is stable: the elements of one key keep their order. *)
Lemma sort_by_key_stable k l :
  List.filter (fun y => key y =? k) (sort_by (fun a b => key a <? key b) l) =
  List.filter (fun y => key y =? k) l.
Proof.
  induction l as [|x l IH]; [reflexivity|].
  cbn [sort_by fold_right].
  change (fold_right (insert_sorted (fun a b => key a <? key b)) [] l)
    with (sort_by (fun a b => key a <? key b) l).
  rewrite insert_sorted_key_filter. cbn [List.filter]. rewrite IH. reflexivity.
Qed.

Lemma sort_by_key_sorted l :
  StronglySorted (fun x y => key x <= key y) (sort_by (fun a b => key a <? key b) l).
Proof.
  apply (sort_by_sorted (fun a b => key a <? key b) (fun _ => True)
           (fun x y => key x <= key y)).
  - intros x y _ _ H. apply Z.ltb_ge in H. exact H.
  - intros x y _ _ H. apply Z.ltb_lt in H. lia.
  - intros x y z _ _ _. lia.
  - apply Forall_forall. intros; exact I.
Qed.
End KeySort.

Lemma kept_from_nil {A : Type} (f : nat -> string -> option A) ip_list : forall i,
  kept_from f i ip_list = [] <->
  forall j ip, ip_list !! j = Some ip -> f (i + j)%nat ip = None.
Proof.
  intros i. split.
  - intros Hnil j ip Hj. destruct (f (i + j)%nat ip) as [x|] eqn:E; [|reflexivity].
    assert (Hx : x ∈ kept_from f i ip_list) by (apply elem_of_kept_from; eauto).
    rewrite Hnil in Hx. inversion Hx.
  - intros Hall. destruct (kept_from f i ip_list) as [|x l] eqn:E; [reflexivity|].
    assert (Hx : x ∈ kept_from f i ip_list) by (rewrite E; left).
    apply elem_of_kept_from in Hx as (j & ip & Hj & Hf).
    rewrite (Hall j ip Hj) in Hf. discriminate.
Qed.

(** ** [run_ip_scan] *)

(** [run_ip_scan] raises [ValueError] when [scan_max_threads] is not
    positive, as the constructor of the pool does.  Otherwise it never
    raises, and it exits with status 1 exactly when no candidate gives a
    result. *)
Theorem run_ip_scan_exits_without_results (scan_max_threads : Z)
    (decode : string -> string)
    (location_map : gmap string Location.t) (ip_list : list string)
    (exchanges : nat -> exchange) (file_error : option exn) :
  (scan_max_threads <= 0 ->
   run_ip_scan scan_max_threads decode location_map ip_list exchanges file_error =
     Raise ValueError) /\
  (0 < scan_max_threads ->
   (exists o, run_ip_scan scan_max_threads decode location_map ip_list exchanges
                file_error = Ok o) /\
   (run_ip_scan scan_max_threads decode location_map ip_list exchanges file_error =
      Ok (Exited 1) <->
    forall i ip, ip_list !! i = Some ip ->
                 probe decode location_map ip (exchanges i) = None)).
Proof.
  unfold run_ip_scan, thread_pool. split.
  { intros Ht. destruct (Z.leb_spec scan_max_threads 0); [reflexivity|lia]. }
  intros Ht. destruct (Z.leb_spec scan_max_threads 0); [lia|].
  cbn [mbind result_bind]. rewrite scan_pool. cbn [mbind result_bind].
  pose proof (kept_from_nil
                (fun i ip => probe decode location_map ip (exchanges i)) ip_list 0) as Hn.
  cbn [Nat.add] in Hn.
  destruct (kept_from _ 0 ip_list) as [|r results].
  - split; [eauto|]. split; [intros _; apply Hn; reflexivity|reflexivity].
  - split; [destruct file_error; eauto|]. split.
    + destruct file_error; discriminate.
    + intros Hall. apply Hn in Hall. discriminate.
Qed.

Lemma run_ip_scan_exits_without_results_witness :
  run_ip_scan 0 (fun s => s) (build_location_map demo_locations) demo_scan_ips
    demo_exchanges None = Raise ValueError /\
  (exists o, run_ip_scan 100 (fun s => s) (build_location_map demo_locations)
               demo_scan_ips demo_exchanges None = Ok o) /\
  (run_ip_scan 100 (fun s => s) (build_location_map demo_locations) ["192.0.2.3"]
     (fun _ => demo_exchanges 2) None = Ok (Exited 1) <->
   forall i ip, ["192.0.2.3"] !! i = Some ip ->
                probe (fun s => s) (build_location_map demo_locations) ip
                  (demo_exchanges 2) = None).
Proof.
  split; [|split].
  - apply (proj1 (run_ip_scan_exits_without_results 0 (fun s => s)
                    (build_location_map demo_locations) demo_scan_ips demo_exchanges None)).
    lia.
  - apply (proj2 (run_ip_scan_exits_without_results 100 (fun s => s)
                    (build_location_map demo_locations) demo_scan_ips demo_exchanges None)).
    lia.
  - apply (proj2 (run_ip_scan_exits_without_results 100 (fun s => s)
                    (build_location_map demo_locations) ["192.0.2.3"]
                    (fun _ => demo_exchanges 2) None)).
    lia.
Defined.

(** When some candidate gives a result and the file can be written, the
    rows after the header are those of the pool's results in ascending
    order of latency: every row's latency is at most the next one's, no
    result is lost or repeated, and results of equal latency keep the
    order of their candidates. *)
Theorem run_ip_scan_rows_by_latency (scan_max_threads : Z) (decode : string -> string)
    (location_map : gmap string Location.t) (ip_list : list string)
    (exchanges : nat -> exchange) (rows : list (list string)) :
  run_ip_scan scan_max_threads decode location_map ip_list exchanges None =
    Ok (ScanWritten rows) ->
  let kept :=
    kept_from (fun i ip => probe decode location_map ip (exchanges i)) 0 ip_list in
  exists results,
    rows = scan_header :: map scan_row results /\
    Permutation results kept /\
    (forall i x y, results !! i = Some x -> results !! S i = Some y ->
                   ScanResult.latency_ms x <= ScanResult.latency_ms y) /\
    (forall ms, List.filter (fun r => ScanResult.latency_ms r =? ms) results =
                List.filter (fun r => ScanResult.latency_ms r =? ms) kept).
Proof.
  intros Hrun kept. revert Hrun.
  unfold run_ip_scan, thread_pool.
  destruct (scan_max_threads <=? 0); [discriminate|].
  cbn [mbind result_bind]. rewrite scan_pool. cbn [mbind result_bind].
  fold kept. intros Hrun.
  exists (sort_by latency_ltb kept). split; [|split; [|split]].
  - destruct kept; [discriminate|]. injection Hrun as <-. reflexivity.
  - apply sort_by_perm.
  - apply (StronglySorted_adjacent
             (fun x y => ScanResult.latency_ms x <= ScanResult.latency_ms y)).
    apply (sort_by_key_sorted ScanResult.latency_ms).
  - intros ms. apply (sort_by_key_stable ScanResult.latency_ms).
Qed.

Lemma run_ip_scan_rows_by_latency_witness :
  kept_from (fun i ip => probe (fun s => s) (build_location_map demo_locations)
                           ip (demo_exchanges i)) 0 demo_scan_ips =
    [ScanResult.mk "192.0.2.1" "LAX" "North America" "Los Angeles" 30;
     ScanResult.mk "192.0.2.2" "LAX" "North America" "Los Angeles" 12;
     ScanResult.mk "192.0.2.4" "LAX" "North America" "Los Angeles" 12] /\
  exists results,
    [scan_header;
     scan_row (ScanResult.mk "192.0.2.2" "LAX" "North America" "Los Angeles" 12);
     scan_row (ScanResult.mk "192.0.2.4" "LAX" "North America" "Los Angeles" 12);
     scan_row (ScanResult.mk "192.0.2.1" "LAX" "North America" "Los Angeles" 30)] =
      scan_header :: map scan_row results /\
    Permutation results
      (kept_from (fun i ip => probe (fun s => s) (build_location_map demo_locations)
                                ip (demo_exchanges i)) 0 demo_scan_ips) /\
    (forall i x y, results !! i = Some x -> results !! S i = Some y ->
                   ScanResult.latency_ms x <= ScanResult.latency_ms y) /\
    (forall ms, List.filter (fun r => ScanResult.latency_ms r =? ms) results =
                List.filter (fun r => ScanResult.latency_ms r =? ms)
                  (kept_from (fun i ip => probe (fun s => s)
                                            (build_location_map demo_locations)
                                            ip (demo_exchanges i)) 0 demo_scan_ips)).
Proof.
  split; [vm_compute; reflexivity|].
  apply (run_ip_scan_rows_by_latency 100 (fun s => s) (build_location_map demo_locations)
           demo_scan_ips demo_exchanges).
  vm_compute. reflexivity.
Defined.

(** ** The dict of data centers *)

Lemma dict_get_alter {V : Type} (f : V -> V) k k' (d : list (string * V)) :
  dict_get k' (dict_alter f k d) =
  if String.eqb k' k then option_map f (dict_get k' d) else dict_get k' d.
Proof.
  induction d as [|[k0 v] d IH]; cbn [dict_alter dict_get].
  - destruct (String.eqb k' k); reflexivity.
  - destruct (String.eqb_spec k k0) as [->|Hne]; cbn [dict_get].
    + destruct (String.eqb_spec k' k0) as [->|Hne']; reflexivity.
    + rewrite IH. destruct (String.eqb_spec k' k0) as [->|Hne'].
      * destruct (String.eqb_spec k0 k); [congruence|reflexivity].
      * reflexivity.
Qed.

Lemma dict_get_app {V : Type} k (d d' : list (string * V)) :
  dict_get k (d ++ d') =
  match dict_get k d with
  | Some v => Some v
  | None => dict_get k d'
  end.
Proof.
  induction d as [|[k0 v] d IH]; [reflexivity|].
  cbn [app dict_get]. destruct (String.eqb k k0); [reflexivity|exact IH].
Qed.

Lemma dict_alter_keys {V : Type} (f : V -> V) k (d : list (string * V)) :
  map fst (dict_alter f k d) = map fst d.
Proof.
  induction d as [|[k0 v] d IH]; [reflexivity|].
  cbn [dict_alter]. destruct (String.eqb k k0); cbn [map fst]; congruence.
Qed.

Lemma dict_get_none {V : Type} k (d : list (string * V)) :
  dict_get k d = None <-> ~ In k (map fst d).
Proof.
  induction d as [|[k0 v] d IH]; cbn [dict_get map fst In]; [tauto|].
  destruct (String.eqb_spec k k0) as [->|Hne].
  - split; [discriminate|tauto].
  - rewrite IH. split; [intros H [E|HI]; [congruence|tauto]|tauto].
Qed.

(** ** The statistics *)

Section SelectFacts.
Variable parse_latency : string -> option Z.

Lemma count_record_get dc data_centers record :
  dict_get dc (count_record parse_latency data_centers record) =
  if counted_record dc record
  then entry_step parse_latency dc (dict_get dc data_centers) record
  else dict_get dc data_centers.
Proof.
  destruct record as [|f0 [|d [|f2 [|c [|f4 rest]]]]]; try reflexivity.
  cbn [count_record counted_record record_latency record_city entry_step].
  destruct (dict_get d data_centers) as [v|] eqn:E.
  - rewrite dict_get_alter. rewrite String.eqb_sym.
    destruct (String.eqb_spec d dc) as [->|Hne]; [|reflexivity].
    rewrite E. reflexivity.
  - rewrite dict_get_app. cbn [dict_get]. rewrite String.eqb_sym.
    destruct (String.eqb_spec d dc) as [->|Hne].
    + rewrite E. reflexivity.
    + destruct (dict_get dc data_centers); reflexivity.
Qed.

Lemma stats_get dc rows : forall data_centers,
  dict_get dc (fold_left (count_record parse_latency) rows data_centers) =
  fold_left (entry_step parse_latency dc) (List.filter (counted_record dc) rows)
            (dict_get dc data_centers).
Proof.
  induction rows as [|record rows IH]; intros data_centers; [reflexivity|].
  cbn [fold_left List.filter]. rewrite IH, count_record_get.
  destruct (counted_record dc record); reflexivity.
Qed.

Lemma entry_fold dc rows : forall info,
  exists info',
    fold_left (entry_step parse_latency dc) rows (Some info) = Some info' /\
    DataCenterInfo.data_center info' = DataCenterInfo.data_center info /\
    DataCenterInfo.city info' = DataCenterInfo.city info /\
    DataCenterInfo.ip_count info' =
      DataCenterInfo.ip_count info + Z.of_nat (length rows) /\
    (DataCenterInfo.min_latency info' = DataCenterInfo.min_latency info \/
     In (DataCenterInfo.min_latency info') (map (record_latency parse_latency) rows)) /\
    (0 < DataCenterInfo.min_latency info ->
     Forall (fun r => 0 < record_latency parse_latency r) rows ->
     0 < DataCenterInfo.min_latency info' <= DataCenterInfo.min_latency info /\
     Forall (fun r => DataCenterInfo.min_latency info' <= record_latency parse_latency r)
            rows).
Proof.
  induction rows as [|record rows IH]; intros info.
  - exists info. cbn [fold_left length map In]. repeat split; try lia; auto.
  - cbn [fold_left entry_step].
    destruct (IH (count_again (record_latency parse_latency record) info))
      as (info' & Hf & Hd & Hc & Hn & Hm & Hmin).
    exists info'. cbn [DataCenterInfo.data_center DataCenterInfo.city
                       DataCenterInfo.ip_count DataCenterInfo.min_latency count_again]
      in Hd, Hc, Hn, Hm, Hmin.
    split; [exact Hf|]. split; [exact Hd|]. split; [exact Hc|].
    split; [cbn [length]; lia|]. split.
    + cbn [map In]. destruct Hm as [Hm|Hm]; [|tauto].
      rewrite Hm.
      destruct ((record_latency parse_latency record <? DataCenterInfo.min_latency info)
                || (DataCenterInfo.min_latency info =? 0)); tauto.
    + intros Hpos Hall. apply Forall_cons in Hall as [Hr Hall].
      destruct (Z.ltb_spec (record_latency parse_latency record)
                           (DataCenterInfo.min_latency info)) as [Hlt|Hge];
        destruct (Z.eqb_spec (DataCenterInfo.min_latency info) 0) as [Hz|Hnz];
        cbn [orb] in Hmin; try lia;
        (destruct (Hmin ltac:(lia) Hall) as [Hb Hrest];
         split; [lia|]; constructor; [lia|exact Hrest]).
Qed.

Lemma count_record_keys data_centers record :
  NoDup (map fst data_centers) ->
  NoDup (map fst (count_record parse_latency data_centers record)).
Proof.
  intros Hnd. destruct record as [|f0 [|d [|f2 [|c [|f4 rest]]]]]; try exact Hnd.
  cbn [count_record]. destruct (dict_get d data_centers) as [v|] eqn:E.
  - rewrite dict_alter_keys. exact Hnd.
  - rewrite map_app. cbn [map fst]. apply NoDup_app. split; [exact Hnd|]. split.
    + intros k Hk Hk'. apply list_elem_of_singleton in Hk'. subst k.
      apply dict_get_none in E. apply E. apply list_elem_of_In. exact Hk.
    + apply NoDup_singleton.
Qed.

Lemma stats_keys rows : forall data_centers,
  NoDup (map fst data_centers) ->
  NoDup (map fst (fold_left (count_record parse_latency) rows data_centers)).
Proof.
  induction rows as [|record rows IH]; intros data_centers Hnd; [exact Hnd|].
  cbn [fold_left]. apply IH, count_record_keys, Hnd.
Qed.

End SelectFacts.

(** ** The choice *)

Section ChoiceFacts.
Variable lower : string -> string.

Lemma match_data_center_some input_dc data_centers dc :
  match_data_center lower input_dc data_centers = Some dc ->
  exists before info after,
    data_centers = before ++ (dc, info) :: after /\
    lower dc = lower input_dc /\
    Forall (fun entry => lower (fst entry) <> lower input_dc) before.
Proof.
  unfold match_data_center. induction data_centers as [|[k v] d IH]; [discriminate|].
  cbn [List.find fst]. destruct (String.eqb_spec (lower k) (lower input_dc)) as [E|Hne].
  - intros [= <-]. exists [], v, d. repeat split; [exact E|constructor].
  - intros Hf. destruct (IH Hf) as (before & info & after & -> & Hl & Hall).
    exists ((k, v) :: before), info, after. repeat split; [exact Hl|].
    constructor; [exact Hne|exact Hall].
Qed.

Lemma match_data_center_none input_dc data_centers :
  match_data_center lower input_dc data_centers = None ->
  Forall (fun entry => lower (fst entry) <> lower input_dc) data_centers.
Proof.
  unfold match_data_center. induction data_centers as [|[k v] d IH]; [constructor|].
  cbn [List.find fst]. destruct (String.eqb_spec (lower k) (lower input_dc)) as [E|Hne];
    [discriminate|].
  intros Hf. constructor; [exact Hne|exact (IH Hf)].
Qed.
End ChoiceFacts.

(** ** Counting and extraction *)

Lemma stats_count (parse_latency : string -> option Z) records dc :
  match dict_get dc (data_center_stats parse_latency records) with
  | None => List.filter (counted_record dc) (tail records) = []
  | Some info =>
      DataCenterInfo.ip_count info =
      Z.of_nat (length (List.filter (counted_record dc) (tail records))) /\
      List.filter (counted_record dc) (tail records) <> []
  end.
Proof.
  unfold data_center_stats. rewrite stats_get. cbn [dict_get].
  destruct (List.filter (counted_record dc) (tail records)) as [|first rest];
    [reflexivity|].
  cbn [fold_left entry_step].
  destruct (entry_fold parse_latency dc rest
              (DataCenterInfo.mk dc (record_city first) 1
                                 (record_latency parse_latency first)))
    as (info & -> & _ & _ & Hn & _).
  cbn [DataCenterInfo.ip_count] in Hn. split; [cbn [length]; lia|discriminate].
Qed.

Lemma counted_le_extracted dc rows :
  (length (List.filter (counted_record dc) rows) <= length (omap (ip_of dc) rows))%nat.
Proof.
  induction rows as [|record rows IH]; [reflexivity|].
  cbn [List.filter omap list_omap].
  change (list_omap _ _ (ip_of dc) rows) with (omap (ip_of dc) rows).
  destruct record as [|f0 [|d [|f2 [|c [|f4 rest]]]]];
    cbn [counted_record ip_of]; try (destruct (String.eqb d dc)); cbn [length]; lia.
Qed.

Lemma counted_eq_extracted dc rows :
  Forall (fun record => (5 <= length record)%nat) rows ->
  length (List.filter (counted_record dc) rows) = length (omap (ip_of dc) rows).
Proof.
  induction 1 as [|record rows Hr _ IH]; [reflexivity|].
  cbn [List.filter omap list_omap].
  change (list_omap _ _ (ip_of dc) rows) with (omap (ip_of dc) rows).
  destruct record as [|f0 [|d [|f2 [|c [|f4 rest]]]]]; cbn [length] in Hr; try lia.
  cbn [counted_record ip_of]. destruct (String.eqb d dc); cbn [length]; lia.
Qed.

Lemma extract_ips_named dc records :
  dc <> EmptyString -> extract_ips dc records = omap (ip_of dc) (tail records).
Proof.
  intros Hne. unfold extract_ips.
  destruct (String.eqb_spec dc EmptyString); [contradiction|reflexivity].
Qed.

Lemma extract_ips_sublist dc rows :
  sublist (omap (ip_of dc) rows)
          (omap (fun record => match record with
                               | ip :: _ => Some ip
                               | [] => None
                               end) rows).
Proof.
  induction rows as [|record rows IH]; [constructor|].
  cbn [omap list_omap].
  destruct record as [|ip [|d rest]]; cbn [ip_of].
  - exact IH.
  - apply sublist_cons, IH.
  - destruct (String.eqb d dc); [apply sublist_skip|apply sublist_cons]; exact IH.
Qed.

Lemma filter_scan_rows dc results :
  List.filter (counted_record dc) (map scan_row results) =
  map scan_row (List.filter (fun r => String.eqb (ScanResult.data_center r) dc) results).
Proof.
  induction results as [|r results IH]; [reflexivity|].
  cbn [map List.filter scan_row counted_record].
  destruct (String.eqb (ScanResult.data_center r) dc); cbn [map]; congruence.
Qed.

Lemma extract_scan_rows dc results :
  omap (ip_of dc) (map scan_row results) =
  map ScanResult.ip
      (List.filter (fun r => String.eqb (ScanResult.data_center r) dc) results).
Proof.
  induction results as [|r results IH]; [reflexivity|].
  cbn [map omap list_omap List.filter scan_row ip_of].
  change (list_omap _ _ (ip_of dc) (map scan_row results))
    with (omap (ip_of dc) (map scan_row results)).
  destruct (String.eqb (ScanResult.data_center r) dc); cbn [map]; congruence.
Qed.

(** ** [select_data_center_from_csv]: what it computes *)

(** The statistics have an entry for [dc] exactly when some record after
    the header has at least five fields and [dc] as its second.  The
    entry then carries the city of the first such record and the number
    of such records; its minimum latency is the latency of one of them,
    and it is the least of them when they are all positive. *)
Theorem data_center_entry (parse_latency : string -> option Z)
    (records : list (list string)) (dc : string) :
  match dict_get dc (data_center_stats parse_latency records) with
  | None => List.filter (counted_record dc) (tail records) = []
  | Some info =>
      exists first rest,
        List.filter (counted_record dc) (tail records) = first :: rest /\
        DataCenterInfo.data_center info = dc /\
        DataCenterInfo.city info = record_city first /\
        DataCenterInfo.ip_count info = Z.of_nat (length (first :: rest)) /\
        In (DataCenterInfo.min_latency info)
           (map (record_latency parse_latency) (first :: rest)) /\
        (Forall (fun r => 0 < record_latency parse_latency r) (first :: rest) ->
         Forall (fun r => DataCenterInfo.min_latency info <=
                          record_latency parse_latency r) (first :: rest))
  end.
Proof.
  unfold data_center_stats. rewrite stats_get. cbn [dict_get].
  destruct (List.filter (counted_record dc) (tail records)) as [|first rest];
    [reflexivity|].
  cbn [fold_left entry_step].
  destruct (entry_fold parse_latency dc rest
              (DataCenterInfo.mk dc (record_city first) 1
                                 (record_latency parse_latency first)))
    as (info & -> & Hd & Hc & Hn & Hm & Hmin).
  cbn [DataCenterInfo.data_center DataCenterInfo.city DataCenterInfo.ip_count
       DataCenterInfo.min_latency] in Hd, Hc, Hn, Hm, Hmin.
  exists first, rest. split; [reflexivity|]. split; [exact Hd|]. split; [exact Hc|].
  split; [cbn [length]; lia|]. split.
  - cbn [map In]. destruct Hm as [Hm|Hm]; [left; congruence|right; exact Hm].
  - intros Hall. apply Forall_cons in Hall as [Hf Hall].
    destruct (Hmin Hf Hall) as [Hb Hrest]. constructor; [lia|exact Hrest].
Qed.

(** The statistics list every data center once. *)
Theorem data_center_stats_keys (parse_latency : string -> option Z)
    (records : list (list string)) :
  NoDup (map fst (data_center_stats parse_latency records)) /\
  forall dc, In dc (map fst (data_center_stats parse_latency records)) <->
             exists record, In record (tail records) /\ counted_record dc record = true.
Proof.
  split; [apply stats_keys; constructor|].
  intros dc. pose proof (stats_count parse_latency records dc) as He.
  pose proof (dict_get_none dc (data_center_stats parse_latency records)) as Hn.
  destruct (dict_get dc (data_center_stats parse_latency records)) as [info|].
  - destruct He as [_ Hf].
    destruct (List.filter (counted_record dc) (tail records)) as [|first rest] eqn:E;
      [congruence|].
    split.
    + intros _. exists first.
      apply (filter_In (counted_record dc) first (tail records)).
      rewrite E. left. reflexivity.
    + intros _. destruct (in_dec String.string_dec dc
                            (map fst (data_center_stats parse_latency records)))
        as [Hi|Hni]; [exact Hi|].
      apply Hn in Hni. discriminate.
  - split.
    + intros Hi. exfalso. apply (proj1 Hn); [reflexivity|exact Hi].
    + intros (record & Hr). apply (filter_In (counted_record dc)) in Hr.
      rewrite He in Hr. destruct Hr.
Qed.

(** The data center chosen: the first input line that is empty or names
    a data center decides; an empty line selects all data centers, and a
    name selects the first listed data center equal to it up to case.
    The lines before it each named none. *)
Theorem chosen_data_center (lower : string -> string) (inputs : list string)
    (data_centers : list (string * DataCenterInfo.t)) (selected_dc : string) :
  choose_data_center lower inputs data_centers = Some selected_dc ->
  exists invalid input_dc rest,
    inputs = invalid ++ input_dc :: rest /\
    Forall (fun line => line <> EmptyString /\
                        Forall (fun entry => lower (fst entry) <> lower line)
                               data_centers) invalid /\
    ((input_dc = EmptyString /\ selected_dc = EmptyString) \/
     (input_dc <> EmptyString /\
      exists before info after,
        data_centers = before ++ (selected_dc, info) :: after /\
        lower selected_dc = lower input_dc /\
        Forall (fun entry => lower (fst entry) <> lower input_dc) before)).
Proof.
  induction inputs as [|line inputs IH]; [discriminate|].
  cbn [choose_data_center].
  destruct (String.eqb_spec line EmptyString) as [->|Hne].
  - intros [= <-]. exists [], EmptyString, inputs.
    split; [reflexivity|]. split; [constructor|]. left. split; reflexivity.
  - destruct (match_data_center lower line data_centers) as [dc|] eqn:E.
    + intros [= <-]. exists [], line, inputs.
      split; [reflexivity|]. split; [constructor|]. right. split; [exact Hne|].
      apply match_data_center_some, E.
    + intros Hc. destruct (IH Hc) as (invalid & input_dc & rest & -> & Hall & Hsel).
      exists (line :: invalid), input_dc, rest.
      split; [reflexivity|]. split; [|exact Hsel].
      constructor; [|exact Hall]. split; [exact Hne|].
      apply match_data_center_none, E.
Qed.

Lemma chosen_data_center_witness :
  exists invalid input_dc rest,
    ["SJC"; "lax"; "NRT"] = invalid ++ input_dc :: rest /\
    Forall (fun line => line <> EmptyString /\
                        Forall (fun entry => up_case (fst entry) <> up_case line)
                               demo_data_centers) invalid /\
    ((input_dc = EmptyString /\ "LAX" = EmptyString) \/
     (input_dc <> EmptyString /\
      exists before info after,
        demo_data_centers = before ++ ("LAX", info) :: after /\
        up_case "LAX" = up_case input_dc /\
        Forall (fun entry => up_case (fst entry) <> up_case input_dc) before)).
Proof.
  apply (chosen_data_center up_case ["SJC"; "lax"; "NRT"] demo_data_centers "LAX").
  vm_compute. reflexivity.
Defined.

(** For a data center of the statistics, the addresses extracted are
    among those extracted for all data centers, in the same order, and
    there are at least as many as the statistics count: the count skips
    records of fewer than five fields, the extraction only those of fewer
    than two.  When every record has five fields the two agree. *)
Theorem extracted_ips_of_data_center (parse_latency : string -> option Z)
    (records : list (list string)) (dc : string) (info : DataCenterInfo.t) :
  dc <> EmptyString ->
  dict_get dc (data_center_stats parse_latency records) = Some info ->
  sublist (extract_ips dc records) (extract_ips EmptyString records) /\
  1 <= DataCenterInfo.ip_count info <= Z.of_nat (length (extract_ips dc records)) /\
  (Forall (fun record => (5 <= length record)%nat) (tail records) ->
   DataCenterInfo.ip_count info = Z.of_nat (length (extract_ips dc records))).
Proof.
  intros Hne Hget. rewrite (extract_ips_named dc records Hne).
  pose proof (stats_count parse_latency records dc) as Hc. rewrite Hget in Hc.
  destruct Hc as [Hc Hnil].
  pose proof (counted_le_extracted dc (tail records)) as Hle.
  split; [apply extract_ips_sublist|]. split.
  - destruct (List.filter (counted_record dc) (tail records)); [congruence|].
    cbn [length] in *. lia.
  - intros Hall. rewrite Hc, (counted_eq_extracted dc (tail records) Hall). reflexivity.
Qed.

Lemma extracted_ips_of_data_center_witness :
  sublist (extract_ips "LAX" demo_records) (extract_ips EmptyString demo_records) /\
  1 <= 2 <= Z.of_nat (length (extract_ips "LAX" demo_records)) /\
  (Forall (fun record => (5 <= length record)%nat) (tail demo_records) ->
   2 = Z.of_nat (length (extract_ips "LAX" demo_records))).
Proof.
  apply (extracted_ips_of_data_center (fun _ => Some 7) demo_records "LAX"
           (DataCenterInfo.mk "LAX" "Los Angeles" 2 7)).
  - discriminate.
  - vm_compute. reflexivity.
Defined.

(** Reading back the file [run_ip_scan] writes: extracting all data
    centers gives the addresses of the results in the order of the rows,
    extracting one gives those of its results, and the statistics count
    exactly its results. *)
Theorem select_after_scan (parse_latency : string -> option Z)
    (results : list ScanResult.t) (dc : string) :
  let records := scan_header :: map scan_row results in
  let of_dc := List.filter (fun r => String.eqb (ScanResult.data_center r) dc) results in
  extract_ips EmptyString records = map ScanResult.ip results /\
  (dc <> EmptyString -> extract_ips dc records = map ScanResult.ip of_dc) /\
  match dict_get dc (data_center_stats parse_latency records) with
  | None => of_dc = []
  | Some info => DataCenterInfo.ip_count info = Z.of_nat (length of_dc) /\ of_dc <> []
  end.
Proof.
  intros records of_dc. split; [|split].
  - unfold extract_ips. cbn [String.eqb tail records].
    induction results as [|r results IH]; [reflexivity|].
    cbn [map omap list_omap scan_row ScanResult.ip]. f_equal. exact IH.
  - intros Hne. rewrite (extract_ips_named dc records Hne). apply extract_scan_rows.
  - pose proof (stats_count parse_latency records dc) as Hc.
    cbn [tail records] in Hc. rewrite filter_scan_rows in Hc. fold of_dc in Hc.
    destruct (dict_get dc (data_center_stats parse_latency records)) as [info|].
    + destruct Hc as [Hc Hnil]. rewrite length_map in Hc. split; [exact Hc|].
      intros E. apply Hnil. rewrite E. reflexivity.
    + destruct of_dc; [reflexivity|discriminate].
Qed.

(** A returned data center that is not the empty name comes from the
    file's statistics, and the address list returned with it is not
    empty. *)
Theorem selected_data_center_has_addresses (parse_latency : string -> option Z)
    (lower : string -> string) (file : result (list (list string)))
    (inputs : list string) (selected_dc : string) (ip_list : list string) :
  select_data_center_from_csv parse_latency lower file inputs =
    Returned selected_dc ip_list ->
  selected_dc <> EmptyString ->
  exists records,
    file = Ok records /\
    In selected_dc (map fst (data_center_stats parse_latency records)) /\
    ip_list = extract_ips selected_dc records /\
    ip_list <> [].
Proof.
  unfold select_data_center_from_csv. destruct file as [records|e].
  - destruct (choose_data_center lower inputs (data_center_stats parse_latency records))
      as [dc|] eqn:E; [|discriminate].
    intros [= <- <-] Hne. exists records. split; [reflexivity|].
    assert (Hin : In dc (map fst (data_center_stats parse_latency records))).
    { clear -E Hne. induction inputs as [|line inputs IH]; [discriminate|].
      cbn [choose_data_center] in E.
      destruct (String.eqb line EmptyString); [congruence|].
      destruct (match_data_center lower line (data_center_stats parse_latency records))
        as [dc'|] eqn:Em; [|exact (IH E)].
      injection E as ->.
      apply match_data_center_some in Em as (before & info & after & -> & _).
      rewrite map_app. apply in_or_app. right. left. reflexivity. }
    split; [exact Hin|]. split; [reflexivity|].
    pose proof (stats_count parse_latency records dc) as Hc.
    pose proof (dict_get_none dc (data_center_stats parse_latency records)) as Hn.
    destruct (dict_get dc (data_center_stats parse_latency records)) as [info|].
    + destruct Hc as [_ Hnil]. rewrite (extract_ips_named dc records Hne).
      pose proof (counted_le_extracted dc (tail records)) as Hle.
      intros Hx. rewrite Hx in Hle.
      destruct (List.filter (counted_record dc) (tail records)); [congruence|].
      cbn [length] in Hle. lia.
    + exfalso. apply (proj1 Hn); [reflexivity|exact Hin].
  - intros [= <- <-] Hne. congruence.
Qed.

Lemma selected_data_center_has_addresses_witness :
  exists records,
    Ok demo_records = Ok records /\
    In "LAX" (map fst (data_center_stats (fun _ => Some 7) records)) /\
    ["192.0.2.2"; "192.0.2.3"] = extract_ips "LAX" records /\
    ["192.0.2.2"; "192.0.2.3"] <> [].
Proof.
  apply (selected_data_center_has_addresses (fun _ => Some 7) up_case
           (Ok demo_records) ["sjc"; "lax"] "LAX" ["192.0.2.2"; "192.0.2.3"]).
  - vm_compute. reflexivity.
  - discriminate.
Defined.

(** ** LatencyTester: more on [test_ip] *)

Lemma successes_not_accepted delay attempts :
  settimeout delay <> Ok tt -> successes delay attempts = [].
Proof.
  intros Hd. apply successes_none_counted. intros j _.
  destruct (counted delay (attempts j)) as [l|] eqn:Hc; [|reflexivity].
  apply counted_spec in Hc as (_ & Hs & _). contradiction.
Qed.

Lemma outcome_no_success ip delay attempts :
  successes delay attempts = [] -> outcome ip (run_trials delay attempts) = None.
Proof.
  intros Hs. rewrite run_trials_successes, Hs. reflexivity.
Qed.

Lemma outcome_some_success ip delay attempts :
  outcome ip (run_trials delay attempts) = None -> successes delay attempts = [].
Proof.
  rewrite run_trials_successes. pose proof (length_successes delay attempts) as Hl.
  destruct (successes delay attempts) as [|l lat]; [reflexivity|].
  intros Ho. exfalso. unfold outcome in Ho.
  destruct (summarize_some ip (tally_after tally0 (l :: lat))) as (x & Hs & _).
  - cbn [tally_after success_count tally0]. cbn [length] in *. lia.
  - rewrite Hs in Ho. discriminate.
Qed.

Lemma fold_min_in lat : forall m0, In (fold_left Z.min lat m0) (m0 :: lat).
Proof.
  induction lat as [|l lat IH]; intros m0; [left; reflexivity|].
  cbn [fold_left]. destruct (IH (Z.min m0 l)) as [E|Hin].
  - rewrite <- E. destruct (Z.min_spec m0 l) as [[_ ->]|[_ ->]];
      [left; reflexivity|right; left; reflexivity].
  - right. right. exact Hin.
Qed.

Lemma fold_max_in lat : forall M0,
  In (fold_left Z.max lat M0) lat \/
  (fold_left Z.max lat M0 = M0 /\ Forall (fun l => l < M0) lat).
Proof.
  induction lat as [|l lat IH]; intros M0; [right; split; [reflexivity|constructor]|].
  cbn [fold_left]. destruct (IH (Z.max M0 l)) as [Hin|[E Hall]].
  - left. right. exact Hin.
  - destruct (Z_lt_le_dec l M0) as [Hlt|Hge].
    + right. rewrite Z.max_l in * by lia. split; [exact E|]. constructor; assumption.
    + left. left. rewrite Z.max_r in * by lia. symmetry. exact E.
Qed.

(** What [test_ip] returns for the latencies [lat] within the threshold. *)
Lemma outcome_fields ip lat r :
  (length lat <= 10)%nat ->
  outcome ip (tally_after tally0 lat) = Some r ->
  lat <> [] /\
  TestResult.ip r = ip /\
  TestResult.min_latency r = fold_left py_min lat PInf /\
  TestResult.max_latency r = fold_left Z.max lat 0 /\
  TestResult.avg_latency r = sum_Z lat / Z.of_nat (length lat) /\
  PyFloat.to_int (PyFloat.mul (TestResult.loss_rate r) (PyFloat.const 100)) =
    Ok (10 * (10 - Z.of_nat (length lat))).
Proof.
  intros Hlen Ho. unfold outcome in Ho.
  destruct lat as [|l lat].
  { rewrite summarize_none in Ho by (simpl; lia). discriminate. }
  split; [discriminate|].
  assert (Hsc : success_count (tally_after tally0 (l :: lat)) =
                Z.of_nat (length (l :: lat))) by reflexivity.
  assert (Htl : total_latency (tally_after tally0 (l :: lat)) = sum_Z (l :: lat))
    by reflexivity.
  assert (Hmin : min_latency (tally_after tally0 (l :: lat)) =
                 fold_left py_min (l :: lat) PInf) by reflexivity.
  assert (Hmax : max_latency (tally_after tally0 (l :: lat)) =
                 fold_left Z.max (l :: lat) 0) by reflexivity.
  revert Ho Hsc Htl Hmin Hmax. generalize (tally_after tally0 (l :: lat)).
  intros st Ho Hsc Htl Hmin Hmax.
  destruct (summarize_some ip st) as (x & Hsum & _ & Hp & _).
  { rewrite Hsc. cbn [length] in *. lia. }
  rewrite Hsum in Ho. injection Ho as <-.
  cbn [TestResult.ip TestResult.min_latency TestResult.max_latency
       TestResult.avg_latency TestResult.loss_rate].
  rewrite <- Hsc, <- Htl, <- Hmin, <- Hmax. repeat split; try reflexivity. exact Hp.
Qed.

(** [run_detailed_test] raises [ValueError] when [test_threads] is not
    positive.  Otherwise, for a threshold that [settimeout] does not
    accept, one that is negative or above 9223372036854 milliseconds, the
    call raises in every trial, so no address gives a result and the
    detailed test ends without a file, whatever the network does. *)
Theorem negative_delay_gives_no_result (ip_list : list string) (delay test_threads : Z)
    (attempts : nat -> nat -> attempt) (file_error : option exn) :
  (test_threads <= 0 ->
   run_detailed_test ip_list delay test_threads attempts file_error = Raise ValueError) /\
  (delay < 0 \/ 9223372036854 < delay ->
   (forall total i ip count, 0 <= count < total ->
      test_ip total delay (attempts i) ip count = Ok (None, count + 1)) /\
   (0 < test_threads ->
    run_detailed_test ip_list delay test_threads attempts file_error = Ok NoValidIP)).
Proof.
  split.
  { intros Ht. unfold run_detailed_test, thread_pool.
    destruct (Z.leb_spec test_threads 0); [reflexivity|lia]. }
  intros Hd.
  assert (Hs : settimeout delay <> Ok tt) by (rewrite settimeout_ok_iff; lia).
  split.
  - intros total i ip count Hc. rewrite test_ip_ok by exact Hc.
    rewrite outcome_no_success by (apply successes_not_accepted; exact Hs).
    reflexivity.
  - intros Ht. unfold run_detailed_test, thread_pool.
    destruct (Z.leb_spec test_threads 0); [lia|].
    cbn [mbind result_bind]. rewrite tester_pool. cbn [mbind result_bind].
    assert (Hn : kept_from (fun i ip => outcome ip (run_trials delay (attempts i)))
                           0 ip_list = []).
    { apply kept_from_nil. intros j ip _. apply outcome_no_success.
      apply successes_not_accepted. exact Hs. }
    rewrite Hn. reflexivity.
Qed.

Lemma negative_delay_gives_no_result_witness :
  run_detailed_test ["192.0.2.1"; "192.0.2.2"] 300 0 demo_attempts None =
    Raise ValueError /\
  run_detailed_test ["192.0.2.1"; "192.0.2.2"] (-1) 50 demo_attempts None =
    Ok NoValidIP /\
  run_detailed_test ["192.0.2.1"; "192.0.2.2"] 9223372036855 50 demo_attempts None =
    Ok NoValidIP.
Proof.
  split; [|split].
  - apply (proj1 (negative_delay_gives_no_result
                    ["192.0.2.1"; "192.0.2.2"] 300 0 demo_attempts None)).
    lia.
  - apply (proj2 (negative_delay_gives_no_result
                    ["192.0.2.1"; "192.0.2.2"] (-1) 50 demo_attempts None)); lia.
  - apply (proj2 (negative_delay_gives_no_result
                    ["192.0.2.1"; "192.0.2.2"] 9223372036855 50 demo_attempts None)); lia.
Defined.

(** The minimum latency of a result is the least latency among the
    trials within the threshold, and one of them; the maximum is at least
    every such latency and one of them, unless they are all negative, in
    which case it is 0, its initial value; the average is the floor of
    their mean. *)
Theorem result_min_max (total delay : Z) (attempts : nat -> attempt)
    (ip : string) (count : Z) (r : TestResult.t) (count' : Z) :
  test_ip total delay attempts ip count = Ok (Some r, count') ->
  let lat := successes delay attempts in
  exists m,
    TestResult.ip r = ip /\
    TestResult.min_latency r = PInt m /\ In m lat /\ Forall (fun l => m <= l) lat /\
    Forall (fun l => l <= TestResult.max_latency r) lat /\
    (In (TestResult.max_latency r) lat \/
     (TestResult.max_latency r = 0 /\ Forall (fun l => l < 0) lat)) /\
    TestResult.avg_latency r = sum_Z lat / Z.of_nat (length lat).
Proof.
  intros Ht lat. unfold test_ip in Ht. apply guarded_inv in Ht.
  rewrite run_trials_successes in Ht. fold lat in Ht.
  assert (Ho : outcome ip (tally_after tally0 lat) = Some r)
    by (unfold outcome; congruence).
  destruct (outcome_fields ip lat r (length_successes delay attempts) Ho)
    as (Hne & Hip & Hmin & Hmax & Havg & _).
  destruct lat as [|l lat']; [congruence|].
  exists (fold_left Z.min lat' l).
  split; [exact Hip|]. split.
  { rewrite Hmin. cbn [fold_left py_min]. apply fold_py_min. }
  split; [apply fold_min_in|]. split.
  { destruct (fold_min_le lat' l) as [H1 H2]. constructor; [exact H1|exact H2]. }
  split.
  { rewrite Hmax. apply (fold_max_ge (l :: lat') 0). }
  split; [rewrite Hmax; apply fold_max_in|exact Havg].
Qed.

Lemma result_min_max_witness :
  exists m,
    TestResult.ip demo_result = "192.0.2.1" /\
    TestResult.min_latency demo_result = PInt m /\
    In m (successes 300 (demo_attempts 0)) /\
    Forall (fun l => m <= l) (successes 300 (demo_attempts 0)) /\
    Forall (fun l => l <= TestResult.max_latency demo_result)
           (successes 300 (demo_attempts 0)) /\
    (In (TestResult.max_latency demo_result) (successes 300 (demo_attempts 0)) \/
     (TestResult.max_latency demo_result = 0 /\
      Forall (fun l => l < 0) (successes 300 (demo_attempts 0)))) /\
    TestResult.avg_latency demo_result =
      sum_Z (successes 300 (demo_attempts 0)) /
      Z.of_nat (length (successes 300 (demo_attempts 0))).
Proof.
  apply (result_min_max 1 300 (demo_attempts 0) "192.0.2.1" 0 demo_result 1).
  vm_compute. reflexivity.
Defined.

(** The row written for a result: its address, its minimum, maximum and
    average latency in decimal, and the loss percentage, which is ten
    times the number of failed trials and is the band in which the
    Aggregator counts the result. *)
Theorem result_row (total delay : Z) (attempts : nat -> attempt)
    (ip : string) (count : Z) (r : TestResult.t) (count' : Z) :
  test_ip total delay attempts ip count = Ok (Some r, count') ->
  let failed := 10 - Z.of_nat (length (successes delay attempts)) in
  exists m,
    TestResult.min_latency r = PInt m /\
    0 <= failed <= 9 /\
    csv_row r = Ok [ip; PyStr.str m; PyStr.str (TestResult.max_latency r);
                    PyStr.str (TestResult.avg_latency r); PyStr.str (10 * failed)] /\
    bucket_of r = Ok (10 * failed).
Proof.
  intros Ht failed. unfold test_ip in Ht. apply guarded_inv in Ht.
  rewrite run_trials_successes in Ht.
  assert (Ho : outcome ip (tally_after tally0 (successes delay attempts)) = Some r)
    by (unfold outcome; congruence).
  pose proof (length_successes delay attempts) as Hlen.
  destruct (outcome_fields ip _ r Hlen Ho) as (Hne & Hip & Hmin & _ & _ & Hp).
  fold failed in Hp.
  assert (Hf : 0 <= failed <= 9).
  { subst failed. destruct (successes delay attempts); [congruence|].
    cbn [length] in *. lia. }
  destruct (successes delay attempts) as [|l lat] eqn:E; [congruence|].
  exists (fold_left Z.min lat l).
  assert (Hm : TestResult.min_latency r = PInt (fold_left Z.min lat l)).
  { rewrite Hmin. cbn [fold_left py_min]. apply fold_py_min. }
  split; [exact Hm|]. split; [exact Hf|]. split.
  - unfold csv_row. rewrite Hp. cbn [mbind result_bind]. rewrite Hm, Hip. reflexivity.
  - unfold bucket_of. rewrite Hp. cbn [mbind result_bind]. f_equal.
    rewrite (Z.mul_comm 10 failed), Z.div_mul by lia. reflexivity.
Qed.

Lemma result_row_witness :
  exists m,
    TestResult.min_latency demo_result = PInt m /\
    0 <= 10 - Z.of_nat (length (successes 300 (demo_attempts 0))) <= 9 /\
    csv_row demo_result =
      Ok ["192.0.2.1"; PyStr.str m; PyStr.str (TestResult.max_latency demo_result);
          PyStr.str (TestResult.avg_latency demo_result);
          PyStr.str (10 * (10 - Z.of_nat (length (successes 300 (demo_attempts 0)))))] /\
    bucket_of demo_result =
      Ok (10 * (10 - Z.of_nat (length (successes 300 (demo_attempts 0))))).
Proof.
  apply (result_row 1 300 (demo_attempts 0) "192.0.2.1" 0 demo_result 1).
  vm_compute. reflexivity.
Defined.

(** ** [run_detailed_test] as a whole *)

Lemma length_kept_from_le {A : Type} (f : nat -> string -> option A) ip_list : forall i,
  (length (kept_from f i ip_list) <= length ip_list)%nat.
Proof.
  induction ip_list as [|ip rest IH]; intros i; [reflexivity|].
  cbn [kept_from]. specialize (IH (S i)).
  destruct (f i ip); cbn [length]; lia.
Qed.

Lemma mapM_result_inv {A B : Type} (f : A -> result B) l : forall ys,
  mapM_result f l = Ok ys -> Forall2 (fun x y => f x = Ok y) l ys.
Proof.
  induction l as [|x l IH]; intros ys.
  - intros [= <-]. constructor.
  - cbn [mapM_result]. destruct (f x) as [y|e] eqn:E; cbn [mbind result_bind];
      [|discriminate].
    destruct (mapM_result f l) as [ys'|e]; cbn [mbind result_bind]; [|discriminate].
    intros [= <-]. constructor; [exact E|]. apply IH. reflexivity.
Qed.

(** What holds of every result the pool keeps, for latencies that are not
    negative. *)
Lemma kept_result_facts ip_list delay (attempts : nat -> nat -> attempt) r :
  (forall i j l, attempts i j = Connected l -> 0 <= l) ->
  r ∈ kept_from (fun i ip => outcome ip (run_trials delay (attempts i))) 0 ip_list ->
  (exists b, bucket_of r = Ok b /\ 0 <= b <= 90) /\
  bounded_min r /\
  exists row, csv_row r = Ok row.
Proof.
  intros Hpos Hr. apply elem_of_kept_from in Hr as (i & ip & _ & Ho).
  cbn [Nat.add] in Ho. rewrite run_trials_successes in Ho.
  pose proof (length_successes delay (attempts i)) as Hlen.
  destruct (outcome_fields ip _ r Hlen Ho) as (Hne & _ & Hmin & _ & _ & Hp).
  destruct (successes delay (attempts i)) as [|l lat] eqn:E; [congruence|].
  split; [|split].
  - exists (10 * (10 - Z.of_nat (length (l :: lat)))). split.
    + unfold bucket_of. rewrite Hp. cbn [mbind result_bind]. f_equal.
      rewrite (Z.mul_comm 10), Z.div_mul by lia. reflexivity.
    + cbn [length] in *. lia.
  - exists (fold_left Z.min lat l). split.
    + rewrite Hmin. cbn [fold_left py_min]. apply fold_py_min.
    + pose proof (fold_min_in lat l) as Hin.
      assert (Hs : fold_left Z.min lat l ∈ successes delay (attempts i))
        by (rewrite E; apply list_elem_of_In; exact Hin).
      apply elem_of_successes in Hs as (j & _ & Ha & Hacc & Hle).
      apply settimeout_ok_iff in Hacc.
      specialize (Hpos i j _ Ha). rewrite Z.abs_eq by exact Hpos.
      assert (9223372036854 < 2 ^ 1000) by (vm_compute; reflexivity). lia.
  - unfold csv_row. rewrite Hp. cbn [mbind result_bind]. eauto.
Qed.

(** [run_detailed_test] raises [ValueError] when [test_threads] is not
    positive.  Otherwise, with latencies that are not negative, it never
    raises.  It ends early exactly when no address has a counted trial;
    after a failed write it stops; otherwise it writes one row per result
    and the histogram it prints accounts for every address of the list:
    the eleven counts sum to the length of the list. *)
Theorem detailed_test_accounts_for_every_address (ip_list : list string)
    (delay test_threads : Z) (attempts : nat -> nat -> attempt)
    (file_error : option exn) :
  (forall i j l, attempts i j = Connected l -> 0 <= l) ->
  (test_threads <= 0 ->
   run_detailed_test ip_list delay test_threads attempts file_error = Raise ValueError) /\
  (0 < test_threads ->
   (run_detailed_test ip_list delay test_threads attempts file_error = Ok NoValidIP <->
    forall i ip, ip_list !! i = Some ip -> successes delay (attempts i) = []) /\
   exists o,
     run_detailed_test ip_list delay test_threads attempts file_error = Ok o /\
     match o with
     | NoValidIP =>
         forall i ip, ip_list !! i = Some ip -> successes delay (attempts i) = []
     | WriteFailed e =>
         file_error = Some e /\
         exists i ip, ip_list !! i = Some ip /\ successes delay (attempts i) <> []
     | Analyzed rows bands =>
         file_error = None /\
         (exists i ip, ip_list !! i = Some ip /\ successes delay (attempts i) <> []) /\
         length rows =
           length (kept_from (fun i ip => outcome ip (run_trials delay (attempts i)))
                             0 ip_list) /\
         map bucket bands = buckets /\
         sum_Z (map count bands) = Z.of_nat (length ip_list)
     end).
Proof.
  intros Hpos. split.
  { intros Ht. unfold run_detailed_test, thread_pool.
    destruct (Z.leb_spec test_threads 0); [reflexivity|lia]. }
  intros Ht.
  assert (Hmain : exists o,
     run_detailed_test ip_list delay test_threads attempts file_error = Ok o /\
     match o with
     | NoValidIP =>
         forall i ip, ip_list !! i = Some ip -> successes delay (attempts i) = []
     | WriteFailed e =>
         file_error = Some e /\
         exists i ip, ip_list !! i = Some ip /\ successes delay (attempts i) <> []
     | Analyzed rows bands =>
         file_error = None /\
         (exists i ip, ip_list !! i = Some ip /\ successes delay (attempts i) <> []) /\
         length rows =
           length (kept_from (fun i ip => outcome ip (run_trials delay (attempts i)))
                             0 ip_list) /\
         map bucket bands = buckets /\
         sum_Z (map count bands) = Z.of_nat (length ip_list)
     end).
  { unfold run_detailed_test, thread_pool.
    destruct (Z.leb_spec test_threads 0); [lia|].
    cbn [mbind result_bind]. rewrite tester_pool.
    cbn [mbind result_bind].
    pose proof (kept_result_facts ip_list delay attempts) as Hfacts.
    pose proof (kept_from_nil (fun i ip => outcome ip (run_trials delay (attempts i)))
                  ip_list 0) as Hnil.
    pose proof (length_kept_from_le
                  (fun i ip => outcome ip (run_trials delay (attempts i))) ip_list 0) as Hlen.
    assert (Hsome : forall r,
              r ∈ kept_from (fun i ip => outcome ip (run_trials delay (attempts i))) 0 ip_list ->
              exists i ip, ip_list !! i = Some ip /\ successes delay (attempts i) <> []).
    { intros r Hr. apply elem_of_kept_from in Hr as (i & ip & Hi & Ho).
      cbn [Nat.add] in Ho. exists i, ip. split; [exact Hi|].
      intros Hs. rewrite (outcome_no_success ip _ _ Hs) in Ho. discriminate. }
    revert Hfacts Hnil Hlen Hsome.
    generalize (kept_from (fun i ip => outcome ip (run_trials delay (attempts i))) 0 ip_list).
    intros kept Hfacts Hnil Hlen Hsome.
    destruct kept as [|r kept].
    { eexists. split; [reflexivity|]. intros i ip Hi.
      apply (outcome_some_success ip). apply (proj1 Hnil eq_refl i ip Hi). }
    specialize (Hsome r ltac:(constructor)).
    destruct file_error as [e|]; [eexists; split; [reflexivity|split; [reflexivity|exact Hsome]]|].
    set (sorted := sort_by key_ltb (r :: kept)).
    assert (Hperm : Permutation sorted (r :: kept)) by apply sort_by_perm.
    assert (Hall : forall x, In x sorted ->
              (exists b, bucket_of x = Ok b /\ 0 <= b <= 90) /\ bounded_min x /\
              exists row, csv_row x = Ok row).
    { intros x Hx. apply Hfacts; [exact Hpos|].
      apply list_elem_of_In. apply (Permutation_in x Hperm Hx). }
    destruct (mapM_result_Forall2 csv_row (fun _ _ => True) sorted) as (rows & Hrows & HF).
    { apply List.Forall_forall. intros x Hx. destruct (Hall x Hx) as (_ & _ & row & Hrow).
      eauto. }
    rewrite Hrows.
    assert (Hb : Forall (fun res => exists b, bucket_of res = Ok b /\ 0 <= b <= 90) sorted).
    { apply List.Forall_forall. intros x Hx. apply (Hall x Hx). }
    assert (Hm : Forall bounded_min sorted).
    { apply List.Forall_forall. intros x Hx. apply (Hall x Hx). }
    assert (Hls : length sorted = length (r :: kept)) by apply Permutation_length, Hperm.
    destruct (analyze_results_spec sorted (Z.of_nat (length ip_list)))
      as (bands & Ha & Hmap); [cbn [length] in *; lia|lia| |exact Hm|].
    { apply Forall_weaken_bucket, Hb. }
    rewrite Ha. cbn [mbind result_bind]. eexists. split; [reflexivity|].
    split; [reflexivity|]. split; [exact Hsome|]. split.
    { rewrite <- Hls. symmetry. eapply Forall2_length. exact HF. }
    assert (Hpair : forall (l : list band),
              map bucket l = map fst (map (fun band => (bucket band, count band)) l) /\
              map count l = map snd (map (fun band => (bucket band, count band)) l)).
    { intros l. rewrite !map_map. split; reflexivity. }
    destruct (Hpair bands) as [-> ->]. rewrite Hmap, !map_map. cbn [fst snd]. split.
    - apply map_id.
    - apply sum_band_counts, Hb. }
  split; [|exact Hmain].
  destruct Hmain as (o & Hrun & Ho). rewrite Hrun. split.
  - intros [= ->]. exact Ho.
  - intros Hall. destruct o as [|e|rows bands]; [reflexivity| |]; exfalso.
    + destruct Ho as (_ & i & ip & Hi & Hne). apply Hne, (Hall i ip Hi).
    + destruct Ho as (_ & (i & ip & Hi & Hne) & _). apply Hne, (Hall i ip Hi).
Qed.

Lemma demo_attempts_nonneg i j l : demo_attempts i j = Connected l -> 0 <= l.
Proof.
  unfold demo_attempts.
  destruct i as [|[|i]]; [destruct (Nat.even j)| |]; intros [= <-]; lia.
Qed.

Lemma detailed_test_accounts_for_every_address_witness :
  run_detailed_test ["192.0.2.1"; "192.0.2.2"; "192.0.2.3"] 300 0 demo_attempts None =
    Raise ValueError /\
  (run_detailed_test ["192.0.2.1"; "192.0.2.2"; "192.0.2.3"] 300 50 demo_attempts None =
     Ok NoValidIP <->
   forall i ip, ["192.0.2.1"; "192.0.2.2"; "192.0.2.3"] !! i = Some ip ->
                successes 300 (demo_attempts i) = []) /\
  exists o,
    run_detailed_test ["192.0.2.1"; "192.0.2.2"; "192.0.2.3"] 300 50 demo_attempts None =
      Ok o /\
    match o with
    | NoValidIP =>
        forall i ip, ["192.0.2.1"; "192.0.2.2"; "192.0.2.3"] !! i = Some ip ->
                     successes 300 (demo_attempts i) = []
    | WriteFailed e =>
        @None exn = Some e /\
        exists i ip, ["192.0.2.1"; "192.0.2.2"; "192.0.2.3"] !! i = Some ip /\
                     successes 300 (demo_attempts i) <> []
    | Analyzed rows bands =>
        @None exn = None /\
        (exists i ip, ["192.0.2.1"; "192.0.2.2"; "192.0.2.3"] !! i = Some ip /\
                      successes 300 (demo_attempts i) <> []) /\
        length rows =
          length (kept_from (fun i ip => outcome ip (run_trials 300 (demo_attempts i)))
                            0 ["192.0.2.1"; "192.0.2.2"; "192.0.2.3"]) /\
        map bucket bands = buckets /\
        sum_Z (map count bands) =
          Z.of_nat (length ["192.0.2.1"; "192.0.2.2"; "192.0.2.3"])
    end.
Proof.
  split.
  - apply (proj1 (detailed_test_accounts_for_every_address
                    ["192.0.2.1"; "192.0.2.2"; "192.0.2.3"] 300 0 demo_attempts None
                    demo_attempts_nonneg)).
    lia.
  - apply (proj2 (detailed_test_accounts_for_every_address
                    ["192.0.2.1"; "192.0.2.2"; "192.0.2.3"] 300 50 demo_attempts None
                    demo_attempts_nonneg)).
    lia.
Defined.

(** ** Aggregator: the average column *)

Lemma render_band_avg groups unsuccessful_count total_ips b band :
  render_band groups unsuccessful_count total_ips b = Ok band ->
  bucket band = b /\
  (b = 100 -> avg_lat band = None /\ count band = unsuccessful_count) /\
  (b <> 100 ->
   count band = Z.of_nat (length (default [] (groups !! b))) /\
   (avg_lat band = None <-> count band = 0) /\
   forall x, avg_lat band = Some x ->
     pynum_truediv (sum_min_latency (default [] (groups !! b))) (count band) = Ok x).
Proof.
  unfold render_band.
  assert (Hrest : forall c avg,
    (ratio ← PyFloat.int_truediv c total_ips;
     let proportion := PyFloat.mul ratio (PyFloat.const 100) in
     scaled ← PyFloat.truediv proportion (PyFloat.const 100);
     bar_length ← PyFloat.to_int (PyFloat.mul scaled (PyFloat.const max_bar_width));
     Ok (mk_band b c avg proportion bar_length)) = Ok band ->
    bucket band = b /\ count band = c /\ avg_lat band = avg).
  { intros c avg. destruct (PyFloat.int_truediv c total_ips) as [ratio|]; cbn [mbind result_bind];
      [|discriminate].
    destruct (PyFloat.truediv _ _) as [scaled|]; cbn [mbind result_bind]; [|discriminate].
    destruct (PyFloat.to_int _) as [n|]; cbn [mbind result_bind]; [|discriminate].
    intros [= <-]. repeat split. }
  destruct (Z.eqb_spec b 100) as [Hb|Hb].
  - cbn [mbind result_bind]. intros H. apply Hrest in H as (H1 & H2 & H3).
    split; [exact H1|]. split; [auto|]. intros Hne. contradiction.
  - set (members := default [] (groups !! b)).
    destruct (Z.gtb_spec (Z.of_nat (length members)) 0) as [Hpos|Hz].
    + destruct (pynum_truediv (sum_min_latency members) (Z.of_nat (length members)))
        as [x|] eqn:E; cbn [mbind result_bind]; [|discriminate].
      intros H. apply Hrest in H as (H1 & H2 & H3).
      split; [exact H1|]. split; [intros; contradiction|]. intros _.
      split; [exact H2|]. split.
      * rewrite H3, H2. split; [discriminate|lia].
      * intros y Hy. rewrite H3 in Hy. injection Hy as <-. rewrite H2. exact E.
    + cbn [mbind result_bind]. intros H. apply Hrest in H as (H1 & H2 & H3).
      split; [exact H1|]. split; [intros; contradiction|]. intros _.
      split; [exact H2|]. split.
      * rewrite H3, H2. split; [lia|reflexivity].
      * intros y Hy. rewrite H3 in Hy. discriminate.
Qed.

(** In the histogram the 100 band never has an average latency, and a
    band below 100 has one exactly when it holds a result: it is then the
    sum of the minimum latencies of its results divided by their number. *)
Theorem band_average_latency (results : list TestResult.t) (total_ips : Z) :
  0 < total_ips ->
  Z.of_nat (length results) <= total_ips ->
  Forall (fun res => exists b, bucket_of res = Ok b) results ->
  Forall bounded_min results ->
  exists bands,
    analyze_results results total_ips = Ok bands /\
    forall band, In band bands ->
      In (bucket band) buckets /\
      (bucket band = 100 -> avg_lat band = None) /\
      (bucket band <> 100 ->
       (avg_lat band = None <-> count band = 0) /\
       forall x, avg_lat band = Some x ->
         pynum_truediv
           (sum_min_latency (List.filter (bucket_is (bucket band)) results))
           (Z.of_nat (length (List.filter (bucket_is (bucket band)) results))) = Ok x).
Proof.
  intros Ht Hlen Hb Hmin.
  destruct (analyze_results_spec results total_ips Ht Hlen Hb Hmin) as (bands & Ha & _).
  exists bands. split; [exact Ha|].
  unfold analyze_results in Ha.
  destruct (group_results_spec results ∅ Hb) as (groups & Hg & Hl).
  rewrite Hg in Ha. cbn [mbind result_bind] in Ha.
  apply mapM_result_inv in Ha.
  intros band Hband.
  assert (Hex : exists b, In b buckets /\
            render_band groups (total_ips - Z.of_nat (length results)) total_ips b =
              Ok band).
  { clear -Ha Hband. induction Ha as [|b band' bs bands' Hr _ IH]; [destruct Hband|].
    destruct Hband as [->|Hband].
    - exists b. split; [left; reflexivity|exact Hr].
    - destruct (IH Hband) as (b0 & Hin & Hr0). exists b0. split; [right; exact Hin|exact Hr0]. }
  destruct Hex as (b & Hin & Hr).
  apply render_band_avg in Hr as (H1 & H2 & H3).
  rewrite H1. split; [exact Hin|]. split; [intros E; apply (H2 E)|].
  intros Hne. destruct (H3 Hne) as (Hc & Hnone & Hsome).
  rewrite Hl, lookup_empty in Hc, Hsome. cbn [default app] in Hc, Hsome.
  split; [exact Hnone|].
  intros x Hx. rewrite <- Hc. apply Hsome, Hx.
Qed.

Lemma band_average_latency_witness :
  exists bands,
    analyze_results [demo_result] 2 = Ok bands /\
    forall band, In band bands ->
      In (bucket band) buckets /\
      (bucket band = 100 -> avg_lat band = None) /\
      (bucket band <> 100 ->
       (avg_lat band = None <-> count band = 0) /\
       forall x, avg_lat band = Some x ->
         pynum_truediv
           (sum_min_latency (List.filter (bucket_is (bucket band)) [demo_result]))
           (Z.of_nat (length (List.filter (bucket_is (bucket band)) [demo_result])))
         = Ok x).
Proof.
  apply (band_average_latency [demo_result] 2).
  - lia.
  - simpl. lia.
  - repeat constructor. exists 50. vm_compute. reflexivity.
  - repeat constructor. exists 40. split; [reflexivity|vm_compute; reflexivity].
Defined.

(** ** The location directory *)

Lemma fold_location_map code locations : forall m : gmap string Location.t,
  fold_left (fun m loc => <[Location.iata loc := loc]> m) locations m !! code =
  match last (List.filter (fun loc => String.eqb (Location.iata loc) code) locations) with
  | Some loc => Some loc
  | None => m !! code
  end.
Proof.
  induction locations as [|x locations IH]; intros m; [reflexivity|].
  cbn [fold_left List.filter]. rewrite IH.
  destruct (String.eqb_spec (Location.iata x) code) as [E|Hne].
  - rewrite last_cons.
    destruct (last (List.filter _ locations)); [reflexivity|].
    rewrite E. apply lookup_insert_eq.
  - destruct (last (List.filter _ locations)); [reflexivity|].
    apply lookup_insert_ne. exact Hne.
Qed.

(** In the directory a code stands for the last location of the list
    that carries it, and for none when no location does. *)
Theorem location_map_last_wins (locations : list Location.t) (code : string) :
  build_location_map locations !! code =
    last (List.filter (fun loc => String.eqb (Location.iata loc) code) locations) /\
  (build_location_map locations !! code = None <->
   Forall (fun loc => Location.iata loc <> code) locations).
Proof.
  unfold build_location_map.
  assert (Hl : fold_left (fun m loc => <[Location.iata loc := loc]> m) locations
                 (∅ : gmap string Location.t) !! code =
               last (List.filter (fun loc => String.eqb (Location.iata loc) code) locations)).
  { rewrite fold_location_map, lookup_empty.
    destruct (last _); reflexivity. }
  split; [exact Hl|]. rewrite Hl, last_None. split.
  - intros Hnil. apply List.Forall_forall. intros loc Hin E.
    assert (Hf : In loc (List.filter (fun loc => String.eqb (Location.iata loc) code)
                                     locations)).
    { apply filter_In. split; [exact Hin|]. apply String.eqb_eq, E. }
    rewrite Hnil in Hf. destruct Hf.
  - intros Hall.
    destruct (List.filter (fun loc => String.eqb (Location.iata loc) code) locations)
      as [|loc l] eqn:E; [reflexivity|].
    assert (Hf : In loc (List.filter (fun loc => String.eqb (Location.iata loc) code)
                                     locations)) by (rewrite E; left; reflexivity).
    apply filter_In in Hf as [Hin Heq]. apply String.eqb_eq in Heq.
    rewrite List.Forall_forall in Hall. destruct (Hall loc Hin Heq).
Qed.

(** ** The response read by [scan_ip] *)

Lemma append_empty_r (s : string) : s +:+ EmptyString = s.
Proof.
  induction s as [|c s IH]; [reflexivity|].
  change (String c s +:+ EmptyString) with (String c (s +:+ EmptyString)).
  rewrite IH. reflexivity.
Qed.

Lemma append_assoc (a b c : string) : (a +:+ b) +:+ c = a +:+ (b +:+ c).
Proof.
  induction a as [|x a IH]; [reflexivity|].
  change ((String x a +:+ b) +:+ c) with (String x ((a +:+ b) +:+ c)).
  rewrite IH. reflexivity.
Qed.

Lemma concat_cons (data : string) chunks :
  String.concat EmptyString (data :: chunks) = data +:+ String.concat EmptyString chunks.
Proof. destruct chunks as [|c chunks]; [rewrite append_empty_r|]; reflexivity. Qed.

(** The loop, started with [response] already read. *)
Lemma recv_loop_spec events : forall response r,
  recv_loop events response = Ok r <->
  exists chunks rest,
    events = map Ok chunks ++ rest /\
    r = response +:+ String.concat EmptyString chunks /\
    Forall (fun data => data <> EmptyString) chunks /\
    (forall k, (1 <= k < length chunks)%nat ->
       PyStr.contains crlf_crlf
         (response +:+ String.concat EmptyString (take k chunks)) = false) /\
    ((chunks <> [] /\ PyStr.contains crlf_crlf r = true) \/
     ((chunks = [] \/ PyStr.contains crlf_crlf r = false) /\
      (rest = [] \/ exists rest', rest = Ok EmptyString :: rest'))).
Proof.
  intros response r. split.
  - revert response r. induction events as [|event events IH]; intros response r.
    + intros [= <-]. exists [], []. split; [reflexivity|].
      split; [symmetry; apply append_empty_r|].
      split; [constructor|]. split; [cbn [length]; lia|]. right. auto.
    + cbn [recv_loop]. destruct event as [data|e]; cbn [mbind result_bind]; [|discriminate].
      destruct (String.eqb_spec data EmptyString) as [->|Hne].
      * intros [= <-]. exists [], (Ok EmptyString :: events).
        split; [reflexivity|]. split; [symmetry; apply append_empty_r|].
        split; [constructor|]. split; [cbn [length]; lia|]. right. eauto.
      * destruct (PyStr.contains crlf_crlf (response +:+ data)) eqn:Ec.
        -- intros [= <-]. exists [data], events. split; [reflexivity|].
           split; [reflexivity|]. split; [repeat constructor; exact Hne|].
           split; [cbn [length]; lia|]. left. split; [discriminate|exact Ec].
        -- intros Hr. destruct (IH _ _ Hr) as (chunks & rest & -> & -> & Hall & Hpre & Hend).
           exists (data :: chunks), rest. split; [reflexivity|].
           rewrite concat_cons, <- append_assoc. split; [reflexivity|].
           split; [constructor; assumption|]. split.
           ++ intros k Hk. destruct k as [|k]; [lia|]. cbn [take].
              rewrite concat_cons, <- append_assoc.
              destruct k as [|k].
              ** rewrite take_0. cbn [String.concat]. rewrite append_empty_r. exact Ec.
              ** apply Hpre. cbn [length] in Hk. lia.
           ++ destruct Hend as [[_ Hc]|[Hc Hrest]].
              ** left. split; [discriminate|exact Hc].
              ** right. split; [|exact Hrest]. right.
                 destruct Hc as [->|Hc]; [|exact Hc].
                 cbn [String.concat]. rewrite append_empty_r. exact Ec.
  - intros (chunks & rest & -> & -> & Hall & Hpre & Hend).
    revert response Hpre Hend. induction chunks as [|data chunks IH]; intros response Hpre Hend.
    + cbn [map app String.concat]. rewrite append_empty_r.
      destruct Hend as [[Hne _]|[_ [->|(rest' & ->)]]]; [congruence|reflexivity|].
      cbn [recv_loop mbind result_bind String.eqb]. reflexivity.
    + apply Forall_cons in Hall as [Hne Hall].
      cbn [map app recv_loop mbind result_bind].
      destruct (String.eqb_spec data EmptyString) as [|_]; [contradiction|].
      rewrite concat_cons, <- append_assoc in Hend |- *.
      destruct chunks as [|data' chunks'].
      * cbn [String.concat map app] in *. rewrite append_empty_r in *.
        destruct Hend as [[_ Hc]|[[Hc|Hc] Hrest]]; [rewrite Hc; reflexivity|discriminate|].
        rewrite Hc. destruct Hrest as [->|(rest' & ->)]; reflexivity.
      * assert (Ec : PyStr.contains crlf_crlf (response +:+ data) = false).
        { specialize (Hpre 1%nat ltac:(cbn [length]; lia)).
          cbn [take] in Hpre. rewrite ?take_0 in Hpre. cbn [String.concat] in Hpre. exact Hpre. }
        rewrite Ec. apply IH; [exact Hall| |].
        -- intros k Hk. specialize (Hpre (S k) ltac:(cbn [length] in *; lia)).
           cbn [take] in Hpre. rewrite concat_cons, <- append_assoc in Hpre. exact Hpre.
        -- destruct Hend as [[_ Hc]|[[Hc|Hc] Hrest]]; [left; split; [discriminate|exact Hc]
                                                     |discriminate|].
           right. split; [right; exact Hc|exact Hrest].
Qed.

(** The response [scan_ip] reads is the concatenation of the chunks
    received up to the first one that completes the blank line of the
    header, up to an empty chunk, or up to the end of the connection,
    whichever comes first: no shorter run of chunks contains the blank
    line, and no chunk is read after the response is complete. *)
Theorem response_is_received_prefix (events : list (result string)) (r : string) :
  recv_loop events EmptyString = Ok r <->
  exists chunks rest,
    events = map Ok chunks ++ rest /\
    r = String.concat EmptyString chunks /\
    Forall (fun data => data <> EmptyString) chunks /\
    (forall k, (k < length chunks)%nat ->
       PyStr.contains crlf_crlf (String.concat EmptyString (take k chunks)) = false) /\
    ((chunks <> [] /\ PyStr.contains crlf_crlf r = true) \/
     (PyStr.contains crlf_crlf r = false /\
      (rest = [] \/ exists rest', rest = Ok EmptyString :: rest'))).
Proof.
  rewrite recv_loop_spec. change (EmptyString +:+ ?s) with s.
  split; intros (chunks & rest & H1 & H2 & H3 & H4 & H5); exists chunks, rest;
    (split; [exact H1|split; [exact H2|split; [exact H3|split]]]).
  - intros k Hk. destruct k as [|k]; [rewrite take_0; reflexivity|].
    apply (H4 (S k)). lia.
  - destruct H5 as [H5|[[->|Hc] Hrest]]; [left; exact H5| |right; auto].
    right. split; [rewrite H2; reflexivity|exact Hrest].
  - intros k Hk. apply (H4 k). lia.
  - destruct H5 as [H5|[Hc Hrest]]; [left; exact H5|right; auto].
Qed.

Lemma response_is_received_prefix_witness :
  exists chunks rest,
    [Ok "HTTP/1.1 200 OK"; Ok (crlf_crlf +:+ "colo=LAX"); Raise TimeoutError] =
      map Ok chunks ++ rest /\
    "HTTP/1.1 200 OK" +:+ crlf_crlf +:+ "colo=LAX" = String.concat EmptyString chunks /\
    Forall (fun data => data <> EmptyString) chunks /\
    (forall k, (k < length chunks)%nat ->
       PyStr.contains crlf_crlf (String.concat EmptyString (take k chunks)) = false) /\
    ((chunks <> [] /\
      PyStr.contains crlf_crlf ("HTTP/1.1 200 OK" +:+ crlf_crlf +:+ "colo=LAX") = true) \/
     (PyStr.contains crlf_crlf ("HTTP/1.1 200 OK" +:+ crlf_crlf +:+ "colo=LAX") = false /\
      (rest = [] \/ exists rest', rest = Ok EmptyString :: rest'))).
Proof.
  apply (proj1 (response_is_received_prefix
           [Ok "HTTP/1.1 200 OK"; Ok (crlf_crlf +:+ "colo=LAX"); Raise TimeoutError]
           ("HTTP/1.1 200 OK" +:+ crlf_crlf +:+ "colo=LAX"))).
  vm_compute. reflexivity.
Defined.

(** ** The results of the ProbeEngine *)

(** Every result of the pool is for a candidate of the list; its data
    center code is a non-empty run of letters [A-Z]; and its region and
    city are those of the directory's entry for the code, or both empty
    when the directory has none. *)
Theorem scan_result_invariants (decode : string -> string)
    (location_map : gmap string Location.t) (ip_list : list string)
    (exchanges : nat -> exchange) (results : list ScanResult.t) (count : Z) :
  scan_all decode location_map ip_list exchanges = Ok (results, count) ->
  count = Z.of_nat (length ip_list) /\
  (length results <= length ip_list)%nat /\
  Forall (fun r =>
            In (ScanResult.ip r) ip_list /\
            ScanResult.data_center r <> EmptyString /\
            all_chars is_upper (ScanResult.data_center r) = true /\
            match location_map !! ScanResult.data_center r with
            | Some loc => ScanResult.region r = Location.region loc /\
                          ScanResult.city r = Location.city loc
            | None => ScanResult.region r = EmptyString /\
                      ScanResult.city r = EmptyString
            end) results.
Proof.
  rewrite scan_pool. intros [= <- <-]. split; [reflexivity|].
  split; [apply length_kept_from_le|].
  apply List.Forall_forall. intros r Hr. apply list_elem_of_In in Hr.
  apply elem_of_kept_from in Hr as (i & ip & Hi & Hp).
  apply probe_spec in Hp as (ms & response & code & _ & _ & _ & _ & _ & Hc & ->).
  cbn [ScanResult.ip ScanResult.data_center ScanResult.region ScanResult.city].
  apply search_colo_some in Hc as (Hne & Hu & _).
  split; [|split; [exact Hne|split; [exact Hu|]]].
  - apply list_elem_of_In. eapply list_elem_of_lookup_2. exact Hi.
  - destruct (location_map !! code); split; reflexivity.
Qed.

Lemma scan_result_invariants_witness :
  1 = Z.of_nat (length ["192.0.2.1"]) /\
  (length [ScanResult.mk "192.0.2.1" "LAX" "North America" "Los Angeles" 12]
   <= length ["192.0.2.1"])%nat /\
  Forall (fun r =>
            In (ScanResult.ip r) ["192.0.2.1"] /\
            ScanResult.data_center r <> EmptyString /\
            all_chars is_upper (ScanResult.data_center r) = true /\
            match build_location_map demo_locations !! ScanResult.data_center r with
            | Some loc => ScanResult.region r = Location.region loc /\
                          ScanResult.city r = Location.city loc
            | None => ScanResult.region r = EmptyString /\
                      ScanResult.city r = EmptyString
            end)
         [ScanResult.mk "192.0.2.1" "LAX" "North America" "Los Angeles" 12].
Proof.
  apply (scan_result_invariants (fun s => s) (build_location_map demo_locations)
           ["192.0.2.1"] (fun _ => demo_exchange)).
  vm_compute. reflexivity.
Defined.

(** ** AddressSampler: the whole list *)

Lemma ipv4_block_free subnet a b c :
  ipv4_block subnet = Some (a, b, c) ->
  free_of "." a = true /\ free_of "." b = true /\ free_of "." c = true.
Proof.
  intros Hb. apply ipv4_block_spec in Hb as (_ & d & Hs).
  pose proof (split_pieces_free "." (PyStr.drop_last 3 subnet)) as Hf.
  rewrite Hs in Hf.
  apply Forall_cons in Hf as [Ha Hf]. apply Forall_cons in Hf as [Hb Hf].
  apply Forall_cons in Hf as [Hc _]. auto.
Qed.

Lemma ipv4_candidate_split a b c n :
  free_of "." a = true -> free_of "." b = true -> free_of "." c = true ->
  0 <= n <= 255 ->
  PyStr.split "." (ipv4_candidate (a, b, c) n) = [a; b; c; PyStr.str n].
Proof.
  intros Ha Hb Hc Hn. unfold ipv4_candidate. apply (split_join "."); [discriminate|].
  repeat constructor; try assumption. apply str_free_of_dot, Hn.
Qed.

(** Every IPv4 candidate has four dot-separated octets: the first three
    of its block, in the order of the blocks, and the decimal numeral of
    a value between 0 and 255. *)
Theorem ipv4_candidates_keep_prefix {G : Type} `{RandomSource G}
    (ip_list : list string) (g : G) :
  Forall2 (fun block ip =>
             exists n, 0 <= n <= 255 /\
               PyStr.split "." ip =
               [fst (fst block); snd (fst block); snd block; PyStr.str n])
          (omap ipv4_block ip_list) (fst (get_random_ipv4s ip_list g)).
Proof.
  rewrite get_random_ipv4s_spec. cbn [fst].
  pose proof (draws_length 0 255 (length (omap ipv4_block ip_list)) g) as Hlen.
  pose proof (draws_range 0 255 (length (omap ipv4_block ip_list)) ltac:(lia) g) as Hr.
  assert (Hfree : Forall (fun block => exists subnet, ipv4_block subnet = Some block)
                         (omap ipv4_block ip_list)).
  { clear. induction ip_list as [|subnet rest IH]; [constructor|].
    cbn [omap list_omap]. change (list_omap _ _ ipv4_block rest) with (omap ipv4_block rest).
    destruct (ipv4_block subnet) as [block|] eqn:E; [|exact IH].
    constructor; [eauto|exact IH]. }
  revert Hlen Hr Hfree. generalize (fst (draws 0 255 (length (omap ipv4_block ip_list)) g)).
  generalize (omap ipv4_block ip_list). intros blocks.
  induction blocks as [|[[a b] c] blocks IH]; intros ns Hlen Hr Hfree.
  - destruct ns; [constructor|discriminate].
  - destruct ns as [|n ns]; [discriminate|].
    apply Forall_cons in Hr as [Hn Hr]. apply Forall_cons in Hfree as [(subnet & Hs) Hfree].
    cbn [zip_with]. constructor.
    + exists n. split; [exact Hn|]. cbn [fst snd].
      destruct (ipv4_block_free subnet a b c Hs) as (Ha & Hb & Hc).
      apply ipv4_candidate_split; assumption.
    + apply IH; [cbn [length] in Hlen; lia|exact Hr|exact Hfree].
Qed.

Section SamplerList.
Context {G : Type} `{RandomSource G}.

Lemma draws_add a b k1 : forall k2 g,
  draws a b (k1 + k2) g =
  (fst (draws a b k1 g) ++ fst (draws a b k2 (snd (draws a b k1 g))),
   snd (draws a b k2 (snd (draws a b k1 g)))).
Proof.
  induction k1 as [|k1 IH]; intros k2 g.
  - cbn [Nat.add draws fst snd app]. destruct (draws a b k2 g). reflexivity.
  - cbn [Nat.add draws]. destruct (randint a b g) as [n g1].
    rewrite IH. destruct (draws a b k1 g1) as [ns g2]. reflexivity.
Qed.

Lemma ipv6_candidate_groups subnet sections ns :
  ipv6_block subnet = Some sections ->
  length ns = 5%nat -> Forall (fun n => 0 <= n <= 65535) ns ->
  PyStr.split ":" (PyStr.join ":" (sections ++ map PyStr.format_x ns)) =
    sections ++ map PyStr.format_x ns /\
  length (sections ++ map PyStr.format_x ns) = 8%nat.
Proof.
  unfold ipv6_block. destruct (PyStr.endswith subnet "/48"); [|discriminate].
  destruct (Nat.leb_spec 3 (length (PyStr.split ":" (PyStr.drop_last 3 subnet))))
    as [Hlen|]; [|discriminate].
  intros [= <-] Hn Hr. split.
  - apply split_join.
    + destruct (PyStr.split ":" (PyStr.drop_last 3 subnet)); [cbn in Hlen; lia|discriminate].
    + apply Forall_app. split; [apply Forall_take, split_pieces_free|].
      clear -Hr. induction Hr as [|n ns Hn _ IH]; constructor; [|exact IH].
      apply format_x_spec, Hn.
  - rewrite length_app, length_map, length_take. lia.
Qed.
End SamplerList.

(** The IPv6 sampler gives one address per block that ends in [/48] and
    has at least three sections, so at most one per input block; it takes
    exactly five draws from the random source for each address and none
    for a skipped block; and every address has eight colon-separated
    groups. *)
Theorem ipv6_sampler_whole_list {G : Type} `{RandomSource G}
    (ip_list : list string) (g : G) :
  let n := length (omap ipv6_block ip_list) in
  length (fst (get_random_ipv6s ip_list g)) = n /\
  (n <= length ip_list)%nat /\
  snd (get_random_ipv6s ip_list g) = snd (draws 0 65535 (5 * n) g) /\
  Forall (fun ip => length (PyStr.split ":" ip) = 8%nat)
         (fst (get_random_ipv6s ip_list g)).
Proof.
  cbv zeta. split; [|split; [apply length_omap_le_length|]].
  - revert g. induction ip_list as [|subnet rest IH]; intros g; [reflexivity|].
    rewrite get_random_ipv6s_cons. cbn [omap list_omap].
    change (list_omap _ _ ipv6_block rest) with (omap ipv6_block rest).
    destruct (ipv6_block subnet) as [sections|]; [|apply IH].
    destruct (draws 0 65535 5 g) as [ns g1]. specialize (IH g1).
    destruct (get_random_ipv6s rest g1) as [ips g2]. cbn [fst length] in *. congruence.
  - revert g. induction ip_list as [|subnet rest IH]; intros g; [split; [reflexivity|constructor]|].
    rewrite get_random_ipv6s_cons. cbn [omap list_omap].
    change (list_omap _ _ ipv6_block rest) with (omap ipv6_block rest).
    destruct (ipv6_block subnet) as [sections|] eqn:E; [|apply IH].
    cbn [length].
    replace (5 * S (length (omap ipv6_block rest)))%nat
      with (5 + 5 * length (omap ipv6_block rest))%nat by lia.
    rewrite draws_add.
    pose proof (draws_length 0 65535 5 g) as Hlen.
    pose proof (draws_range 0 65535 5 ltac:(lia) g) as Hr.
    destruct (draws 0 65535 5 g) as [ns g1]. cbn [fst snd] in *.
    destruct (IH g1) as [IH1 IH2].
    destruct (get_random_ipv6s rest g1) as [ips g2]. cbn [fst snd] in *.
    split; [exact IH1|]. constructor; [|exact IH2].
    destruct (ipv6_candidate_groups subnet sections ns E Hlen Hr) as [Hs Hl].
    rewrite Hs. exact Hl.
Qed.

(** ** [write_ips_to_file] and [extract_top_ips] *)

Lemma append_nil_r (s : string) : s +:+ EmptyString = s.
Proof.
  induction s as [|c s IH]; [reflexivity|].
  change (String c s +:+ EmptyString) with (String c (s +:+ EmptyString)).
  rewrite IH. reflexivity.
Qed.

Lemma write_fold ips : forall content,
  fold_left (fun content ip => content +:+ ip +:+ String newline EmptyString)
            ips content =
  content +:+ write_ips_to_file ips.
Proof.
  unfold write_ips_to_file. induction ips as [|ip ips IH]; intros content.
  - cbn [fold_left]. symmetry. apply append_nil_r.
  - cbn [fold_left]. rewrite IH, (IH (EmptyString +:+ _)).
    change (EmptyString +:+ ip +:+ String newline EmptyString)
      with (ip +:+ String newline EmptyString).
    rewrite !append_assoc. reflexivity.
Qed.

Lemma write_cons ip ips :
  write_ips_to_file (ip :: ips) = ip +:+ String newline (write_ips_to_file ips).
Proof.
  unfold write_ips_to_file at 1. cbn [fold_left]. rewrite write_fold.
  change (EmptyString +:+ ip +:+ String newline EmptyString)
    with (ip +:+ String newline EmptyString).
  rewrite append_assoc. reflexivity.
Qed.

(** The file written holds one line per address: split at the newlines
    it gives the addresses back, in order, followed by the empty piece
    after the last newline. *)
Theorem written_ips_split_back (ips : list string) :
  Forall (fun ip => free_of newline ip = true) ips ->
  PyStr.split newline (write_ips_to_file ips) = ips ++ [EmptyString].
Proof.
  induction 1 as [|ip ips Hip _ IH]; [reflexivity|].
  rewrite write_cons, split_app_sep by exact Hip. rewrite IH. reflexivity.
Qed.

Lemma written_ips_split_back_witness :
  PyStr.split newline (write_ips_to_file ["192.0.2.1"; "192.0.2.7"]) =
  ["192.0.2.1"; "192.0.2.7"] ++ [EmptyString].
Proof.
  apply (written_ips_split_back ["192.0.2.1"; "192.0.2.7"]).
  repeat constructor.
Defined.

Lemma first_fields_spec rows :
  match first_fields rows with
  | None => In [] rows
  | Some ips => ~ In [] rows /\ ips = map (fun row => hd EmptyString row) rows
  end.
Proof.
  induction rows as [|row rows IH]; [split; [intros []|reflexivity]|].
  cbn [first_fields]. destruct row as [|ip fields]; [left; reflexivity|].
  destruct (first_fields rows) as [ips|].
  - destruct IH as [Hn ->]. split; [|reflexivity].
    intros [E|Hin]; [discriminate|contradiction].
  - right. exact IH.
Qed.

(** [extract_top_ips] raises [IndexError] exactly when some row after the
    header is empty, wherever it is, even after the tenth; otherwise it
    writes the first fields of the first ten rows, one per line, so at
    most ten lines. *)
Theorem top_ips_written (rows : list (list string)) :
  (extract_top_ips (Some rows) = RaisedIndexError <-> In [] rows) /\
  (~ In [] rows ->
   let top_ips := take 10 (map (fun row => hd EmptyString row) rows) in
   extract_top_ips (Some rows) = Wrote (write_ips_to_file top_ips) /\
   (length top_ips <= 10)%nat /\
   length top_ips = Nat.min 10 (length rows)).
Proof.
  unfold extract_top_ips. pose proof (first_fields_spec rows) as Hf.
  destruct (first_fields rows) as [ips|].
  - destruct Hf as [Hn ->]. split; [split; [discriminate|contradiction]|].
    intros _. cbv zeta. rewrite length_take, length_map. repeat split; lia.
  - split; [split; [intros _; exact Hf|reflexivity]|]. intros Hn. contradiction.
Qed.

(** ** Blocks in CIDR notation *)

Lemma length_string_app (s t : string) :
  String.length (s +:+ t) = (String.length s + String.length t)%nat.
Proof.
  induction s as [|c s IH]; [reflexivity|].
  change (String c s +:+ t) with (String c (s +:+ t)). cbn [String.length]. lia.
Qed.

Lemma endswith_app s suffix : PyStr.endswith (s +:+ suffix) suffix = true.
Proof.
  induction s as [|c s IH].
  - change (EmptyString +:+ suffix) with suffix.
    destruct suffix as [|a suffix]; cbn [PyStr.endswith];
      rewrite Nat.eqb_refl; apply String.eqb_refl.
  - change (String c s +:+ suffix) with (String c (s +:+ suffix)).
    cbn [PyStr.endswith].
    destruct (Nat.eqb_spec (String.length (String c (s +:+ suffix)))
                           (String.length suffix)) as [E|_]; [|exact IH].
    cbn [String.length] in E. rewrite length_string_app in E. lia.
Qed.

Lemma substring_app s : forall t,
  String.substring 0 (String.length s) (s +:+ t) = s.
Proof.
  induction s as [|c s IH]; intros t.
  - change (EmptyString +:+ t) with t. destruct t; reflexivity.
  - change (String c s +:+ t) with (String c (s +:+ t)).
    cbn [String.length String.substring]. rewrite IH. reflexivity.
Qed.

Lemma drop_last_app s suffix :
  PyStr.drop_last (String.length suffix) (s +:+ suffix) = s.
Proof.
  unfold PyStr.drop_last. rewrite length_string_app.
  replace (String.length s + String.length suffix - String.length suffix)%nat
    with (String.length s) by lia.
  apply substring_app.
Qed.

(** A block written [a.b.c.d/24] is eligible, with first three octets
    [a], [b] and [c]: the sampler cuts the mask off and splits the base
    at its three dots. *)
Theorem ipv4_block_of_cidr (a b c d : string) :
  free_of "." a = true -> free_of "." b = true ->
  free_of "." c = true -> free_of "." d = true ->
  ipv4_block (PyStr.join "." [a; b; c; d] +:+ "/24") = Some (a, b, c) /\
  forall {G : Type} `{RandomSource G} (g : G),
    fst (get_random_ipv4s [PyStr.join "." [a; b; c; d] +:+ "/24"] g) =
    [PyStr.join "." [a; b; c; PyStr.str (fst (randint 0 255 g))]].
Proof.
  intros Ha Hb Hc Hd.
  assert (Hblock : ipv4_block (PyStr.join "." [a; b; c; d] +:+ "/24") = Some (a, b, c)).
  { unfold ipv4_block. rewrite endswith_app.
    change (PyStr.drop_last 3 (PyStr.join "." [a; b; c; d] +:+ "/24"))
      with (PyStr.drop_last (String.length "/24") (PyStr.join "." [a; b; c; d] +:+ "/24")).
    rewrite drop_last_app.
    rewrite (split_join "."); [reflexivity|discriminate|].
    repeat constructor; assumption. }
  split; [exact Hblock|]. intros G HG g.
  rewrite get_random_ipv4s_cons, Hblock. cbn [get_random_ipv4s].
  destruct (randint 0 255 g) as [n g1]. reflexivity.
Qed.

Lemma ipv4_block_of_cidr_witness :
  ipv4_block (PyStr.join "." ["104"; "16"; "0"; "0"] +:+ "/24") =
    Some ("104", "16", "0") /\
  forall {G : Type} `{RandomSource G} (g : G),
    fst (get_random_ipv4s [PyStr.join "." ["104"; "16"; "0"; "0"] +:+ "/24"] g) =
    [PyStr.join "." ["104"; "16"; "0"; PyStr.str (fst (randint 0 255 g))]].
Proof.
  apply (ipv4_block_of_cidr "104" "16" "0" "0"); reflexivity.
Defined.

(** A block written as three or more colon-separated sections followed
    by [/48] is eligible, with its first three sections kept. *)
Theorem ipv6_block_of_cidr (sections : list string) :
  (3 <= length sections)%nat ->
  Forall (fun s => free_of ":" s = true) sections ->
  ipv6_block (PyStr.join ":" sections +:+ "/48") = Some (take 3 sections).
Proof.
  intros Hlen Hfree. unfold ipv6_block. rewrite endswith_app.
  cbv zeta.
  change (PyStr.drop_last 3 (PyStr.join ":" sections +:+ "/48"))
    with (PyStr.drop_last (String.length "/48") (PyStr.join ":" sections +:+ "/48")).
  rewrite drop_last_app.
  rewrite (split_join ":"); [|destruct sections; [cbn in Hlen; lia|discriminate]|exact Hfree].
  destruct (Nat.leb_spec 3 (length sections)); [reflexivity|lia].
Qed.

Lemma ipv6_block_of_cidr_witness :
  ipv6_block (PyStr.join ":" ["2606"; "4700"; "10"; EmptyString; EmptyString] +:+ "/48")
  = Some (take 3 ["2606"; "4700"; "10"; EmptyString; EmptyString]).
Proof.
  apply (ipv6_block_of_cidr ["2606"; "4700"; "10"; EmptyString; EmptyString]).
  - simpl. lia.
  - repeat constructor.
Defined.

(** ** [main]: the prompts *)

(** The address family asked for is always 4 or 6: the first line that
    is empty (meaning 4) or reads as the integer 4 or 6 decides, and
    every line before it was neither. *)
Theorem chosen_ip_type (parse_int : string -> option Z) (inputs : list string)
    (ip_type : Z) (rest : list string) :
  choose_ip_type parse_int inputs = Some (ip_type, rest) ->
  (ip_type = 4 \/ ip_type = 6) /\
  exists invalid line,
    inputs = invalid ++ line :: rest /\
    Forall (fun l => l <> EmptyString /\ parse_int l <> Some 4 /\ parse_int l <> Some 6)
           invalid /\
    ((line = EmptyString /\ ip_type = 4) \/
     (line <> EmptyString /\ parse_int line = Some ip_type)).
Proof.
  induction inputs as [|l inputs IH]; [discriminate|].
  cbn [choose_ip_type].
  destruct (String.eqb_spec l EmptyString) as [->|Hne].
  { intros [= <- <-]. split; [left; reflexivity|].
    exists [], EmptyString. split; [reflexivity|]. split; [constructor|].
    left. split; reflexivity. }
  assert (Hnext : choose_ip_type parse_int inputs = Some (ip_type, rest) ->
                  parse_int l <> Some 4 -> parse_int l <> Some 6 ->
                  (ip_type = 4 \/ ip_type = 6) /\
                  exists invalid line,
                    l :: inputs = invalid ++ line :: rest /\
                    Forall (fun l => l <> EmptyString /\ parse_int l <> Some 4 /\
                                     parse_int l <> Some 6) invalid /\
                    ((line = EmptyString /\ ip_type = 4) \/
                     (line <> EmptyString /\ parse_int line = Some ip_type))).
  { intros Hc H4 H6. destruct (IH Hc) as (Ht & invalid & line & -> & Hall & Hline).
    split; [exact Ht|]. exists (l :: invalid), line.
    split; [reflexivity|]. split; [|exact Hline]. constructor; [|exact Hall]. auto. }
  destruct (parse_int l) as [t|] eqn:Ep; [|intros Hc; apply Hnext; [exact Hc|discriminate..]].
  destruct (Z.eqb_spec t 4) as [->|H4]; cbn [orb].
  { intros [= <- <-]. split; [left; reflexivity|].
    exists [], l. split; [reflexivity|]. split; [constructor|]. right. auto. }
  destruct (Z.eqb_spec t 6) as [->|H6].
  { intros [= <- <-]. split; [right; reflexivity|].
    exists [], l. split; [reflexivity|]. split; [constructor|]. right. auto. }
  intros Hc. apply Hnext; [exact Hc|congruence..].
Qed.

Lemma chosen_ip_type_witness :
  (6 = 4 \/ 6 = 6) /\
  exists invalid line,
    ["5"; "six"; "6"; "4"] = invalid ++ line :: ["4"] /\
    Forall (fun l => l <> EmptyString /\ demo_parse_int l <> Some 4 /\
                     demo_parse_int l <> Some 6) invalid /\
    ((line = EmptyString /\ 6 = 4) \/
     (line <> EmptyString /\ demo_parse_int line = Some 6)).
Proof.
  apply (chosen_ip_type demo_parse_int ["5"; "six"; "6"; "4"] 6 ["4"]).
  vm_compute. reflexivity.
Defined.

(** The update choice is always ["y"] or ["n"], the lower-cased first
    line that is one of them, an empty line counting as ["n"]; every line
    before it, lower-cased in the same way, was neither. *)
Theorem chosen_update (lower : string -> string) (inputs : list string)
    (choice : string) (rest : list string) :
  choose_update lower inputs = Some (choice, rest) ->
  (choice = "y" \/ choice = "n") /\
  exists invalid line,
    inputs = invalid ++ line :: rest /\
    Forall (fun l => lower (if String.eqb l EmptyString then "n" else l) <> "y" /\
                     lower (if String.eqb l EmptyString then "n" else l) <> "n")
           invalid /\
    choice = lower (if String.eqb line EmptyString then "n" else line).
Proof.
  induction inputs as [|l inputs IH]; [discriminate|].
  cbn [choose_update].
  destruct (String.eqb_spec (lower (if String.eqb l EmptyString then "n" else l)) "y")
    as [Ey|Hny]; cbn [orb].
  { intros [= <- <-]. split; [left; exact Ey|]. exists [], l.
    split; [reflexivity|]. split; [constructor|reflexivity]. }
  destruct (String.eqb_spec (lower (if String.eqb l EmptyString then "n" else l)) "n")
    as [En|Hnn].
  { intros [= <- <-]. split; [right; exact En|]. exists [], l.
    split; [reflexivity|]. split; [constructor|reflexivity]. }
  intros Hc. destruct (IH Hc) as (Ht & invalid & line & -> & Hall & Hline).
  split; [exact Ht|]. exists (l :: invalid), line. split; [reflexivity|].
  split; [|exact Hline]. constructor; [split; assumption|exact Hall].
Qed.

Lemma chosen_update_witness :
  ("y" = "y" \/ "y" = "n") /\
  exists invalid line,
    ["maybe"; "yes"; "y"; "n"] = invalid ++ line :: ["n"] /\
    Forall (fun l => (fun s : string => s)
                       (if String.eqb l EmptyString then "n" else l) <> "y" /\
                     (fun s : string => s)
                       (if String.eqb l EmptyString then "n" else l) <> "n")
           invalid /\
    "y" = (fun s : string => s) (if String.eqb line EmptyString then "n" else line).
Proof.
  apply (chosen_update (fun s => s) ["maybe"; "yes"; "y"; "n"] "y" ["n"]).
  vm_compute. reflexivity.
Defined.
